(** * TechTrack: the record store, the item lifecycle and the report triage
    of [app.py], embedded over a model of the spreadsheet it talks to. *)

From Stdlib Require Import NArith Ascii String.
From stdpp Require Import base option list strings gmap.

(** ** Exceptions, results and the user interface *)

(** The exceptions that can travel through the code.  [TransportError] stands
    for whatever the spreadsheet client raises when the network, the
    credentials or the rate limit fail, [LibraryError] for what the barcode
    and image libraries raise. *)
Inductive exn : Type :=
  | TransportError (msg : string)
  | WorksheetNotFound (title : string)
  | GSpreadException (msg : string)
  | KeyError (key : string)
  | IndexError (msg : string)
  | JSONDecodeError (msg : string)
  | UnicodeDecodeError (msg : string)
  | ValueError (msg : string)
  | RecursionError (msg : string)
  | LibraryError (msg : string).

(** [str(e)] *)
Definition exn_str (e : exn) : string :=
  match e with
  | TransportError msg => msg
  | WorksheetNotFound title => title
  | GSpreadException msg => msg
  | KeyError key => "'" +:+ key +:+ "'"
  | IndexError msg => msg
  | JSONDecodeError msg => msg
  | UnicodeDecodeError msg => msg
  | ValueError msg => msg
  | RecursionError msg => msg
  | LibraryError msg => msg
  end.

Inductive result (A : Type) : Type :=
  | Ok (a : A)
  | Raise (e : exn).
Arguments Ok {A} a.
Arguments Raise {A} e.

(** What Streamlit is asked to display: [st.error], [st.warning], [st.success]. *)
Inductive ui_event : Type :=
  | st_error (msg : string)
  | st_warning (msg : string)
  | st_success (msg : string).

(** ** The world the script runs in *)

(** A worksheet is the list of its rows, first the header row; a cell is text. *)
Abbreviation grid := (list (list string)).

(** The spreadsheet ([sheets], by worksheet title), the outcome of the coming
    client calls ([faults]: one entry per call, [Some e] makes the call raise
    [e], an exhausted schedule lets every call through), the values
    [uuid.uuid4()] will return and how many were drawn, the text
    [datetime.now().strftime("%Y-%m-%d %H:%M")] returns, and what was
    displayed so far. *)
Record world : Type := World {
  sheets : gmap string grid;
  faults : list (option exn);
  uuids : nat → string;
  uuid_count : nat;
  clock : string;
  ui : list ui_event;
}.

Definition set_sheets (f : gmap string grid → gmap string grid) (w : world) : world :=
  World (f (sheets w)) (faults w) (uuids w) (uuid_count w) (clock w) (ui w).
Definition set_faults (l : list (option exn)) (w : world) : world :=
  World (sheets w) l (uuids w) (uuid_count w) (clock w) (ui w).
Definition tick_uuid (w : world) : world :=
  World (sheets w) (faults w) (uuids w) (S (uuid_count w)) (clock w) (ui w).
Definition show (ev : ui_event) (w : world) : world :=
  World (sheets w) (faults w) (uuids w) (uuid_count w) (clock w) (ui w ++ [ev]).

(** ** A state and exception monad *)

Definition M (A : Type) : Type := world → result A * world.

Definition run_ret {A} (a : A) : M A := λ w, (Ok a, w).
Definition run_bind {A B} (k : A → M B) (m : M A) : M B := λ w,
  match m w with
  | (Ok a, w') => k a w'
  | (Raise e, w') => (Raise e, w')
  end.
#[export] Instance M_ret : MRet M := @run_ret.
#[export] Instance M_bind : MBind M := @run_bind.

Definition raise {A} (e : exn) : M A := λ w, (Raise e, w).

(** [try: m  except Exception as e: h e] *)
Definition try_except {A} (m : M A) (h : exn → M A) : M A := λ w,
  match m w with
  | (Ok a, w') => (Ok a, w')
  | (Raise e, w') => h e w'
  end.

Definition get_world : M world := λ w, (Ok w, w).
Definition lift_result {A} (r : result A) : M A := λ w, (r, w).
Definition display (ev : ui_event) : M unit := λ w, (Ok tt, show ev w).

(** [uuid.uuid4()] as text, [datetime.now().strftime("%Y-%m-%d %H:%M")] *)
Definition uuid4 : M string := λ w, (Ok (uuids w (uuid_count w)), tick_uuid w).
Definition datetime_now : M string := λ w, (Ok (clock w), w).

(** ** Text helpers *)

Definition upper_ascii (c : ascii) : ascii :=
  let n := nat_of_ascii c in
  if (97 <=? n)%nat && (n <=? 122)%nat then ascii_of_nat (n - 32) else c.

(** [s.upper()], on the hexadecimal digits and dashes of a uuid *)
Fixpoint upper (s : string) : string :=
  match s with
  | EmptyString => EmptyString
  | String c s' => String (upper_ascii c) (upper s')
  end.

(** [str(uuid.uuid4())[:8].upper()] *)
Definition short_uuid : M string :=
  u ← uuid4; mret (upper (String.substring 0 8 u)).

(** ** Python dictionaries with text keys and values, in insertion order *)

Abbreviation pydict := (list (string * string)).

(** [d.get(k)] *)
Fixpoint dict_get (k : string) (d : pydict) : option string :=
  match d with
  | [] => None
  | (k', v) :: d' => if bool_decide (k' = k) then Some v else dict_get k d'
  end.

(** [list(d.keys())], [list(d.values())] *)
Definition dict_keys (d : pydict) : list string := d.*1.
Definition dict_values (d : pydict) : list string := d.*2.

(** [str(x)] of the result of [d.get(k)]: the text itself, or "None" *)
Definition str_of_get (o : option string) : string := default "None" o.

(** [l.index(x)], [None] where Python raises [ValueError] *)
Fixpoint list_index (x : string) (l : list string) : option nat :=
  match l with
  | [] => None
  | y :: l' => if bool_decide (y = x) then Some 0 else S <$> list_index x l'
  end.

(** ** The spreadsheet client (gspread), as the code uses it *)

(** Every call to the client is a round trip that can fail. *)
Definition api_call : M unit := λ w,
  match faults w with
  | [] => (Ok tt, w)
  | None :: rest => (Ok tt, set_faults rest w)
  | Some e :: rest => (Raise e, set_faults rest w)
  end.

Definition sheet_of (title : string) (w : world) : grid :=
  default [] (sheets w !! title).

Definition write_sheet (title : string) (f : grid → grid) : M unit := λ w,
  (Ok tt, set_sheets (λ m, <[title := f (sheet_of title w)]> m) w).

(** [spreadsheet.worksheet(title)]; the handle is the title. *)
Definition get_worksheet (sheet_name : string) : M string :=
  api_call;;
  w ← get_world;
  match sheets w !! sheet_name with
  | Some _ => mret sheet_name
  | None => raise (WorksheetNotFound sheet_name)
  end.

(** The client pads every row it returns to the width of the widest one. *)
Definition fill_gaps (g : grid) : grid :=
  let width := max_list (length <$> g) in
  (λ row, row ++ replicate (width - length row) "") <$> g.

(** [ws.get_all_values()]: the empty list for an empty sheet *)
Definition get_all_values (ws : string) : M grid :=
  api_call;; w ← get_world; mret (fill_gaps (sheet_of ws w)).

(** [ws.get_all_records()]: one dictionary per row below the header, keyed
    by the header row, which must not repeat a name.  Cells are kept as the
    text the sheet holds: the client's conversion of cells that read as
    numbers is left out (the identifiers and statuses this program looks up
    never read as numbers). *)
Definition all_records (g : grid) : result (list pydict) :=
  match fill_gaps g with
  | [] => Ok []
  | keys :: rows =>
      if bool_decide (NoDup keys) then Ok (zip keys <$> rows)
      else Raise (GSpreadException "the header row in the worksheet is not unique")
  end.

Definition get_all_records (ws : string) : M (list pydict) :=
  api_call;; w ← get_world; lift_result (all_records (sheet_of ws w)).

(** [ws.row_values(n)], rows counted from 1 *)
Definition row_values (ws : string) (n : nat) : M (list string) :=
  api_call;; w ← get_world; mret (default [] (sheet_of ws w !! (n - 1))).

(** [ws.append_row(values)] *)
Definition ws_append_row (ws : string) (values : list string) : M unit :=
  api_call;; write_sheet ws (λ g, g ++ [values]).

(** Writing a cell beyond the stored rows or beyond the end of its row
    leaves blank rows and blank cells in between. *)
Definition grid_set (r c : nat) (v : string) (g : grid) : grid :=
  let g' := g ++ replicate (S r - length g) [] in
  let row := default [] (g' !! r) in
  <[r := <[c := v]> (row ++ replicate (S c - length row) "")]> g'.

(** What the sheet holds at a position, blank where nothing is stored *)
Definition cell (g : grid) (r c : nat) : string :=
  default "" (g !! r ≫= (.!! c)).

(** [ws.update_cell(row, col, value)], rows and columns counted from 1 *)
Definition update_cell (ws : string) (row col : nat) (value : string) : M unit :=
  api_call;; write_sheet ws (grid_set (row - 1) (col - 1) value).

(** ** Data frames (pandas), as the code uses them *)

(** [pd.DataFrame(records)]: the rows, each with the header's keys. *)
Abbreviation DataFrame := (list pydict).

(** [df.columns]: the keys met in the rows, in order of first appearance *)
Definition df_columns (df : DataFrame) : list string :=
  remove_dups (mjoin (dict_keys <$> df)).

(** [df.empty]: no row, or no column *)
Definition df_empty (df : DataFrame) : bool :=
  bool_decide (df = []) || bool_decide (df_columns df = []).

(** [df[col].values]: [KeyError] when no such column; a row without the key
    holds a missing value there. *)
Definition df_values (col : string) (df : DataFrame) : M (list (option string)) :=
  if bool_decide (col ∈ df_columns df) then mret (dict_get col <$> df)
  else raise (KeyError col).

(** [row[col] == val] *)
Definition has_value (col val : string) (row : pydict) : Prop := dict_get col row = Some val.

#[export] Instance has_value_dec col val row : Decision (has_value col val row).
Proof. unfold has_value. apply _. Defined.

(** [df[df[col] == val].iloc[0]]: the first row holding [val] in column [col] *)
Definition df_first_where (col val : string) (df : DataFrame) : M pydict :=
  df_values col df;;
  match list_find (has_value col val) df with
  | Some (_, r) => mret r
  | None => raise (IndexError "single positional indexer is out-of-bounds")
  end.

(** [row[col]] on a row taken from a frame whose rows share their keys *)
Definition series_get (col : string) (row : pydict) : M string :=
  match dict_get col row with
  | Some v => mret v
  | None => raise (KeyError col)
  end.

(** ** Read and write helpers (lines 66-111) *)

Fixpoint for_each {A} (body : A → M unit) (l : list A) : M unit :=
  match l with
  | [] => mret tt
  | x :: l' => body x;; for_each body l'
  end.

(** Lines 66-73 *)
Definition read_sheet (sheet_name : string) : M DataFrame :=
  try_except
    (ws ← get_worksheet sheet_name;
     data ← get_all_records ws;
     mret data)
    (λ e, display (st_error ("Error reading " +:+ sheet_name +:+ ": " +:+ exn_str e));;
          mret []).

(** Lines 75-80 *)
Definition append_row (sheet_name : string) (row : pydict) : M unit :=
  ws ← get_worksheet sheet_name;
  vals ← get_all_values ws;
  (if bool_decide (vals = []) then ws_append_row ws (dict_keys row) else mret tt);;
  ws_append_row ws (dict_values row).

(** The exits of [update_cell_by_id]: the [return] of line 93 after the
    matching row was handled, or the end of the function after line 94.
    Python returns [None] at both. *)
Inductive update_exit : Type := RowUpdated | IdNotFound.

(** The loop of lines 89-92.  [col_name in headers] and
    [headers.index(col_name)] are one lookup here. *)
Fixpoint update_cells (ws : string) (row_num : nat) (headers : list string)
    (update_dict : pydict) : M unit :=
  match update_dict with
  | [] => mret tt
  | (col_name, new_val) :: rest =>
      match list_index col_name headers with
      | Some i => update_cell ws row_num (i + 1) new_val
      | None => mret tt
      end;;
      update_cells ws row_num headers rest
  end.

(** The loop of lines 86-93 over [enumerate(records)], from index [i] on *)
Fixpoint scan_records (ws : string) (headers : list string) (id_col id_val : string)
    (update_dict : pydict) (i : nat) (records : list pydict) : M bool :=
  match records with
  | [] => mret false
  | record :: rest =>
      if bool_decide (str_of_get (dict_get id_col record) = id_val) then
        update_cells ws (i + 2) headers update_dict;; mret true
      else scan_records ws headers id_col id_val update_dict (S i) rest
  end.

(** Lines 82-94.  [id_val] is a text at every call, so [str(id_val)] is
    [id_val]. *)
Definition update_cell_by_id (sheet_name id_col id_val : string)
    (update_dict : pydict) : M update_exit :=
  ws ← get_worksheet sheet_name;
  records ← get_all_records ws;
  headers ← row_values ws 1;
  found ← scan_records ws headers id_col id_val update_dict 0 records;
  if found : bool then mret RowUpdated
  else display (st_error ("ID " +:+ id_val +:+ " not found in " +:+ sheet_name));;
       mret IdNotFound.

Definition Items_header : list string :=
  ["item_id"; "name"; "category"; "location"; "status"; "registered_by";
   "registered_at"; "notes"].
Definition Usage_Log_header : list string :=
  ["log_id"; "item_id"; "item_name"; "technician"; "action"; "timestamp"; "notes"].
Definition Reports_header : list string :=
  ["report_id"; "submitted_by"; "title"; "description"; "priority"; "status";
   "assigned_to"; "created_at"; "updated_at"; "resolution"].
Definition Users_header : list string := ["user_id"; "name"; "role"; "email"].

Definition sheets_headers : list (string * list string) :=
  [("Items", Items_header); ("Usage_Log", Usage_Log_header);
   ("Reports", Reports_header); ("Users", Users_header)].

(** Lines 96-111 *)
Definition init_sheet_headers : M unit :=
  for_each (λ '(sheet_name, headers),
    try_except
      (ws ← get_worksheet sheet_name;
       vals ← get_all_values ws;
       if bool_decide (vals = []) then ws_append_row ws headers else mret tt)
      (λ e, display (st_warning ("Could not init " +:+ sheet_name +:+ ": " +:+ exn_str e))))
    sheets_headers.

Definition demo_users : list pydict :=
  [ [("user_id", "U001"); ("name", "Ahmad Technician"); ("role", "technician"); ("email", "ahmad@tech.com")];
    [("user_id", "U002"); ("name", "Siti Technician"); ("role", "technician"); ("email", "siti@tech.com")];
    [("user_id", "U003"); ("name", "Ali User"); ("role", "user"); ("email", "ali@user.com")];
    [("user_id", "U004"); ("name", "Nurul User"); ("role", "user"); ("email", "nurul@user.com")] ].

(** Lines 113-124 *)
Definition seed_users : M unit :=
  df ← read_sheet "Users";
  if df_empty df then for_each (append_row "Users") demo_users else mret tt.

(** ** The identifier codec (lines 127-150) *)

(** Text as Python has it: a sequence of Unicode code points.  The JSON
    text and the payload fields are of this type; the bytes a barcode holds
    are numbers below 256. *)
Abbreviation pystr := (list N).

(** A literal of the source *)
Definition text (s : string) : pystr := N_of_ascii <$> list_ascii_of_string s.

(** *** [json.dumps] of a dictionary of texts *)

Definition hex_digit (n : N) : N := (if n <? 10 then 48 + n else 87 + n)%N.

(** ['\\u{0:04x}'.format(n)] *)
Definition u_escape (n : N) : pystr :=
  [92; 117; hex_digit (n / 4096); hex_digit ((n / 256) mod 16);
   hex_digit ((n / 16) mod 16); hex_digit (n mod 16)]%N.

(** The replacement of one character by [encode_basestring_ascii] *)
Definition escape_char (c : N) : pystr :=
  (if c =? 34 then [92; 34]
   else if c =? 92 then [92; 92]
   else if c =? 10 then [92; 110]
   else if c =? 13 then [92; 114]
   else if c =? 9 then [92; 116]
   else if c =? 8 then [92; 98]
   else if c =? 12 then [92; 102]
   else if (32 <=? c) && (c <=? 126) then [c]
   else if c <? 65536 then u_escape c
   else let n := c - 65536 in
        u_escape (N.lor 55296 (N.land (N.shiftr n 10) 1023)) ++
        u_escape (N.lor 56320 (N.land n 1023)))%N.

Definition encode_basestring_ascii (s : pystr) : pystr :=
  [34%N] ++ (s ≫= escape_char) ++ [34%N].

Fixpoint join_items (items : list pystr) : pystr :=
  match items with
  | [] => []
  | [item] => item
  | item :: rest => item ++ text ", " ++ join_items rest
  end.

(** [json.dumps(data)] for a dictionary whose keys and values are texts *)
Definition json_dumps (data : list (pystr * pystr)) : pystr :=
  text "{" ++
  join_items ((λ '(k, v), encode_basestring_ascii k ++ text ": " ++ encode_basestring_ascii v)
              <$> data) ++
  text "}".

(** *** [json.loads] *)

#[warnings="-register-all"]
Inductive json : Type :=
  | JNull
  | JBool (b : bool)
  | JInt (z : Z)
  | JFloat (lexeme : pystr)
  | JStr (s : pystr)
  | JArr (items : list json)
  | JObj (members : list (pystr * json)).

(** [d[k] = v] on the members of an object: a key met again keeps its place
    and takes the new value. *)
Fixpoint members_set (k : pystr) (v : json) (d : list (pystr * json)) : list (pystr * json) :=
  match d with
  | [] => [(k, v)]
  | (k', v') :: d' => if bool_decide (k' = k) then (k, v) :: d' else (k', v') :: members_set k v d'
  end.

Definition is_ws (c : N) : bool := ((c =? 32) || (c =? 9) || (c =? 10) || (c =? 13))%N.

Fixpoint skip_ws (s : pystr) : pystr :=
  match s with
  | c :: rest => if is_ws c then skip_ws rest else s
  | [] => []
  end.

Definition hex_value (c : N) : option N :=
  (if (48 <=? c) && (c <=? 57) then Some (c - 48)
   else if (97 <=? c) && (c <=? 102) then Some (c - 87)
   else if (65 <=? c) && (c <=? 70) then Some (c - 55)
   else None)%N.

Definition hex4 (h1 h2 h3 h4 : N) : option N :=
  a ← hex_value h1; b ← hex_value h2; c ← hex_value h3; d ← hex_value h4;
  Some (((a * 16 + b) * 16 + c) * 16 + d)%N.

(** The character a backslash escape stands for *)
Definition backslash (esc : N) : option N :=
  (if esc =? 34 then Some 34
   else if esc =? 92 then Some 92
   else if esc =? 47 then Some 47
   else if esc =? 98 then Some 8
   else if esc =? 102 then Some 12
   else if esc =? 110 then Some 10
   else if esc =? 114 then Some 13
   else if esc =? 116 then Some 9
   else None)%N.

Definition scanned (c : N) (r : result (pystr * pystr)) : result (pystr * pystr) :=
  match r with
  | Ok (str, rest) => Ok (c :: str, rest)
  | Raise e => Raise e
  end.

(** [scanstring], from the character after the opening quote: the text of
    the string and what follows its closing quote *)
Fixpoint scanstring (s : pystr) : result (pystr * pystr) :=
  match s with
  | [] => Raise (JSONDecodeError "Unterminated string starting at")
  | c :: rest =>
      if (c =? 34)%N then Ok ([], rest)
      else if (c =? 92)%N then
        match rest with
        | [] => Raise (JSONDecodeError "Unterminated string starting at")
        | esc :: rest1 =>
            if (esc =? 117)%N then
              match rest1 with
              | h1 :: h2 :: h3 :: h4 :: rest2 =>
                  match hex4 h1 h2 h3 h4 with
                  | None => Raise (JSONDecodeError "Invalid \uXXXX escape")
                  | Some uni =>
                      if ((55296 <=? uni) && (uni <=? 56319))%N then
                        match rest2 with
                        | b :: u :: g1 :: g2 :: g3 :: g4 :: rest3 =>
                            if ((b =? 92) && (u =? 117))%N then
                              match hex4 g1 g2 g3 g4 with
                              | None => Raise (JSONDecodeError "Invalid \uXXXX escape")
                              | Some uni2 =>
                                  if ((56320 <=? uni2) && (uni2 <=? 57343))%N then
                                    scanned (65536 + N.lor (N.shiftl (uni - 55296) 10)
                                                          (uni2 - 56320))%N
                                            (scanstring rest3)
                                  else scanned uni (scanstring rest2)
                              end
                            else scanned uni (scanstring rest2)
                        | _ => scanned uni (scanstring rest2)
                        end
                      else scanned uni (scanstring rest2)
                  end
              | _ => Raise (JSONDecodeError "Invalid \uXXXX escape")
              end
            else
              match backslash esc with
              | Some ch => scanned ch (scanstring rest1)
              | None => Raise (JSONDecodeError "Invalid \escape")
              end
        end
      else if (c <? 32)%N then Raise (JSONDecodeError "Invalid control character at")
      else scanned c (scanstring rest)
  end.

Definition is_digit (c : N) : bool := ((48 <=? c) && (c <=? 57))%N.

Fixpoint take_digits (s : pystr) : pystr * pystr :=
  match s with
  | c :: rest => if is_digit c then let '(ds, r) := take_digits rest in (c :: ds, r) else ([], s)
  | [] => ([], [])
  end.

Definition digits_value (ds : pystr) : Z :=
  fold_left (λ acc c, acc * 10 + Z.of_N (c - 48))%Z ds 0%Z.

(** A number at the head of [s]: its value and what follows it *)
Definition match_number (s : pystr) : option (result json * pystr) :=
  let '(sign, s1) := match s with
                     | c :: r => if (c =? 45)%N then ([c], r) else ([], s)
                     | [] => ([], s)
                     end in
  match s1 with
  | [] => None
  | c :: r1 =>
      let integer :=
        if ((49 <=? c) && (c <=? 57))%N then let '(ds, r) := take_digits r1 in Some (c :: ds, r)
        else if (c =? 48)%N then Some ([c], r1)
        else None in
      match integer with
      | None => None
      | Some (int_digits, r2) =>
          let '(frac, r3) :=
            match r2 with
            | dot :: d :: r =>
                if (dot =? 46)%N && is_digit d then
                  let '(ds, r') := take_digits r in (dot :: d :: ds, r')
                else ([], r2)
            | _ => ([], r2)
            end in
          let '(exp, r4) :=
            match r3 with
            | e :: r =>
                if ((e =? 101) || (e =? 69))%N then
                  let '(exp_sign, r') :=
                    match r with
                    | sg :: r'' => if ((sg =? 43) || (sg =? 45))%N then ([sg], r'') else ([], r)
                    | [] => ([], r)
                    end in
                  match take_digits r' with
                  | ([], _) => ([], r3)
                  | (ds, r'') => (e :: exp_sign ++ ds, r'')
                  end
                else ([], r3)
            | [] => ([], r3)
            end in
          if bool_decide (frac = []) && bool_decide (exp = []) then
            if (4300 <? length int_digits)%nat then
              Some (Raise (ValueError "Exceeds the limit (4300 digits) for integer string conversion"), r4)
            else
              Some (Ok (JInt (if bool_decide (sign = []) then digits_value int_digits
                              else - digits_value int_digits)%Z), r4)
          else Some (Ok (JFloat (sign ++ int_digits ++ frac ++ exp)), r4)
      end
  end.

(** [s] starts with the literal [lit]: what follows it *)
Fixpoint after_literal (lit s : pystr) : option pystr :=
  match lit, s with
  | [], _ => Some s
  | c :: lit', c' :: s' => if (c =? c')%N then after_literal lit' s' else None
  | _ :: _, [] => None
  end.

(** The members of an object, from the opening quote of a key on.  [value]
    scans one value; [rounds] bounds the number of members by the length of
    the text, which each of them shortens. *)
Fixpoint scan_members (value : pystr → result (json * pystr)) (rounds : nat)
    (s : pystr) (acc : list (pystr * json)) : result (json * pystr) :=
  match s with
  | 34%N :: r0 =>
      match rounds with
      | 0 => Raise (JSONDecodeError "Expecting property name enclosed in double quotes")
      | S rounds' =>
          match scanstring r0 with
          | Raise e => Raise e
          | Ok (key, r1) =>
              match skip_ws r1 with
              | 58%N :: r2 =>
                  match value (skip_ws r2) with
                  | Raise e => Raise e
                  | Ok (v, r3) =>
                      let acc' := members_set key v acc in
                      match skip_ws r3 with
                      | 125%N :: r4 => Ok (JObj acc', r4)
                      | 44%N :: r4 => scan_members value rounds' (skip_ws r4) acc'
                      | _ => Raise (JSONDecodeError "Expecting ',' delimiter")
                      end
                  end
              | _ => Raise (JSONDecodeError "Expecting ':' delimiter")
              end
          end
      end
  | _ => Raise (JSONDecodeError "Expecting property name enclosed in double quotes")
  end.

(** The items of an array, from the first character of an item on *)
Fixpoint scan_items (value : pystr → result (json * pystr)) (rounds : nat)
    (s : pystr) (acc : list json) : result (json * pystr) :=
  match rounds with
  | 0 => Raise (JSONDecodeError "Expecting value")
  | S rounds' =>
      match value s with
      | Raise e => Raise e
      | Ok (v, r1) =>
          match skip_ws r1 with
          | 93%N :: r2 => Ok (JArr (acc ++ [v]), r2)
          | 44%N :: r2 => scan_items value rounds' (skip_ws r2) (acc ++ [v])
          | _ => Raise (JSONDecodeError "Expecting ',' delimiter")
          end
      end
  end.

(** [scan_once]: one value at the head of [s].  [depth] is the number of
    nested calls the interpreter still allows. *)
Fixpoint scan_once (depth : nat) (s : pystr) : result (json * pystr) :=
  match depth with
  | 0 => Raise (RecursionError "maximum recursion depth exceeded")
  | S depth' =>
      match s with
      | [] => Raise (JSONDecodeError "Expecting value")
      | c :: rest =>
          if (c =? 34)%N then
            match scanstring rest with
            | Ok (str, r) => Ok (JStr str, r)
            | Raise e => Raise e
            end
          else if (c =? 123)%N then
            match skip_ws rest with
            | 125%N :: r => Ok (JObj [], r)
            | s1 => scan_members (scan_once depth') (length s1) s1 []
            end
          else if (c =? 91)%N then
            match skip_ws rest with
            | 93%N :: r => Ok (JArr [], r)
            | s1 => scan_items (scan_once depth') (S (length s1)) s1 []
            end
          else
            match after_literal (text "null") s, after_literal (text "true") s,
                  after_literal (text "false") s, after_literal (text "NaN") s,
                  after_literal (text "Infinity") s, after_literal (text "-Infinity") s with
            | Some r, _, _, _, _, _ => Ok (JNull, r)
            | _, Some r, _, _, _, _ => Ok (JBool true, r)
            | _, _, Some r, _, _, _ => Ok (JBool false, r)
            | _, _, _, Some r, _, _ => Ok (JFloat (text "NaN"), r)
            | _, _, _, _, Some r, _ => Ok (JFloat (text "Infinity"), r)
            | _, _, _, _, _, Some r => Ok (JFloat (text "-Infinity"), r)
            | _, _, _, _, _, _ =>
                match match_number s with
                | Some (Ok v, r) => Ok (v, r)
                | Some (Raise e, _) => Raise e
                | None => Raise (JSONDecodeError "Expecting value")
                end
            end
      end
  end.

(** [json.loads(s)] *)
Definition json_loads (depth : nat) (s : pystr) : result json :=
  match s with
  | 65279%N :: _ => Raise (JSONDecodeError "Unexpected UTF-8 BOM (decode using utf-8-sig)")
  | _ =>
      match scan_once depth (skip_ws s) with
      | Raise e => Raise e
      | Ok (v, r) =>
          if bool_decide (skip_ws r = []) then Ok v else Raise (JSONDecodeError "Extra data")
      end
  end.

(** *** [bytes.decode("utf-8")] *)

Definition is_cont (b : N) : bool := ((128 <=? b) && (b <=? 191))%N.

Definition decoded (c : N) (r : result pystr) : result pystr :=
  match r with
  | Ok str => Ok (c :: str)
  | Raise e => Raise e
  end.

Definition invalid_utf8 : result pystr :=
  Raise (UnicodeDecodeError "'utf-8' codec can't decode byte").

Fixpoint utf8_decode (b : list N) : result pystr :=
  match b with
  | [] => Ok []
  | b0 :: r0 =>
      if (b0 <? 128)%N then decoded b0 (utf8_decode r0)
      else if ((194 <=? b0) && (b0 <=? 223))%N then
        match r0 with
        | b1 :: r1 =>
            if is_cont b1 then
              decoded (N.lor (N.shiftl (N.land b0 31) 6) (N.land b1 63)) (utf8_decode r1)
            else invalid_utf8
        | _ => invalid_utf8
        end
      else if ((224 <=? b0) && (b0 <=? 239))%N then
        match r0 with
        | b1 :: b2 :: r2 =>
            if ((if b0 =? 224 then 160 else 128) <=? b1)%N &&
               (b1 <=? (if b0 =? 237 then 159 else 191))%N && is_cont b2 then
              decoded (N.lor (N.shiftl (N.land b0 15) 12)
                         (N.lor (N.shiftl (N.land b1 63) 6) (N.land b2 63)))
                      (utf8_decode r2)
            else invalid_utf8
        | _ => invalid_utf8
        end
      else if ((240 <=? b0) && (b0 <=? 244))%N then
        match r0 with
        | b1 :: b2 :: b3 :: r3 =>
            if ((if b0 =? 240 then 144 else 128) <=? b1)%N &&
               (b1 <=? (if b0 =? 244 then 143 else 191))%N && is_cont b2 && is_cont b3 then
              decoded (N.lor (N.shiftl (N.land b0 7) 18)
                         (N.lor (N.shiftl (N.land b1 63) 12)
                            (N.lor (N.shiftl (N.land b2 63) 6) (N.land b3 63))))
                      (utf8_decode r3)
            else invalid_utf8
        | _ => invalid_utf8
        end
      else invalid_utf8
  end.

(** *** The two helpers *)

(** The code points of a text of the spreadsheet model, which holds texts as
    their UTF-8 bytes *)
Definition code_points (s : string) : pystr :=
  match utf8_decode (N_of_ascii <$> list_ascii_of_string s) with
  | Ok str => str
  | Raise _ => []
  end.

(** [generate_qr(data)]: the payload as JSON text, handed to the barcode
    library.  [make_qr] stands for the calls to [qrcode] of lines 128-132;
    it raises when the text does not fit in a code. *)
Definition generate_qr {image : Type} (make_qr : pystr → result image)
    (data : list (pystr * pystr)) : result image :=
  make_qr (json_dumps data).

(** [decode_qr_from_upload(uploaded_file)].  [scan] stands for lines 141-145
    (import of [pyzbar], opening and converting the image, [decode]) and
    gives the [data] bytes of each symbol found; [depth] is the nesting the
    interpreter allows to [json.loads].  [None] is the failure to decode. *)
Definition decode_qr_from_upload {upload : Type} (scan : upload → result (list (list N)))
    (depth : nat) (uploaded_file : upload) : M (option json) :=
  try_except
    (symbols ← lift_result (scan uploaded_file);
     match symbols with
     | first :: _ =>
         content ← lift_result (utf8_decode first);
         value ← lift_result (json_loads depth content);
         mret (Some value)
     | [] => mret None
     end)
    (λ e, display (st_warning ("QR decode error: " +:+ exn_str e +:+
                               ". Use Manual Entry tab instead."));;
          mret None).

(** The payload of an item (line 275) and the value [json.loads] gives for
    a dictionary of texts *)
Definition item_payload (item_id name category : pystr) : list (pystr * pystr) :=
  [(text "item_id", item_id); (text "name", name); (text "category", category)].

Definition json_of_dict (data : list (pystr * pystr)) : json :=
  JObj ((λ '(k, v), (k, JStr v)) <$> data).

(** A text made of Unicode scalar values, as any text entered in the forms
    is: no code point of a surrogate, none beyond U+10FFFF *)
Definition scalar (c : N) : Prop := (c < 55296 ∨ 57343 < c < 1114112)%N.
Definition well_formed (s : pystr) : Prop := Forall scalar s.

(** ** Technician and user pages *)

(** The exits of the button handler of [page_register_item] (lines 269-293):
    the name was missing, or the item was saved under the identifier given. *)
Inductive register_exit : Type := NameRequired | Registered (item_id : string).

(** Lines 269-293, with the values of the form's fields, the name of the
    logged-in technician, and the barcode library as [make_qr] (see
    [generate_qr]). *)
Definition page_register_item {image : Type} (make_qr : pystr → result image)
    (tech name category location notes : string) : M register_exit :=
  if bool_decide (name = "") then
    display (st_error "Item name is required!");; mret NameRequired
  else
    u ← short_uuid;
    let item_id := "ITM-" +:+ u in
    let qr_data := item_payload (code_points item_id) (code_points name) (code_points category) in
    qr_img ← lift_result (generate_qr make_qr qr_data);
    now ← datetime_now;
    let new_row :=
      [("item_id", item_id); ("name", name); ("category", category);
       ("location", location); ("status", "available"); ("registered_by", tech);
       ("registered_at", now); ("notes", notes)] in
    append_row "Items" new_row;;
    display (st_success ("✅ Item saved to Google Sheets! ID: **" +:+ item_id +:+ "**"));;
    mret (Registered item_id).

(** The exits of [do_action]: the [return] of line 323, of line 330, of
    line 333, and the end of the function.  Python returns [None] at each. *)
Inductive action_exit : Type :=
  | ItemNotFound
  | CannotCheckOut
  | NotCheckedOut
  | ActionDone.

(** [do_action] (lines 320-353); [items] and [tech] are the variables of
    [page_scan_use] it closes over. *)
Definition do_action (items : DataFrame) (tech : string)
    (item_id action notes_val : string) : M action_exit :=
  missing ← (if df_empty items then mret true
             else ids ← df_values "item_id" items;
                  mret (bool_decide (Some item_id ∉ ids)));
  if missing : bool then
    display (st_error ("Item " +:+ item_id +:+ " not found!"));; mret ItemNotFound
  else
    row ← df_first_where "item_id" item_id items;
    current ← series_get "status" row;
    item_name ← series_get "name" row;
    if bool_decide (action = "use") && bool_decide (current ≠ "available") then
      display (st_error ("❌ Item is currently **" +:+ current +:+ "** — cannot check out!"));;
      mret CannotCheckOut
    else if bool_decide (action = "return") && bool_decide (current ≠ "in_use") then
      display (st_error ("❌ Item is not checked out (status: **" +:+ current +:+ "**)"));;
      mret NotCheckedOut
    else
      let new_status := if bool_decide (action = "use") then "in_use" else "available" in
      update_cell_by_id "Items" "item_id" item_id [("status", new_status)];;
      log_id ← short_uuid;
      now ← datetime_now;
      let log_row :=
        [("log_id", log_id); ("item_id", item_id); ("item_name", item_name);
         ("technician", tech);
         ("action", if bool_decide (action = "use") then "CHECK OUT" else "RETURN");
         ("timestamp", now); ("notes", notes_val)] in
      append_row "Usage_Log" log_row;;
      let emoji := if bool_decide (action = "use") then "🔴" else "✅" in
      let label := if bool_decide (action = "use") then "Checked OUT" else "Returned" in
      display (st_success (emoji +:+ " **" +:+ item_name +:+ "** — " +:+ label +:+ " successfully!"));;
      mret ActionDone.

(** A run of [page_scan_use] in which a button is pressed: the Items table is
    read (line 317), then the button calls [do_action] (lines 381, 384, 409,
    413) on what was read. *)
Definition page_scan_use (tech item_id action notes_val : string) : M action_exit :=
  items ← read_sheet "Items";
  do_action items tech item_id action notes_val.

(** The update button of [page_manage_reports] (lines 495-503), for the
    report selected and the values of the form. *)
Definition page_manage_reports (tech sel_id new_status resolution : string) : M update_exit :=
  now ← datetime_now;
  r ← update_cell_by_id "Reports" "report_id" sel_id
        [("status", new_status); ("assigned_to", tech);
         ("resolution", resolution); ("updated_at", now)];
  display (st_success "✅ Report updated in Google Sheets!");;
  mret r.

(** The exits of the submit button (lines 541-561) *)
Inductive submit_exit : Type := FieldsRequired | Submitted (rep_id : string).

Definition page_submit_report (name title description priority : string) : M submit_exit :=
  if bool_decide (title = "") || bool_decide (description = "") then
    display (st_error "Title and description are required!");; mret FieldsRequired
  else
    u ← short_uuid;
    let rep_id := "RPT-" +:+ u in
    now ← datetime_now;
    let new_row :=
      [("report_id", rep_id); ("submitted_by", name); ("title", title);
       ("description", description); ("priority", priority); ("status", "open");
       ("assigned_to", ""); ("created_at", now); ("updated_at", "");
       ("resolution", "")] in
    append_row "Reports" new_row;;
    display (st_success ("✅ Report submitted! ID: **" +:+ rep_id +:+ "**"));;
    mret (Submitted rep_id).

(** ** Start-up and login (lines 152-189) *)

(** Lines 160-168, run while the session is not initialized: the value is
    [st.session_state.initialized] afterwards, [false] where line 168 stops
    the script. *)
Definition initialize : M bool :=
  try_except
    (init_sheet_headers;; seed_users;; mret true)
    (λ e, display (st_error ("Connection failed: " +:+ exn_str e));; mret false).

(** [login_screen] (lines 171-189), with the account chosen in the select box
    and whether the button is pressed: the value is the user the session
    holds afterwards, if any. *)
Definition login_screen (selected : string) (pressed : bool) : M (option pydict) :=
  users ← read_sheet "Users";
  if df_empty users then
    display (st_error "Could not load users. Check your Google Sheet connection.");;
    mret None
  else
    df_values "name" users;;
    if pressed then
      user_row ← df_first_where "name" selected users;
      mret (Some user_row)
    else mret None.

(** ** The labels of the select boxes (lines 395-398, 479-481) *)

(** [s.split(sep)[0]] for a separator that is not empty: [s] up to the first
    place where [sep] occurs, all of [s] when it occurs nowhere *)
Fixpoint split_first (sep s : string) : string :=
  if String.prefix sep s then EmptyString
  else match s with
       | EmptyString => EmptyString
       | String c s' => String c (split_first sep s')
       end.

(** Line 395 for one row of the table, and line 398 *)
Definition item_option (item_id name : string) : string := item_id +:+ " — " +:+ name.
Definition manual_item_id (selected : string) : string := split_first " — " selected.

(** Line 479 for one row of the table, and line 481 *)
Definition report_option (report_id title : string) : string := report_id +:+ " | " +:+ title.
Definition selected_report_id (sel : string) : string := split_first " | " sel.

(** ** Navigation (lines 192-216, 602-621) *)

(** The page functions [main] can run *)
Inductive page_function : Type :=
  | PageDashboardTech
  | PageRegisterItem
  | PageScanUse
  | PageAvailability
  | PageManageReports
  | PageDashboardUser
  | PageSubmitReport
  | PageTrackReports.

(** The entries of the radio button of [sidebar_nav] for a role (lines
    197-210); the function returns the entry that is selected, one of these. *)
Definition sidebar_nav (role : string) : list string :=
  if bool_decide (role = "technician") then
    ["📊 Dashboard"; "📦 Register Item"; "📷 Scan & Use Item"; "✅ Item Availability"; "📋 Manage Reports"]
  else
    ["📊 My Dashboard"; "📝 Submit Report"; "🔍 Track My Reports"].

(** The chain of comparisons of [main] (lines 610-619) for the role of the
    user and the entry [sidebar_nav] returned: the page function that is
    run, if any. *)
Definition main (role page : string) : option page_function :=
  if bool_decide (role = "technician") then
    if bool_decide (page = "📊 Dashboard") then Some PageDashboardTech
    else if bool_decide (page = "📦 Register Item") then Some PageRegisterItem
    else if bool_decide (page = "📷 Scan & Use Item") then Some PageScanUse
    else if bool_decide (page = "✅ Item Availability") then Some PageAvailability
    else if bool_decide (page = "📋 Manage Reports") then Some PageManageReports
    else None
  else
    if bool_decide (page = "📊 My Dashboard") then Some PageDashboardUser
    else if bool_decide (page = "📝 Submit Report") then Some PageSubmitReport
    else if bool_decide (page = "🔍 Track My Reports") then Some PageTrackReports
    else None.

(** The pages that [main] keeps for technicians *)
Definition technician_page (f : page_function) : bool :=
  match f with
  | PageDashboardTech | PageRegisterItem | PageScanUse | PageAvailability
  | PageManageReports => true
  | PageDashboardUser | PageSubmitReport | PageTrackReports => false
  end.

(** A text without a space character *)
Definition no_space (s : string) : Prop := " "%char ∉ list_ascii_of_string s.

(** ** The counters of the technician dashboard (lines 224-237) *)

(** [len(df[df[col] == val]) if not df.empty else 0] *)
Definition count_where (col val : string) (df : DataFrame) : M nat :=
  if df_empty df then mret 0
  else vals ← df_values col df;
       mret (length (filter (λ v, v = Some val) vals)).

(** The four numbers [page_dashboard_tech] shows: items in all, available,
    in use, and open reports *)
Definition page_dashboard_tech : M (nat * nat * nat * nat) :=
  items ← read_sheet "Items";
  reports ← read_sheet "Reports";
  usage ← read_sheet "Usage_Log";
  let total := length items in
  available ← count_where "status" "available" items;
  in_use ← count_where "status" "in_use" items;
  open_rpts ← count_where "status" "open" reports;
  mret (total, available, in_use, open_rpts).

(** ** The reports of a user (lines 568-596) *)

(** The fields the card of a report reads with [row[...]] (lines 583-592);
    [row.get] of lines 585-586 cannot fail. *)
Definition report_card (row : pydict) : M unit :=
  series_get "status" row;;
  series_get "title" row;;
  series_get "report_id" row;;
  series_get "priority" row;;
  series_get "created_at" row;;
  mret tt.

(** [page_track_reports] for the logged-in user [name]: the reports whose
    cards are shown, in the order they are shown. *)
Definition page_track_reports (name : string) : M (list pydict) :=
  reports ← read_sheet "Reports";
  if df_empty reports then mret []
  else
    df_values "submitted_by" reports;;
    let my := filter (has_value "submitted_by" name) reports in
    if bool_decide (my = []) then mret []
    else for_each report_card (reverse my);; mret (reverse my).

(** ** The counters of the user dashboard (lines 511-521) *)

(** The three numbers [page_dashboard_user] shows to the logged-in user
    [name]: the reports of the user, and how many of them are open and
    resolved. *)
Definition page_dashboard_user (name : string) : M (nat * nat * nat) :=
  reports ← read_sheet "Reports";
  my ← (if df_empty reports then mret []
        else df_values "submitted_by" reports;;
             mret (filter (has_value "submitted_by" name) reports));
  open_rpts ← count_where "status" "open" my;
  resolved ← count_where "status" "resolved" my;
  mret (length my, open_rpts, resolved).

(** ** The second tab of the reports page (lines 472-489) *)

(** The test of line 474 for one row: its status is one of the two given *)
Definition awaits_action (row : pydict) : Prop :=
  dict_get "status" row ∈ [Some "open"; Some "in_progress"].

#[export] Instance awaits_action_dec row : Decision (awaits_action row).
Proof. unfold awaits_action. apply _. Defined.

(** Line 479 for one row: the label is missing where one of its two fields
    is. *)
Definition report_label (row : pydict) : option string :=
  report_id ← dict_get "report_id" row;
  title ← dict_get "title" row;
  Some (report_option report_id title).

(** Lines 474-479 on the frame [reports] of line 452, which is not empty
    there: the labels the select box offers, or [None] where the page
    returns at line 477. *)
Definition report_options (reports : DataFrame) : M (option (list (option string))) :=
  df_values "status" reports;;
  let open_r := filter awaits_action reports in
  if bool_decide (open_r = []) then
    display (st_success "🎉 All reports resolved!");; mret None
  else
    df_values "report_id" reports;;
    df_values "title" reports;;
    mret (Some (report_label <$> open_r)).

(** Lines 481-489 for the label [sel] chosen in the select box: the
    identifier taken from it, which the update button uses, and the row
    that is displayed. *)
Definition selected_report (reports : DataFrame) (sel : string) : M (string * pydict) :=
  let sel_id := selected_report_id sel in
  row ← df_first_where "report_id" sel_id reports;
  series_get "title" row;;
  series_get "submitted_by" row;;
  series_get "priority" row;;
  series_get "description" row;;
  series_get "status" row;;
  mret (sel_id, row).

(** ** A sample world *)

Definition sample_items : grid :=
  [ Items_header;
    ["ITM-0001"; "Multimeter"; "Tools"; "Rack A"; "available"; "Ahmad"; "2024-01-01 09:00"; ""];
    ["ITM-0002"; "Drill"; "Tools"; "Rack B"; "in_use"; "Siti"; "2024-01-02 09:00"; ""] ].

Definition sample_reports : grid :=
  [ Reports_header;
    ["RPT-0001"; "Ali User"; "Line 3 down"; "Conveyor stopped"; "high"; "open"; "";
     "2024-01-03 08:00"; ""; ""] ].

Definition sample_world : world :=
  {| sheets := <["Items" := sample_items]> (<["Usage_Log" := []]>
                 (<["Reports" := sample_reports]> (<["Users" := []]> ∅)));
     faults := [];
     uuids := λ n, nth n ["1b4e28ba-2fa1-11d2-883f-0016d3cca427";
                           "9f3c07d1-5b7e-4c1a-8e2d-3a6b9c0d1e2f"]
                          "c0ffee00-0000-4000-8000-000000000000";
     uuid_count := 0;
     clock := "2024-01-05 10:30";
     ui := [] |}.

(** ** Two more sample worlds *)

(** A spreadsheet whose four worksheets are empty, as before the first run *)
Definition blank_world : world :=
  set_sheets (λ _, <["Items" := []]> (<["Usage_Log" := []]>
                     (<["Reports" := []]> (<["Users" := []]> ∅)))) sample_world.

(** The sample spreadsheet with the demo users in place *)
Definition seeded_world : world :=
  set_sheets (λ m, <["Users" := Users_header :: (dict_values <$> demo_users)]> m) sample_world.

(** * The vocabulary of the statements *)

(** [post m w Q]: the run of [m] from [w] ends in a result and a world that
    satisfy [Q]. *)
Definition post {A} (m : M A) (w : world) (Q : result A → world → Prop) : Prop :=
  Q (m w).1 (m w).2.

(** Two worlds that differ at most in the schedule of faults *)
Definition same_data (w w' : world) : Prop := set_faults [] w' = set_faults [] w.

(** The sources of identifiers and of time are the same in both worlds. *)
Definition same_env (w w' : world) : Prop :=
  uuids w' = uuids w ∧ uuid_count w' = uuid_count w ∧ clock w' = clock w.

(** From [w] to [w'] only the worksheet [t] changed, it kept its number of
    rows, and its cells changed at most at the positions in [P]. *)
Definition touches_only (t : string) (P : nat → nat → Prop) (w w' : world) : Prop :=
  same_env w w' ∧
  (∀ t', t' ≠ t → sheets w' !! t' = sheets w !! t') ∧
  length (sheet_of t w') = length (sheet_of t w) ∧
  (∀ r c, cell (sheet_of t w') r c ≠ cell (sheet_of t w) r c → P r c).

(** The positions the inner loop may write: row [r], and the columns where
    the header names a key of the update. *)
Definition update_targets (r : nat) (headers : list string) (update_dict : pydict)
    (r' c' : nat) : Prop :=
  r' = r ∧ ∃ col_name new_val,
    (col_name, new_val) ∈ update_dict ∧ list_index col_name headers = Some c'.

(** The test of line 87: [str(record.get(id_col)) == str(id_val)] *)
Definition id_matches (id_col id_val : string) (record : pydict) : Prop :=
  str_of_get (dict_get id_col record) = id_val.

#[export] Instance id_matches_dec id_col id_val record :
  Decision (id_matches id_col id_val record).
Proof. unfold id_matches. apply _. Defined.

(** A worksheet that holds a table: a header row that names no column
    twice, and rows no wider than it *)
Definition table (header : list string) (g : grid) : Prop :=
  NoDup header ∧ ∃ rows, g = header :: rows ∧ Forall (λ row, length row ≤ length header) rows.

(** A row as the client returns it for a table of the given width *)
Definition pad_row (width : nat) (row : list string) : list string :=
  row ++ replicate (width - length row) "".

(** What the inner loop leaves in the grid: one cell written per key of the
    update that the header names, in the order of the mapping *)
Definition apply_updates (r : nat) (headers : list string) (update_dict : pydict)
    (g : grid) : grid :=
  fold_left (λ g' '(col_name, new_val),
               match list_index col_name headers with
               | Some c => grid_set r c new_val g'
               | None => g'
               end) update_dict g.

(** The text of record [i] of a table in the column named [col] *)
Definition field (header : list string) (g : grid) (i : nat) (col : string) : string :=
  match list_index col header with
  | Some c => cell g (S i) c
  | None => ""
  end.

(** The worksheet after [append_row]: the header first when it had no row *)
Definition appended (g : grid) (row : pydict) : grid :=
  (g ++ if bool_decide (g = []) then [dict_keys row] else []) ++ [dict_values row].

(** The row a submitted report is stored as *)
Definition report_row (rep_id name title description priority now : string) : pydict :=
  [("report_id", rep_id); ("submitted_by", name); ("title", title);
   ("description", description); ("priority", priority); ("status", "open");
   ("assigned_to", ""); ("created_at", now); ("updated_at", "");
   ("resolution", "")].

(** The row a usage is logged as *)
Definition usage_row (log_id item_id item_name tech action now notes_val : string) : pydict :=
  [("log_id", log_id); ("item_id", item_id); ("item_name", item_name);
   ("technician", tech);
   ("action", if bool_decide (action = "use") then "CHECK OUT" else "RETURN");
   ("timestamp", now); ("notes", notes_val)].

(** What a run of [do_action] has done, by the exit it took *)
Definition do_action_outcome (items : DataFrame) (tech item_id action notes_val : string)
    (w : world) (r : result action_exit) (w' : world) : Prop :=
  match r with
  | Ok ItemNotFound =>
      list_find (has_value "item_id" item_id) items = None ∧
      w' = show (st_error ("Item " +:+ item_id +:+ " not found!")) w
  | Ok CannotCheckOut =>
      action = "use" ∧
      ∃ i row current,
        list_find (has_value "item_id" item_id) items = Some (i, row) ∧
        dict_get "status" row = Some current ∧ current ≠ "available" ∧
        w' = show (st_error ("❌ Item is currently **" +:+ current +:+ "** — cannot check out!")) w
  | Ok NotCheckedOut =>
      action = "return" ∧
      ∃ i row current,
        list_find (has_value "item_id" item_id) items = Some (i, row) ∧
        dict_get "status" row = Some current ∧ current ≠ "in_use" ∧
        w' = show (st_error ("❌ Item is not checked out (status: **" +:+ current +:+ "**)")) w
  | Ok ActionDone =>
      ∃ i row current item_name log,
        list_find (has_value "item_id" item_id) items = Some (i, row) ∧
        dict_get "status" row = Some current ∧
        dict_get "name" row = Some item_name ∧
        (action = "use" → current = "available") ∧
        (action = "return" → current = "in_use") ∧
        sheets w !! "Usage_Log" = Some log ∧
        sheets w' !! "Usage_Log"
        = Some (appended log
                  (usage_row (upper (String.substring 0 8 (uuids w (uuid_count w))))
                     item_id item_name tech action (clock w) notes_val))
  | Raise _ => True
  end.

(** The records of [sample_items] *)
Definition sample_records : DataFrame :=
  [ zip Items_header
      ["ITM-0001"; "Multimeter"; "Tools"; "Rack A"; "available"; "Ahmad"; "2024-01-01 09:00"; ""];
    zip Items_header
      ["ITM-0002"; "Drill"; "Tools"; "Rack B"; "in_use"; "Siti"; "2024-01-02 09:00"; ""] ].

(** What a session can do in one step: the start-up calls, a read of a table
    (all the dashboards and lists do only that), and the four buttons.
    [do_action] is taken with whatever table the page had read before, so
    that steps of several sessions can be interleaved. *)
Inductive operation : Type :=
  | OpInitSheetHeaders
  | OpSeedUsers
  | OpReadSheet (sheet_name : string)
  | OpRegisterItem (tech name category location notes : string)
  | OpDoAction (items : DataFrame) (tech item_id action notes_val : string)
  | OpManageReports (tech sel_id new_status resolution : string)
  | OpSubmitReport (name title description priority : string).

Definition run_operation {image : Type} (make_qr : pystr → result image)
    (op : operation) : M unit :=
  match op with
  | OpInitSheetHeaders => init_sheet_headers
  | OpSeedUsers => seed_users
  | OpReadSheet sheet_name => read_sheet sheet_name;; mret tt
  | OpRegisterItem tech name category location notes =>
      page_register_item make_qr tech name category location notes;; mret tt
  | OpDoAction items tech item_id action notes_val =>
      do_action items tech item_id action notes_val;; mret tt
  | OpManageReports tech sel_id new_status resolution =>
      page_manage_reports tech sel_id new_status resolution;; mret tt
  | OpSubmitReport name title description priority =>
      page_submit_report name title description priority;; mret tt
  end.

(** The world after a sequence of operations; an operation that raised
    leaves the world where it stopped. *)
Definition run_operations {image : Type} (make_qr : pystr → result image)
    (ops : list operation) (w : world) : world :=
  fold_left (λ w' op, (run_operation make_qr op w').2) ops w.

(** Every worksheet keeps the rows it has, in place, and may gain rows after
    them. *)
Definition rows_kept (t : string) (w w' : world) : Prop :=
  sheet_of t w `prefix_of` sheet_of t w'.

(** Every run of [m] keeps the rows of worksheet [t]. *)
Definition keeps_rows {A} (t : string) (m : M A) : Prop := ∀ w, rows_kept t w (m w).2.

(** Between [w] and [w'] the client was called some number of times and
    never failed. *)
Definition no_fault_hit (w w' : world) : Prop :=
  ∃ k, faults w = replicate k None ++ faults w'.

(** Between [w] and [w'] the client was called some number of times without
    failure, then one call raised [e], and no call was made after it. *)
Definition fault_hit (e : exn) (w w' : world) : Prop :=
  ∃ k, faults w = replicate k None ++ Some e :: faults w'.

(** [m] lets the failures of the client through: in every run, either no
    client call fails, or the run stops at the first call that fails and
    raises the very exception that call raised. *)
Definition propagates {A} (m : M A) : Prop :=
  ∀ w, no_fault_hit w (m w).2 ∨ ∃ e, fault_hit e w (m w).2 ∧ (m w).1 = Raise e.

(** A world in which the next client call fails *)
Definition failing_world : world :=
  set_faults [Some (TransportError "429 quota exceeded")] sample_world.

(** The world a successful [do_action] leaves, given the world [w1] left by
    its update of the Items table *)
Definition logged (w1 : world) (log : grid) (entry : pydict) (banner : string) : world :=
  show (st_success banner)
    (set_sheets (λ m, <["Usage_Log" := appended log entry]> m) (tick_uuid w1)).

(** Two runs of the page, the second after the first has finished *)
Definition checkouts_in_turn (tech_a tech_b item_id notes_a notes_b : string)
    : M (action_exit * action_exit) :=
  exit_a ← page_scan_use tech_a item_id "use" notes_a;
  exit_b ← page_scan_use tech_b item_id "use" notes_b;
  mret (exit_a, exit_b).

(** Two runs of the page at the same time: both have read the Items table
    (line 317) before either calls [do_action]. *)
Definition checkouts_overlapping (tech_a tech_b item_id notes_a notes_b : string)
    : M (action_exit * action_exit) :=
  items_a ← read_sheet "Items";
  items_b ← read_sheet "Items";
  exit_a ← do_action items_a tech_a item_id "use" notes_a;
  exit_b ← do_action items_b tech_b item_id "use" notes_b;
  mret (exit_a, exit_b).

(** A text, or the bytes of a code, made of ASCII characters only *)
Definition ascii_only (s : pystr) : Prop := Forall (λ c, (c < 128)%N) s.

(** One member of a dictionary as [json.dumps] writes it *)
Definition dumped_member (kv : pystr * pystr) : pystr :=
  encode_basestring_ascii kv.1 ++ text ": " ++ encode_basestring_ascii kv.2.

(** The members of an object after reading those of [data] in turn *)
Definition members_read (data : list (pystr * pystr)) (acc : list (pystr * json))
    : list (pystr * json) :=
  fold_left (λ a kv, members_set kv.1 (JStr kv.2) a) data acc.

(** Every run of [m] that starts with worksheet [t] in [P] ends with it in [P]. *)
Definition preserves {A} (t : string) (P : grid → Prop) (m : M A) : Prop :=
  ∀ w, P (sheet_of t w) → P (sheet_of t (m w).2).

(** A row of the Items table: no wider than the header, its status one of
    the two the pages write *)
Definition item_row_ok (row : list string) : Prop :=
  length row ≤ 8 ∧ (row !! 4 = Some "available" ∨ row !! 4 = Some "in_use").

Definition items_ok (g : grid) : Prop :=
  g = [] ∨ ∃ rows, g = Items_header :: rows ∧ Forall item_row_ok rows.

(** From [g0] to [g] no row was lost, and the rows of [g0] hold what they
    held outside the columns [cols]. *)
Definition frozen_outside (cols : list nat) (g0 g : grid) : Prop :=
  length g0 ≤ length g ∧
  ∀ r c, r < length g0 → c ∉ cols → cell g r c = cell g0 r c.

(** [g] is empty or a table under [header], and came from [g0] without a
    change outside the columns [cols]. *)
Definition kept_outside (header : list string) (cols : list nat) (g0 g : grid) : Prop :=
  (g = [] ∨ table header g) ∧ frozen_outside cols g0 g.

(** What the pages write into worksheet [t]: its header when it is empty,
    rows in [may_append] after that, and values [v] in the column named
    [col] for the pairs in [may_set]. *)
Definition page_rules (t : string) (header : list string)
    (may_append : list string → Prop) (may_set : string → string → Prop) : Prop :=
  (∀ headers, (t, headers) ∈ sheets_headers → headers = header) ∧
  (t = "Items" →
     (∀ item_id name category location tech now notes,
        may_append [item_id; name; category; location; "available"; tech; now; notes]) ∧
     may_set "status" "in_use" ∧ may_set "status" "available") ∧
  (t = "Usage_Log" →
     ∀ log_id item_id item_name tech now notes,
       may_append [log_id; item_id; item_name; tech; "CHECK OUT"; now; notes] ∧
       may_append [log_id; item_id; item_name; tech; "RETURN"; now; notes]) ∧
  (t = "Reports" →
     (∀ rep_id name title description priority now,
        may_append [rep_id; name; title; description; priority; "open"; ""; now; ""; ""]) ∧
     (∀ v, may_set "status" v ∧ may_set "assigned_to" v ∧
           may_set "resolution" v ∧ may_set "updated_at" v)) ∧
  (t = "Users" → ∀ user, user ∈ demo_users → may_append (dict_values user)).

(** From [w] to [w'] the worksheets are the same, except that empty ones
    may have received the header [sheets_headers] gives them. *)
Definition only_headers_added (w w' : world) : Prop :=
  ∀ t, sheets w' !! t = sheets w !! t ∨
       (sheets w !! t = Some [] ∧
        ∃ headers, (t, headers) ∈ sheets_headers ∧ sheets w' !! t = Some [headers]).

(** The warnings [init_sheet_headers] shows for the worksheets of [names]
    that the spreadsheet [m] does not have *)
Definition init_warnings (m : gmap string grid) (names : list string) : list ui_event :=
  (λ t, st_warning ("Could not init " +:+ t +:+ ": " +:+ t)) <$>
  filter (λ t, m !! t = None) names.

(** A row of the usage log: seven fields, the action one of the two the
    check-out page writes *)
Definition log_row_ok (row : list string) : Prop :=
  length row = 7 ∧ (row !! 4 = Some "CHECK OUT" ∨ row !! 4 = Some "RETURN").

Definition usage_log_ok (g : grid) : Prop :=
  g = [] ∨ ∃ rows, g = Usage_Log_header :: rows ∧ Forall log_row_ok rows.

(** [g] is [g0], or [g0] (under the header of Users, when [g0] was empty)
    followed by rows of demo users. *)
Definition users_seeded (g0 g : grid) : Prop :=
  (g = [] ∨ table Users_header g) ∧
  (g = g0 ∨
   ∃ added, g = (g0 ++ if bool_decide (g0 = []) then [Users_header] else []) ++ added ∧
            Forall (λ row, row ∈ dict_values <$> demo_users) added).

(** * Reasoning about runs *)

Lemma same_data_refl w : same_data w w.
Proof. reflexivity. Qed.

Lemma same_data_trans w1 w2 w3 : same_data w1 w2 → same_data w2 w3 → same_data w1 w3.
Proof. unfold same_data. congruence. Qed.

#[export] Instance same_data_reflexive : Reflexive same_data := same_data_refl.
#[export] Instance same_data_transitive : Transitive same_data := same_data_trans.
#[global] Typeclasses Opaque same_data.

Lemma same_data_set_faults l w : same_data w (set_faults l w).
Proof. reflexivity. Qed.

Lemma same_data_fields w w' :
  same_data w w' →
  sheets w' = sheets w ∧ ui w' = ui w ∧ uuids w' = uuids w ∧
  uuid_count w' = uuid_count w ∧ clock w' = clock w.
Proof.
  destruct w, w'. unfold same_data, set_faults. simpl. intros [= -> -> -> -> ->]. done.
Qed.

Lemma same_data_sheet_of t w w' : same_data w w' → sheet_of t w' = sheet_of t w.
Proof. intros H. unfold sheet_of. by destruct (same_data_fields _ _ H) as [-> _]. Qed.

Lemma same_data_set_sheets f w w' :
  same_data w w' → same_data (set_sheets f w) (set_sheets f w').
Proof.
  intros H. destruct (same_data_fields _ _ H) as (? & ? & ? & ? & ?).
  unfold same_data, set_sheets, set_faults. simpl. congruence.
Qed.

Lemma same_data_show ev w w' : same_data w w' → same_data (show ev w) (show ev w').
Proof.
  intros H. destruct (same_data_fields _ _ H) as (? & ? & ? & ? & ?).
  unfold same_data, show, set_faults. simpl. congruence.
Qed.

Lemma same_data_tick w w' : same_data w w' → same_data (tick_uuid w) (tick_uuid w').
Proof.
  intros H. destruct (same_data_fields _ _ H) as (? & ? & ? & ? & ?).
  unfold same_data, tick_uuid, set_faults. simpl. congruence.
Qed.

Lemma post_ret {A} (a : A) w Q : Q (Ok a) w → post (mret a) w Q.
Proof. done. Qed.

Lemma post_raise {A} e w (Q : result A → world → Prop) : Q (Raise e) w → post (raise e) w Q.
Proof. done. Qed.

Lemma post_bind {A B} (m : M A) (k : A → M B) w Q :
  post m w (λ r w', match r with
                    | Ok a => post (k a) w' Q
                    | Raise e => Q (Raise e) w'
                    end) →
  post (m ≫= k) w Q.
Proof.
  unfold post, mbind, M_bind, run_bind. by destruct (m w) as [[a|e] w'].
Qed.

Lemma post_mono {A} (m : M A) w (Q Q' : result A → world → Prop) :
  post m w Q → (∀ r w', Q r w' → Q' r w') → post m w Q'.
Proof. unfold post. auto. Qed.

Lemma post_try {A} (m : M A) h w Q :
  post m w (λ r w', match r with
                    | Ok a => Q (Ok a) w'
                    | Raise e => post (h e) w' Q
                    end) →
  post (try_except m h) w Q.
Proof. unfold post, try_except. by destruct (m w) as [[a|e] w']. Qed.

Lemma post_api w (Q : result unit → world → Prop) :
  (∀ w', same_data w w' → Q (Ok tt) w') →
  (∀ e w', same_data w w' → Q (Raise e) w') →
  post api_call w Q.
Proof.
  intros Hok Herr. unfold post, api_call.
  destruct (faults w) as [|[e|] l]; simpl;
    [apply Hok | apply Herr | apply Hok]; apply same_data_set_faults || apply same_data_refl.
Qed.

Lemma post_get_world w (Q : result world → world → Prop) : Q (Ok w) w → post get_world w Q.
Proof. done. Qed.

Lemma post_lift {A} (r : result A) w Q : Q r w → post (lift_result r) w Q.
Proof. done. Qed.

Lemma post_display ev w (Q : result unit → world → Prop) :
  Q (Ok tt) (show ev w) → post (display ev) w Q.
Proof. done. Qed.

Lemma post_write_sheet t f w (Q : result unit → world → Prop) :
  Q (Ok tt) (set_sheets (λ m, <[t := f (sheet_of t w)]> m) w) → post (write_sheet t f) w Q.
Proof. done. Qed.

(** Turns a goal about the run [m w] into a goal [post m w _] *)
Ltac by_post m w :=
  pattern (m w);
  lazymatch goal with
  | |- ?P (m w) => change (post m w (λ r w', P (r, w')))
  end.

(** One step of symbolic execution *)
Ltac step :=
  lazymatch goal with
  | |- post (mbind _ _) _ _ => apply post_bind
  | |- post (mret _) _ _ => apply post_ret
  | |- post (raise _) _ _ => apply post_raise
  | |- post api_call _ _ => apply post_api; [intros ? ? | intros ? ? ?]
  | |- post get_world _ _ => apply post_get_world
  | |- post (lift_result _) _ _ => apply post_lift
  | |- post (display _) _ _ => apply post_display
  | |- post (write_sheet _ _) _ _ => apply post_write_sheet
  | |- post (try_except _ _) _ _ => apply post_try
  end.

(** ** The client calls *)

Lemma post_get_worksheet sheet_name w (Q : result string → world → Prop) :
  (∀ w', same_data w w' → is_Some (sheets w !! sheet_name) → Q (Ok sheet_name) w') →
  (∀ e w', same_data w w' → Q (Raise e) w') →
  post (get_worksheet sheet_name) w Q.
Proof.
  intros Hok Herr. unfold get_worksheet. repeat step; [|by apply Herr].
  destruct (same_data_fields _ _ H) as [Hs _]. rewrite Hs.
  destruct (sheets w !! sheet_name) eqn:E; step; eauto.
Qed.

Lemma post_get_all_values ws w (Q : result grid → world → Prop) :
  (∀ w', same_data w w' → Q (Ok (fill_gaps (sheet_of ws w))) w') →
  (∀ e w', same_data w w' → Q (Raise e) w') →
  post (get_all_values ws) w Q.
Proof.
  intros Hok Herr. unfold get_all_values. repeat step; [|by apply Herr].
  rewrite (same_data_sheet_of _ _ _ H). by apply Hok.
Qed.

Lemma post_get_all_records ws w (Q : result (list pydict) → world → Prop) :
  (∀ w', same_data w w' → Q (all_records (sheet_of ws w)) w') →
  (∀ e w', same_data w w' → Q (Raise e) w') →
  post (get_all_records ws) w Q.
Proof.
  intros Hok Herr. unfold get_all_records. repeat step; [|by apply Herr].
  rewrite (same_data_sheet_of _ _ _ H). by apply Hok.
Qed.

Lemma post_row_values ws n w (Q : result (list string) → world → Prop) :
  (∀ w', same_data w w' → Q (Ok (default [] (sheet_of ws w !! (n - 1)))) w') →
  (∀ e w', same_data w w' → Q (Raise e) w') →
  post (row_values ws n) w Q.
Proof.
  intros Hok Herr. unfold row_values. repeat step; [|by apply Herr].
  rewrite (same_data_sheet_of _ _ _ H). by apply Hok.
Qed.

Lemma post_ws_append_row ws values w (Q : result unit → world → Prop) :
  (∀ w', same_data (set_sheets (λ m, <[ws := sheet_of ws w ++ [values]]> m) w) w' →
         Q (Ok tt) w') →
  (∀ e w', same_data w w' → Q (Raise e) w') →
  post (ws_append_row ws values) w Q.
Proof.
  intros Hok Herr. unfold ws_append_row. repeat step; [|by apply Herr].
  apply Hok. rewrite (same_data_sheet_of _ _ _ H). by apply same_data_set_sheets.
Qed.

Lemma post_update_cell ws row col value w (Q : result unit → world → Prop) :
  (∀ w', same_data (set_sheets (λ m, <[ws := grid_set (row - 1) (col - 1) value (sheet_of ws w)]> m) w) w' →
         Q (Ok tt) w') →
  (∀ e w', same_data w w' → Q (Raise e) w') →
  post (update_cell ws row col value) w Q.
Proof.
  intros Hok Herr. unfold update_cell. repeat step; [|by apply Herr].
  apply Hok. rewrite (same_data_sheet_of _ _ _ H). by apply same_data_set_sheets.
Qed.

(** ** Cells of a grid *)

Lemma lookup_pad_cells (row : list string) n c :
  default "" ((row ++ replicate n "") !! c) = default "" (row !! c).
Proof.
  destruct (decide (c < length row)) as [Hlt|Hge].
  - by rewrite lookup_app_l.
  - rewrite lookup_app_r by lia. rewrite (lookup_ge_None_2 row) by lia. simpl.
    destruct (replicate n "" !! (c - length row)) as [x|] eqn:E; [|done].
    apply lookup_replicate in E as [-> _]. done.
Qed.

Lemma cell_pad_rows (g : grid) n r c : cell (g ++ replicate n []) r c = cell g r c.
Proof.
  unfold cell. destruct (decide (r < length g)) as [Hlt|Hge].
  - by rewrite lookup_app_l.
  - rewrite lookup_app_r by lia. rewrite (lookup_ge_None_2 g) by lia. simpl.
    destruct (replicate n [] !! (r - length g)) as [x|] eqn:E; [|done].
    apply lookup_replicate in E as [-> _]. done.
Qed.

Lemma cell_grid_set r c v g r' c' :
  cell (grid_set r c v g) r' c' = if decide (r' = r ∧ c' = c) then v else cell g r' c'.
Proof.
  unfold grid_set.
  set (g' := g ++ replicate (S r - length g) []).
  assert (Hr : r < length g') by (unfold g'; rewrite length_app, length_replicate; lia).
  destruct (decide (r' = r)) as [->|Hne].
  - unfold cell at 1. rewrite list_lookup_insert_eq by done. simpl.
    destruct (decide (c' = c)) as [->|Hc].
    + rewrite list_lookup_insert_eq by (rewrite length_app, length_replicate; lia).
      by rewrite decide_True.
    + rewrite list_lookup_insert_ne by done. rewrite lookup_pad_cells.
      rewrite decide_False by tauto.
      rewrite <- (cell_pad_rows g (S r - length g) r c'). fold g'. unfold cell.
      by destruct (g' !! r).
  - rewrite decide_False by tauto. unfold cell at 1.
    rewrite list_lookup_insert_ne by done.
    apply (cell_pad_rows g (S r - length g) r' c').
Qed.

Lemma length_grid_set r c v (g : grid) : r < length g → length (grid_set r c v g) = length g.
Proof.
  intros Hr. unfold grid_set. rewrite length_insert, length_app, length_replicate. lia.
Qed.

Lemma fill_gaps_nil (g : grid) : fill_gaps g = [] ↔ g = [].
Proof. unfold fill_gaps. split; [apply fmap_nil_inv | by intros ->]. Qed.

Lemma length_fill_gaps (g : grid) : length (fill_gaps g) = length g.
Proof. unfold fill_gaps. by rewrite length_fmap. Qed.

Lemma length_all_records (g : grid) records :
  all_records g = Ok records → length records = length g - 1.
Proof.
  unfold all_records. pose proof (length_fill_gaps g) as Hl.
  destruct (fill_gaps g) as [|keys rows]; [intros [= <-]; simpl in *; lia|].
  case_bool_decide; [|done]. intros [= <-]. rewrite length_fmap. simpl in Hl. lia.
Qed.

(** ** Frames: what a run may touch in one worksheet *)

Lemma same_data_env w w' : same_data w w' → same_env w w'.
Proof. intros H. by destruct (same_data_fields _ _ H) as (_ & _ & ? & ? & ?). Qed.

Lemma same_env_trans w1 w2 w3 : same_env w1 w2 → same_env w2 w3 → same_env w1 w3.
Proof. unfold same_env. intros (-> & -> & ->) (-> & -> & ->). done. Qed.

Lemma touches_only_same t P w w' : same_data w w' → touches_only t P w w'.
Proof.
  intros H. pose proof (same_data_sheet_of t _ _ H) as Hs.
  destruct (same_data_fields _ _ H) as [Hm _].
  split; [by apply same_data_env|].
  split; [by rewrite Hm|]. rewrite Hs. split; [done|]. by intros r c [].
Qed.

Lemma touches_only_trans t P w1 w2 w3 :
  touches_only t P w1 w2 → touches_only t P w2 w3 → touches_only t P w1 w3.
Proof.
  intros (He & Ha & Hb & Hc) (He' & Ha' & Hb' & Hc').
  split; [by eapply same_env_trans|]. split; [|split].
  - intros t' Hne. rewrite Ha', Ha; done.
  - congruence.
  - intros r c Hne.
    destruct (decide (cell (sheet_of t w2) r c = cell (sheet_of t w1) r c)) as [E|E];
      [apply Hc'; congruence | by apply Hc].
Qed.

Lemma touches_only_mono t (P P' : nat → nat → Prop) w w' :
  (∀ r c, P r c → P' r c) → touches_only t P w w' → touches_only t P' w w'.
Proof. intros HP (He & Ha & Hb & Hc). repeat (split; [done|]). auto. Qed.

Lemma touches_only_set t (P : nat → nat → Prop) r c v w w' :
  r < length (sheet_of t w) → P r c →
  same_data (set_sheets (λ m, <[t := grid_set r c v (sheet_of t w)]> m) w) w' →
  touches_only t P w w'.
Proof.
  intros Hr HP H.
  destruct (same_data_fields _ _ H) as [Hm _]. simpl in Hm.
  assert (Hs : sheet_of t w' = grid_set r c v (sheet_of t w)).
  { unfold sheet_of at 1. rewrite Hm, lookup_insert_eq. done. }
  split; [exact (same_data_env _ _ H)|]. split; [|split].
  - intros t' Hne. rewrite Hm. by rewrite lookup_insert_ne.
  - rewrite Hs. by apply length_grid_set.
  - intros r' c'. rewrite Hs, cell_grid_set. case_decide as Hd; [|done].
    destruct Hd as [-> ->]. done.
Qed.

(** ** [update_cell_by_id] *)

Lemma list_index_None x l : list_index x l = None ↔ x ∉ l.
Proof.
  induction l as [|y l IH]; simpl.
  - split; [intros _; apply not_elem_of_nil | done].
  - case_bool_decide as E.
    + subst. split; [done | intros H; destruct H; left].
    + rewrite not_elem_of_cons. destruct (list_index x l); simpl.
      * split; [done|]. intros [_ H]. by apply IH in H.
      * split; [|done]. intros _. split; [congruence | by apply IH].
Qed.

Lemma list_index_Some x l i :
  list_index x l = Some i ↔ l !! i = Some x ∧ ∀ j, j < i → l !! j ≠ Some x.
Proof.
  revert i. induction l as [|y l IH]; intros i; simpl.
  - split; [done | by intros [? _]].
  - case_bool_decide as E.
    + subst. split.
      * intros [= <-]. split; [done | lia].
      * intros [Hi Hj]. destruct i as [|i]; [done|]. by destruct (Hj 0); [lia|].
    + split.
      * destruct (list_index x l) as [k|]; simpl; [|done]. intros [= <-].
        destruct (proj1 (IH k) eq_refl) as [? Hk]. split; [done|].
        intros [|j] ?; simpl; [congruence | apply Hk; lia].
      * intros [Hi Hj]. destruct i as [|i]; simpl in Hi; [congruence|].
        rewrite (proj2 (IH i)); [done|]. split; [done|].
        intros j ?. apply (Hj (S j)). lia.
Qed.

Lemma update_cells_frame ws row_num headers update_dict w :
  0 < row_num < S (length (sheet_of ws w)) →
  post (update_cells ws row_num headers update_dict) w
    (λ _ w', touches_only ws (update_targets (row_num - 1) headers update_dict) w w').
Proof.
  intros Hrow. revert w Hrow.
  induction update_dict as [|[col_name new_val] rest IH]; intros w Hrow; simpl.
  - step. apply touches_only_same, same_data_refl.
  - step.
    assert (Hmono : ∀ w1 w2,
      touches_only ws (update_targets (row_num - 1) headers rest) w1 w2 →
      touches_only ws (update_targets (row_num - 1) headers ((col_name, new_val) :: rest)) w1 w2).
    { intros w1 w2. apply touches_only_mono. intros r c (-> & k & v & Hin & Hix).
      split; [done|]. exists k, v. split; [by right | done]. }
    destruct (list_index col_name headers) as [i|] eqn:Hi.
    + apply post_update_cell.
      * intros w1 H1.
        assert (Ht : touches_only ws
          (update_targets (row_num - 1) headers ((col_name, new_val) :: rest)) w w1).
        { apply (touches_only_set _ _ (row_num - 1) (i + 1 - 1) new_val); [lia | | exact H1].
          split; [done|]. exists col_name, new_val. split; [by left|].
          by replace (i + 1 - 1) with i by lia. }
        eapply post_mono; [apply IH|].
        -- destruct Ht as (_ & _ & -> & _). done.
        -- intros r w2 H2. simpl in H2. eapply touches_only_trans; [exact Ht | by apply Hmono].
      * intros e w1 H1. by apply touches_only_same.
    + step. eapply post_mono; [by apply IH|]. intros r w2 H2. by apply Hmono.
Qed.

Lemma scan_records_frame ws headers id_col id_val update_dict i records w :
  i + length records ≤ length (sheet_of ws w) - 1 →
  post (scan_records ws headers id_col id_val update_dict i records) w
    (λ r w', match list_find (id_matches id_col id_val) records with
             | Some (j, _) =>
                 r ≠ Ok false ∧
                 touches_only ws (update_targets (S (i + j)) headers update_dict) w w'
             | None => r = Ok false ∧ w' = w
             end).
Proof.
  revert i. induction records as [|record rest IH]; intros i Hlen; simpl.
  - by step.
  - simpl in Hlen. unfold id_matches at 1. case_bool_decide as E.
    + rewrite decide_True by done. simpl. step.
      eapply post_mono; [apply (update_cells_frame ws (i + 2)); lia|].
      intros r w' Ht. simpl in Ht.
      replace (i + 2 - 1) with (S (i + 0)) in Ht by lia.
      destruct r as [[]|e]; [step|]; done.
    + rewrite decide_False by done.
      eapply post_mono; [apply (IH (S i)); lia|].
      intros r w'. simpl.
      destruct (list_find (id_matches id_col id_val) rest) as [[j x]|]; simpl; [|done].
      by replace (S (i + S j)) with (S (S (i + j))) by lia.
Qed.

Lemma touches_only_show t P ev w w' : touches_only t P w w' → touches_only t P w (show ev w').
Proof. done. Qed.

Lemma bind_ext {A B} (m : M A) (k1 k2 : A → M B) w :
  post m w (λ r w', ∀ a, r = Ok a → k1 a w' = k2 a w') →
  (m ≫= k1) w = (m ≫= k2) w.
Proof.
  unfold post, mbind, M_bind, run_bind. destruct (m w) as [[a|e] w']; simpl; auto.
Qed.

Lemma update_cells_skip ws row_num headers d1 col_name new_val d2 w :
  col_name ∉ headers →
  update_cells ws row_num headers (d1 ++ (col_name, new_val) :: d2) w
  = update_cells ws row_num headers (d1 ++ d2) w.
Proof.
  intros Hk. apply list_index_None in Hk. revert w.
  induction d1 as [|[k v] d1 IH]; intros w; simpl.
  - by rewrite Hk.
  - apply bind_ext. unfold post. auto.
Qed.

Lemma scan_records_skip ws headers id_col id_val d1 col_name new_val d2 i records w :
  col_name ∉ headers →
  scan_records ws headers id_col id_val (d1 ++ (col_name, new_val) :: d2) i records w
  = scan_records ws headers id_col id_val (d1 ++ d2) i records w.
Proof.
  intros Hk. revert i. induction records as [|record rest IH]; intros i; simpl; [done|].
  case_bool_decide; [|apply IH].
  unfold mbind, M_bind, run_bind. by rewrite update_cells_skip.
Qed.

(** What a run of [update_cell_by_id] may touch, for any schedule of faults *)
Lemma update_cell_by_id_frame sheet_name id_col id_val update_dict w :
  post (update_cell_by_id sheet_name id_col id_val update_dict) w
    (λ _ w', touches_only sheet_name
       (λ r c, ∃ records i record,
          all_records (sheet_of sheet_name w) = Ok records ∧
          list_find (id_matches id_col id_val) records = Some (i, record) ∧
          update_targets (S i) (default [] (sheet_of sheet_name w !! 0)) update_dict r c)
       w w').
Proof.
  set (P := λ r c, ∃ records i record,
          all_records (sheet_of sheet_name w) = Ok records ∧
          list_find (id_matches id_col id_val) records = Some (i, record) ∧
          update_targets (S i) (default [] (sheet_of sheet_name w !! 0)) update_dict r c).
  unfold update_cell_by_id. step.
  apply post_get_worksheet; [|intros; by apply touches_only_same].
  intros w1 H1 _. step.
  apply post_get_all_records; [|intros; apply touches_only_same; by etrans].
  intros w2 H2. rewrite (same_data_sheet_of _ _ _ H1).
  destruct (all_records (sheet_of sheet_name w)) as [records|e] eqn:Hrec;
    [|apply touches_only_same; by etrans].
  step. apply post_row_values; [|intros; apply touches_only_same; by do 2 etrans].
  intros w3 H3. rewrite (same_data_sheet_of _ _ _ H2), (same_data_sheet_of _ _ _ H1).
  assert (H13 : same_data w w3) by (by do 2 etrans).
  step. eapply post_mono.
  { apply scan_records_frame. rewrite (same_data_sheet_of _ _ _ H13).
    rewrite (length_all_records _ _ Hrec). simpl. lia. }
  intros r w4. simpl.
  destruct (list_find (id_matches id_col id_val) records) as [[j x]|] eqn:Hfind.
  - intros [Hr Ht].
    assert (Ht' : touches_only sheet_name P w w4).
    { eapply touches_only_trans; [by apply touches_only_same|].
      eapply touches_only_mono; [|exact Ht]. intros r' c' Hu. by exists records, j, x. }
    destruct r as [[]|e]; [by step | done | done].
  - intros [-> ->]. repeat step. by apply touches_only_show, touches_only_same.
Qed.



(** ** Runs in which no client call fails *)

Lemma bind_run {A B} (m : M A) (k : A → M B) w a w' :
  m w = (Ok a, w') → (m ≫= k) w = k a w'.
Proof. unfold mbind, M_bind, run_bind. by intros ->. Qed.

Lemma bind_run_raise {A B} (m : M A) (k : A → M B) w e w' :
  m w = (Raise e, w') → (m ≫= k) w = (Raise e, w').
Proof. unfold mbind, M_bind, run_bind. by intros ->. Qed.

Lemma api_call_quiet w : faults w = [] → api_call w = (Ok tt, w).
Proof. unfold api_call. by intros ->. Qed.

Lemma get_worksheet_quiet sheet_name w :
  faults w = [] → is_Some (sheets w !! sheet_name) →
  get_worksheet sheet_name w = (Ok sheet_name, w).
Proof.
  intros Hq [g Hg]. unfold get_worksheet.
  rewrite (bind_run _ _ _ _ _ (api_call_quiet _ Hq)).
  unfold mbind, M_bind, run_bind, get_world. by rewrite Hg.
Qed.

Lemma get_all_values_quiet ws w :
  faults w = [] → get_all_values ws w = (Ok (fill_gaps (sheet_of ws w)), w).
Proof. intros Hq. unfold get_all_values. by rewrite (bind_run _ _ _ _ _ (api_call_quiet _ Hq)). Qed.

Lemma get_all_records_quiet ws w :
  faults w = [] → get_all_records ws w = (all_records (sheet_of ws w), w).
Proof. intros Hq. unfold get_all_records. by rewrite (bind_run _ _ _ _ _ (api_call_quiet _ Hq)). Qed.

Lemma row_values_quiet ws n w :
  faults w = [] → row_values ws n w = (Ok (default [] (sheet_of ws w !! (n - 1))), w).
Proof. intros Hq. unfold row_values. by rewrite (bind_run _ _ _ _ _ (api_call_quiet _ Hq)). Qed.

Lemma ws_append_row_quiet ws values w :
  faults w = [] →
  ws_append_row ws values w
  = (Ok tt, set_sheets (λ m, <[ws := sheet_of ws w ++ [values]]> m) w).
Proof. intros Hq. unfold ws_append_row. by rewrite (bind_run _ _ _ _ _ (api_call_quiet _ Hq)). Qed.

Lemma update_cell_quiet ws row col value w :
  faults w = [] →
  update_cell ws row col value w
  = (Ok tt, set_sheets (λ m, <[ws := grid_set (row - 1) (col - 1) value (sheet_of ws w)]> m) w).
Proof. intros Hq. unfold update_cell. by rewrite (bind_run _ _ _ _ _ (api_call_quiet _ Hq)). Qed.

Lemma sheet_of_set_sheets_eq t g w :
  sheet_of t (set_sheets (λ m, <[t := g]> m) w) = g.
Proof. unfold sheet_of. simpl. by rewrite lookup_insert_eq. Qed.

Lemma sheet_of_set_sheets_ne t t' g w :
  t ≠ t' → sheet_of t' (set_sheets (λ m, <[t := g]> m) w) = sheet_of t' w.
Proof. intros. unfold sheet_of. simpl. by rewrite lookup_insert_ne. Qed.

Lemma sheet_of_Some t w g : sheets w !! t = Some g → sheet_of t w = g.
Proof. unfold sheet_of. by intros ->. Qed.

(** ** Tables: a header row without repetition, and rows no wider than it *)

Lemma max_list_bounded (l : list nat) n : Forall (λ x, x ≤ n) l → max_list l ≤ n.
Proof. induction 1; simpl; lia. Qed.

Lemma fill_gaps_table header rows :
  Forall (λ row, length row ≤ length header) rows →
  fill_gaps (header :: rows) = header :: (pad_row (length header) <$> rows).
Proof.
  intros Hrows. unfold fill_gaps.
  assert (Hmax : max_list (length <$> header :: rows) = length header).
  { rewrite fmap_cons. simpl.
    assert (max_list (length <$> rows) ≤ length header); [|lia].
    by apply max_list_bounded, Forall_fmap. }
  rewrite Hmax, fmap_cons. f_equal.
  replace (length header - length header) with 0 by lia. apply app_nil_r.
Qed.

Lemma all_records_table header rows :
  NoDup header → Forall (λ row, length row ≤ length header) rows →
  all_records (header :: rows) = Ok (zip header <$> (pad_row (length header) <$> rows)).
Proof.
  intros Hnd Hrows. unfold all_records. rewrite fill_gaps_table by done.
  by rewrite bool_decide_eq_true_2.
Qed.

Lemma pad_row_full width row : length row = width → pad_row width row = row.
Proof.
  intros <-. unfold pad_row. replace (length row - length row) with 0 by lia.
  apply app_nil_r.
Qed.

Lemma length_pad_row width row : length row ≤ width → length (pad_row width row) = width.
Proof. intros. unfold pad_row. rewrite length_app, length_replicate. lia. Qed.

Lemma lookup_pad_row width row c :
  c < width → pad_row width row !! c = Some (default "" (row !! c)).
Proof.
  intros Hc. unfold pad_row. destruct (decide (c < length row)) as [Hlt|Hge].
  - rewrite lookup_app_l by done. by destruct (lookup_lt_is_Some_2 row c Hlt) as [x ->].
  - rewrite lookup_app_r by lia. rewrite (lookup_ge_None_2 row) by lia. simpl.
    apply lookup_replicate. split; [done | lia].
Qed.

Lemma zip_keys_values (d : pydict) : zip (dict_keys d) (dict_values d) = d.
Proof. apply zip_fst_snd. Qed.

Lemma read_sheet_quiet sheet_name w records :
  faults w = [] → is_Some (sheets w !! sheet_name) →
  all_records (sheet_of sheet_name w) = Ok records →
  read_sheet sheet_name w = (Ok records, w).
Proof.
  intros Hq Hs Hrec. unfold read_sheet, try_except.
  rewrite (bind_run _ _ _ _ _ (get_worksheet_quiet _ _ Hq Hs)).
  unfold mbind, M_bind, run_bind. rewrite get_all_records_quiet by done.
  by rewrite Hrec.
Qed.

Lemma append_row_quiet sheet_name row w g :
  faults w = [] → sheets w !! sheet_name = Some g →
  append_row sheet_name row w
  = (Ok tt, set_sheets (λ m, <[sheet_name :=
        (g ++ if bool_decide (g = []) then [dict_keys row] else []) ++ [dict_values row]]> m) w).
Proof.
  intros Hq Hg. unfold append_row.
  rewrite (bind_run _ _ _ _ _ (get_worksheet_quiet _ _ Hq (mk_is_Some _ _ Hg))).
  rewrite (bind_run _ _ _ _ _ (get_all_values_quiet _ _ Hq)).
  rewrite (sheet_of_Some _ _ _ Hg).
  destruct g as [|header rows].
  - simpl. rewrite (bind_run _ _ _ _ _ (ws_append_row_quiet _ _ _ Hq)).
    rewrite ws_append_row_quiet by done.
    rewrite sheet_of_set_sheets_eq, (sheet_of_Some _ _ _ Hg). simpl.
    unfold set_sheets. simpl. by rewrite insert_insert_eq.
  - rewrite bool_decide_eq_false_2 by (by intros ?%fill_gaps_nil).
    rewrite bool_decide_eq_false_2 by done.
    erewrite bind_run by reflexivity.
    rewrite ws_append_row_quiet by done.
    rewrite (sheet_of_Some _ _ _ Hg). by rewrite app_nil_r.
Qed.

Lemma length_keys_values (d : pydict) : length (dict_values d) = length (dict_keys d).
Proof. unfold dict_keys, dict_values. by rewrite !length_fmap. Qed.



(** ** Records and cells of a table *)

Lemma dict_get_zip header row col i :
  list_index col header = Some i → dict_get col (zip header row) = row !! i.
Proof.
  revert row i. induction header as [|h header IH]; intros row i; simpl; [done|].
  destruct row as [|x row].
  - intros _. by destruct i.
  - simpl. case_bool_decide.
    + by intros [= <-].
    + destruct (list_index col header) as [j|]; simpl; [|done].
      intros [= <-]. simpl. by apply IH.
Qed.

Lemma dict_get_zip_None header row col :
  list_index col header = None → dict_get col (zip header row) = None.
Proof.
  revert row. induction header as [|h header IH]; intros row; simpl; [done|].
  destruct row as [|x row]; [done|]. simpl. case_bool_decide; [done|].
  destruct (list_index col header); simpl; [done|]. intros _. by apply IH.
Qed.

Lemma list_index_lt col header i : list_index col header = Some i → i < length header.
Proof. intros [H _]%list_index_Some. by apply lookup_lt_Some in H. Qed.

Lemma record_cell header g records k record col i :
  table header g → all_records g = Ok records →
  records !! k = Some record → list_index col header = Some i →
  dict_get col record = Some (cell g (S k) i).
Proof.
  intros (Hnd & rows & -> & Hrows) Hrec Hk Hi.
  rewrite all_records_table in Hrec by done. injection Hrec as <-.
  rewrite !list_lookup_fmap in Hk.
  destruct (rows !! k) as [row|] eqn:Hrow; [|done]. simpl in Hk. injection Hk as <-.
  rewrite (dict_get_zip _ _ _ _ Hi).
  rewrite lookup_pad_row by by eapply list_index_lt.
  unfold cell. simpl. by rewrite Hrow.
Qed.

Lemma record_no_cell header g records k record col :
  table header g → all_records g = Ok records →
  records !! k = Some record → list_index col header = None →
  dict_get col record = None.
Proof.
  intros (Hnd & rows & -> & Hrows) Hrec Hk Hi.
  rewrite all_records_table in Hrec by done. injection Hrec as <-.
  rewrite !list_lookup_fmap in Hk.
  destruct (rows !! k) as [row|] eqn:Hrow; [|done]. simpl in Hk. injection Hk as <-.
  by apply dict_get_zip_None.
Qed.

Lemma table_head header g : table header g → g !! 0 = Some header.
Proof. by intros (_ & rows & -> & _). Qed.

Lemma table_records header g : table header g → ∃ records, all_records g = Ok records.
Proof. intros (Hnd & rows & -> & Hrows). eexists. by apply all_records_table. Qed.

(** ** The update loops when no client call fails *)

Lemma set_sheets_id t g w : sheets w !! t = Some g → set_sheets (λ m, <[t := g]> m) w = w.
Proof. intros H. destruct w. unfold set_sheets. simpl in *. by rewrite insert_id. Qed.

Lemma set_sheets_twice t g1 g2 w :
  set_sheets (λ m, <[t := g2]> m) (set_sheets (λ m, <[t := g1]> m) w)
  = set_sheets (λ m, <[t := g2]> m) w.
Proof. unfold set_sheets. simpl. by rewrite insert_insert_eq. Qed.

Lemma update_cells_quiet ws row_num headers update_dict w g :
  faults w = [] → sheets w !! ws = Some g →
  update_cells ws row_num headers update_dict w
  = (Ok tt, set_sheets (λ m, <[ws := apply_updates (row_num - 1) headers update_dict g]> m) w).
Proof.
  revert w g. induction update_dict as [|[col_name new_val] rest IH]; intros w g Hq Hg; simpl.
  - by rewrite set_sheets_id.
  - destruct (list_index col_name headers) as [i|].
    + rewrite (bind_run _ _ _ _ _ (update_cell_quiet _ _ _ _ _ Hq)).
      rewrite (sheet_of_Some _ _ _ Hg).
      rewrite (IH _ (grid_set (row_num - 1) (i + 1 - 1) new_val g)); [|done|].
      * rewrite set_sheets_twice. by replace (i + 1 - 1) with i by lia.
      * simpl. by rewrite lookup_insert_eq.
    + erewrite bind_run by reflexivity. by apply IH.
Qed.

Lemma scan_records_quiet ws headers id_col id_val update_dict i records w g :
  faults w = [] → sheets w !! ws = Some g →
  scan_records ws headers id_col id_val update_dict i records w
  = match list_find (id_matches id_col id_val) records with
    | Some (j, _) =>
        (Ok true, set_sheets (λ m, <[ws := apply_updates (S (i + j)) headers update_dict g]> m) w)
    | None => (Ok false, w)
    end.
Proof.
  intros Hq Hg. revert i. induction records as [|record rest IH]; intros i; simpl; [done|].
  unfold id_matches at 1. case_bool_decide.
  - rewrite decide_True by done. simpl.
    rewrite (bind_run _ _ _ _ _ (update_cells_quiet _ _ _ _ _ _ Hq Hg)).
    by replace (i + 2 - 1) with (S (i + 0)) by lia.
  - rewrite decide_False by done. rewrite IH.
    destruct (list_find (id_matches id_col id_val) rest) as [[j x]|]; simpl; [|done].
    by replace (S (i + S j)) with (S (S (i + j))) by lia.
Qed.

Lemma update_cell_by_id_quiet sheet_name id_col id_val update_dict w g records :
  faults w = [] → sheets w !! sheet_name = Some g → all_records g = Ok records →
  update_cell_by_id sheet_name id_col id_val update_dict w
  = match list_find (id_matches id_col id_val) records with
    | Some (j, _) =>
        (Ok RowUpdated,
         set_sheets (λ m, <[sheet_name :=
           apply_updates (S j) (default [] (g !! 0)) update_dict g]> m) w)
    | None =>
        (Ok IdNotFound,
         show (st_error ("ID " +:+ id_val +:+ " not found in " +:+ sheet_name)) w)
    end.
Proof.
  intros Hq Hg Hrec. unfold update_cell_by_id.
  rewrite (bind_run _ _ _ _ _ (get_worksheet_quiet _ _ Hq (mk_is_Some _ _ Hg))).
  erewrite bind_run; [|rewrite get_all_records_quiet by done;
                       by rewrite (sheet_of_Some _ _ _ Hg), Hrec].
  rewrite (bind_run _ _ _ _ _ (row_values_quiet _ _ _ Hq)).
  rewrite (sheet_of_Some _ _ _ Hg). simpl.
  unfold mbind, M_bind, run_bind.
  rewrite (scan_records_quiet _ _ _ _ _ _ _ _ _ Hq Hg).
  by destruct (list_find (id_matches id_col id_val) records) as [[j x]|].
Qed.

Lemma length_apply_updates r headers update_dict (g : grid) :
  r < length g → length (apply_updates r headers update_dict g) = length g.
Proof.
  unfold apply_updates. revert g.
  induction update_dict as [|[k v] rest IH]; intros g Hr; simpl; [done|].
  destruct (list_index k headers) as [c|]; [|by apply IH].
  rewrite IH by (by rewrite length_grid_set). by apply length_grid_set.
Qed.

(** Settles the position tests left by [cell_grid_set] at known columns *)
Ltac decide_cells :=
  repeat match goal with
         | |- context [decide ?P] =>
             first [rewrite (decide_True (P:=P)) by lia
                   | rewrite (decide_False (P:=P)) by lia]
         end.


Lemma sample_reports_table : table Reports_header sample_reports.
Proof.
  split; [apply (bool_decide_unpack _); by compute|].
  eexists. split; [reflexivity|]. repeat constructor.
Qed.


(** ** [append_row], whatever the client does *)

Lemma append_row_post sheet_name row w :
  post (append_row sheet_name row) w
    (λ r w', match r with
             | Ok _ =>
                 ∃ g, sheets w !! sheet_name = Some g ∧
                      same_data (set_sheets (λ m, <[sheet_name := appended g row]> m) w) w'
             | Raise _ =>
                 same_data w w' ∨
                 (sheets w !! sheet_name = Some [] ∧
                  same_data (set_sheets (λ m, <[sheet_name := [dict_keys row]]> m) w) w')
             end).
Proof.
  unfold append_row. step. apply post_get_worksheet; [|by left].
  intros w1 H1 [g Hg]. step. apply post_get_all_values; [|intros; left; by etrans].
  intros w2 H2. rewrite (same_data_sheet_of _ _ _ H1), (sheet_of_Some _ _ _ Hg).
  assert (H12 : same_data w w2) by by etrans.
  step. case_bool_decide as Hnil.
  - apply fill_gaps_nil in Hnil as ->.
    apply post_ws_append_row; [|intros; left; by etrans].
    intros w3 H3. rewrite (same_data_sheet_of _ _ _ H12), (sheet_of_Some _ _ _ Hg) in H3.
    assert (H3' : same_data (set_sheets (λ m, <[sheet_name := [dict_keys row]]> m) w) w3).
    { etrans; [|exact H3]. by apply same_data_set_sheets. }
    apply post_ws_append_row.
    + intros w4 H4. exists []. split; [done|]. etrans; [|exact H4].
      rewrite (same_data_sheet_of _ _ _ H3'), sheet_of_set_sheets_eq.
      etrans; [|apply same_data_set_sheets, H3']. by rewrite set_sheets_twice.
    + intros e w4 H4. right. split; [done|]. by etrans.
  - step. apply post_ws_append_row; [|intros; left; by etrans].
    intros w3 H3. exists g. split; [done|]. etrans; [|exact H3].
    rewrite (same_data_sheet_of _ _ _ H12), (sheet_of_Some _ _ _ Hg).
    unfold appended. rewrite bool_decide_eq_false_2 by (by intros ->).
    rewrite app_nil_r. by apply same_data_set_sheets.
Qed.

Lemma post_short_uuid w (Q : result string → world → Prop) :
  Q (Ok (upper (String.substring 0 8 (uuids w (uuid_count w))))) (tick_uuid w) →
  post short_uuid w Q.
Proof. done. Qed.

Lemma post_datetime_now w (Q : result string → world → Prop) :
  Q (Ok (clock w)) w → post datetime_now w Q.
Proof. done. Qed.

Lemma short_uuid_run w :
  short_uuid w = (Ok (upper (String.substring 0 8 (uuids w (uuid_count w)))), tick_uuid w).
Proof. done. Qed.

(** C7.  The submit button refuses an empty title or an empty description
    with "Title and description are required!" and writes nothing.
    Otherwise, whenever it succeeds, the Reports worksheet has gained
    exactly one record (after the header row, written first when the
    worksheet had no row): the new identifier "RPT-" followed by eight
    upper-case characters of a fresh uuid, the submitter, title, description
    and priority given, status open, assigned_to empty, created_at the
    current time, updated_at and resolution empty; the identifier is the one
    shown in the success message.  And it does succeed when title and
    description are not empty, the worksheet exists and no client call
    fails. *)
Theorem submit_validates_then_creates_open_report
    (name title description priority : string) (w : world) :
  let run := page_submit_report name title description priority w in
  let new_id := "RPT-" +:+ upper (String.substring 0 8 (uuids w (uuid_count w))) in
  (title = "" ∨ description = "" →
     run = (Ok FieldsRequired, show (st_error "Title and description are required!") w)) ∧
  (∀ rep_id, run.1 = Ok (Submitted rep_id) →
     title ≠ "" ∧ description ≠ "" ∧ rep_id = new_id ∧
     ui run.2 = ui w ++ [st_success ("✅ Report submitted! ID: **" +:+ rep_id +:+ "**")] ∧
     ∃ g, sheets w !! "Reports" = Some g ∧
          sheets run.2
          = <["Reports" := appended g (report_row rep_id name title description priority (clock w))]>
              (sheets w)) ∧
  (title ≠ "" → description ≠ "" → faults w = [] → is_Some (sheets w !! "Reports") →
     run.1 = Ok (Submitted new_id)).
Proof.
  intros run new_id. subst run. split; [|split].
  - intros Hempty. unfold page_submit_report. destruct Hempty as [->| ->].
    + by rewrite (bool_decide_eq_true_2 ("" = "")).
    + rewrite (bool_decide_eq_true_2 ("" = "")) by done.
      by destruct (bool_decide (title = "")).
  - intros rep_id. by_post (page_submit_report name title description priority) w.
    unfold page_submit_report.
    destruct (bool_decide (title = "")) eqn:Et; [by repeat step|].
    destruct (bool_decide (description = "")) eqn:Ed; [by repeat step|].
    apply bool_decide_eq_false in Et, Ed. simpl.
    step. apply post_short_uuid. cbv zeta. step. apply post_datetime_now.
    step. eapply post_mono; [apply append_row_post|].
    intros [[]|e] w1; simpl; [|done]. intros (g & Hg & H1).
    repeat step. simpl. intros [= <-].
    destruct (same_data_fields _ _ H1) as (Hs & Hu & _). simpl in Hs, Hu.
    repeat (split; [done|]). split; [by rewrite Hu|].
    exists g. split; [done|]. by rewrite Hs.
  - intros Ht Hd Hq [g Hg]. unfold page_submit_report.
    rewrite bool_decide_eq_false_2 by done. rewrite bool_decide_eq_false_2 by done. simpl.
    rewrite (bind_run _ _ _ _ _ (short_uuid_run w)). cbv zeta.
    erewrite bind_run by reflexivity.
    erewrite bind_run by (by apply (append_row_quiet _ _ (tick_uuid w) g)).
    done.
Qed.

Lemma submit_validates_then_creates_open_report_witness :
  let run := page_submit_report "Ali User" "Line 4 down" "Belt torn" "high" sample_world in
  run.1 = Ok (Submitted "RPT-1B4E28BA") ∧
  sheets run.2 !! "Reports"
  = Some (sample_reports ++
          [["RPT-1B4E28BA"; "Ali User"; "Line 4 down"; "Belt torn"; "high"; "open"; "";
            "2024-01-05 10:30"; ""; ""]]) ∧
  page_submit_report "Ali User" "" "Belt torn" "high" sample_world
  = (Ok FieldsRequired, show (st_error "Title and description are required!") sample_world).
Proof.
  intros run.
  destruct (submit_validates_then_creates_open_report
              "Ali User" "Line 4 down" "Belt torn" "high" sample_world) as (_ & Hmade & Hok).
  destruct (submit_validates_then_creates_open_report
              "Ali User" "" "Belt torn" "high" sample_world) as (Hrefused & _ & _).
  assert (Hrun : run.1 = Ok (Submitted "RPT-1B4E28BA")).
  { apply Hok; [discriminate | discriminate | reflexivity |].
    exists sample_reports. vm_compute. reflexivity. }
  split; [exact Hrun|]. split; [|apply Hrefused; by left].
  destruct (Hmade _ Hrun) as (_ & _ & _ & _ & g & Hg & Hsheets).
  assert (E : sheets sample_world !! "Reports" = Some sample_reports)
    by (vm_compute; reflexivity).
  rewrite E in Hg. injection Hg as <-.
  fold run in Hsheets. rewrite Hsheets, lookup_insert_eq. reflexivity.
Defined.

(** ** [do_action] *)

Lemma elem_of_values_find col val (df : DataFrame) :
  Some val ∈ dict_get col <$> df → is_Some (list_find (has_value col val) df).
Proof.
  intros (row & Hrow & Hin)%list_elem_of_fmap.
  by apply (list_find_elem_of _ _ row).
Qed.

Lemma not_elem_of_values_find col val (df : DataFrame) :
  Some val ∉ dict_get col <$> df → list_find (has_value col val) df = None.
Proof.
  intros Hn. apply list_find_None, Forall_forall. intros row Hin Hv.
  apply Hn, list_elem_of_fmap. by exists row.
Qed.

Lemma df_empty_find col val (df : DataFrame) :
  df_empty df = true → list_find (has_value col val) df = None.
Proof.
  unfold df_empty, df_columns. intros H. apply list_find_None, Forall_forall.
  intros row Hin Hv. apply orb_true_iff in H as [H|H]; apply bool_decide_eq_true in H.
  - subst. by apply elem_of_nil in Hin.
  - assert (Hk : col ∈ remove_dups (mjoin (dict_keys <$> df))); [|by rewrite H in Hk; apply elem_of_nil in Hk].
    apply elem_of_remove_dups, list_elem_of_join. exists (dict_keys row).
    split; [|apply list_elem_of_fmap; by exists row].
    unfold has_value in Hv. clear -Hv. unfold dict_keys.
    induction row as [|[k v] row IH]; simpl in *; [done|].
    case_bool_decide; [subst; by left | right; by apply IH].
Qed.

Lemma do_action_post items tech item_id action notes_val w :
  post (do_action items tech item_id action notes_val) w
    (do_action_outcome items tech item_id action notes_val w).
Proof.
  unfold do_action. step.
  assert (Hmiss : post
    (if df_empty items then mret true
     else ids ← df_values "item_id" items; mret (bool_decide (Some item_id ∉ ids))) w
    (λ r w', w' = w ∧ match r with
       | Ok true => list_find (has_value "item_id" item_id) items = None
       | Ok false => is_Some (list_find (has_value "item_id" item_id) items)
       | Raise _ => True
       end)).
  { destruct (df_empty items) eqn:Hempty.
    - step. split; [done|]. by apply df_empty_find.
    - step. unfold df_values. case_bool_decide; [|by step].
      repeat step. split; [done|]. case_bool_decide as Hin.
      + by apply not_elem_of_values_find.
      + apply elem_of_values_find. by destruct (decide (Some item_id ∈ dict_get "item_id" <$> items)). }
  eapply post_mono; [exact Hmiss|]. clear Hmiss. simpl.
  intros [[]|e] w1 [-> Hfind]; [by repeat step | | done].
  destruct Hfind as [[i row] Hfind].
  step. unfold df_first_where. step. unfold df_values. case_bool_decide; [|by step].
  step. rewrite Hfind. step.
  step. unfold series_get. destruct (dict_get "status" row) as [current|] eqn:Hst; [|by step].
  step. step. destruct (dict_get "name" row) as [item_name|] eqn:Hname; [|by step].
  step.
  destruct (bool_decide (action = "use") && bool_decide (current ≠ "available")) eqn:Hguard1.
  { repeat step. apply andb_true_iff in Hguard1 as [Ha Hc].
    apply bool_decide_eq_true in Ha, Hc. split; [done|]. by exists i, row, current. }
  destruct (bool_decide (action = "return") && bool_decide (current ≠ "in_use")) eqn:Hguard2.
  { repeat step. apply andb_true_iff in Hguard2 as [Ha Hc].
    apply bool_decide_eq_true in Ha, Hc. split; [done|]. by exists i, row, current. }
  cbv zeta. step. eapply post_mono; [apply update_cell_by_id_frame|].
  intros r1 w1 (Henv & Hother & _). simpl.
  destruct r1 as [_|e]; [|done].
  step. apply post_short_uuid. step. apply post_datetime_now.
  step. eapply post_mono; [apply append_row_post|].
  intros [[]|e] w2; simpl; [|done]. intros (log & Hlog & H2).
  repeat step. simpl.
  destruct Henv as (Hu & Hc & Hk).
  exists i, row, current, item_name, log.
  repeat (split; [done|]).
  split; [|split; [|split]].
  - intros Ha. rewrite (bool_decide_eq_true_2 _ Ha) in Hguard1. simpl in Hguard1.
    apply bool_decide_eq_false in Hguard1. by destruct (decide (current = "available")).
  - intros Ha. rewrite (bool_decide_eq_true_2 _ Ha) in Hguard2. simpl in Hguard2.
    apply bool_decide_eq_false in Hguard2. by destruct (decide (current = "in_use")).
  - rewrite <- Hlog. symmetry. by apply Hother.
  - destruct (same_data_fields _ _ H2) as (-> & _). simpl.
    rewrite lookup_insert_eq. unfold usage_row. by rewrite Hu, Hc, Hk.
Qed.

(** C3.  Whenever [do_action] runs to its end (the check-out or return
    succeeded), the Usage_Log worksheet has gained exactly one record, after
    the header row (written first when the worksheet had no row): a fresh
    log identifier, the [item_id] acted on, the name that the table read by
    the page holds for that item, the acting technician, the action
    CHECK OUT for a check-out ("use") and RETURN for a return, the current
    time, and the notes. *)
Theorem do_action_success_logs_one_entry
    (items : DataFrame) (tech item_id action notes_val : string) (w : world) :
  let run := do_action items tech item_id action notes_val w in
  run.1 = Ok ActionDone →
  ∃ i row item_name log,
    list_find (has_value "item_id" item_id) items = Some (i, row) ∧
    dict_get "name" row = Some item_name ∧
    sheets w !! "Usage_Log" = Some log ∧
    sheets run.2 !! "Usage_Log"
    = Some ((log ++ if bool_decide (log = []) then [Usage_Log_header] else []) ++
            [[upper (String.substring 0 8 (uuids w (uuid_count w)));
              item_id; item_name; tech;
              if bool_decide (action = "use") then "CHECK OUT" else "RETURN";
              clock w; notes_val]]).
Proof.
  intros run Hdone. pose proof (do_action_post items tech item_id action notes_val w) as H.
  unfold post in H. fold run in H. rewrite Hdone in H.
  destruct H as (i & row & current & item_name & log & Hfind & _ & Hname & _ & _ & Hlog & Hlog').
  by exists i, row, item_name, log.
Qed.

Lemma do_action_success_logs_one_entry_witness :
  sheets (do_action sample_records "Ahmad" "ITM-0001" "use" "lab" sample_world).2 !! "Usage_Log"
  = Some [ Usage_Log_header;
           ["1B4E28BA"; "ITM-0001"; "Multimeter"; "Ahmad"; "CHECK OUT"; "2024-01-05 10:30"; "lab"] ] ∧
  sheets (do_action sample_records "Siti" "ITM-0002" "return" "" sample_world).2 !! "Usage_Log"
  = Some [ Usage_Log_header;
           ["1B4E28BA"; "ITM-0002"; "Drill"; "Siti"; "RETURN"; "2024-01-05 10:30"; ""] ].
Proof.
  split.
  - destruct (do_action_success_logs_one_entry
                sample_records "Ahmad" "ITM-0001" "use" "lab" sample_world)
      as (i & row & item_name & log & Hfind & Hname & Hlog & Hlog').
    { vm_compute. reflexivity. }
    vm_compute in Hfind. injection Hfind as <- <-.
    vm_compute in Hname. injection Hname as <-.
    vm_compute in Hlog. injection Hlog as <-.
    rewrite Hlog'. reflexivity.
  - destruct (do_action_success_logs_one_entry
                sample_records "Siti" "ITM-0002" "return" "" sample_world)
      as (i & row & item_name & log & Hfind & Hname & Hlog & Hlog').
    { vm_compute. reflexivity. }
    vm_compute in Hfind. injection Hfind as <- <-.
    vm_compute in Hname. injection Hname as <-.
    vm_compute in Hlog. injection Hlog as <-.
    rewrite Hlog'. reflexivity.
Defined.

(** The refusals of [do_action] use no client call: they are the same in
    every world. *)
Lemma do_action_refuses items tech item_id action notes_val w :
  df_empty items = true ∨ "item_id" ∈ df_columns items →
  match list_find (has_value "item_id" item_id) items with
  | None =>
      do_action items tech item_id action notes_val w
      = (Ok ItemNotFound, show (st_error ("Item " +:+ item_id +:+ " not found!")) w)
  | Some (_, row) =>
      ∀ current item_name,
        dict_get "status" row = Some current → dict_get "name" row = Some item_name →
        (action = "use" → current ≠ "available" →
           do_action items tech item_id action notes_val w
           = (Ok CannotCheckOut,
              show (st_error ("❌ Item is currently **" +:+ current +:+ "** — cannot check out!")) w)) ∧
        (action = "return" → current ≠ "in_use" →
           do_action items tech item_id action notes_val w
           = (Ok NotCheckedOut,
              show (st_error ("❌ Item is not checked out (status: **" +:+ current +:+ "**)")) w))
  end.
Proof.
  intros Hcols. unfold do_action.
  destruct (list_find (has_value "item_id" item_id) items) as [[i row]|] eqn:Hfind.
  - assert (Hne : df_empty items = false).
    { destruct (df_empty items) eqn:E; [|done].
      by rewrite (df_empty_find "item_id" item_id _ E) in Hfind. }
    destruct Hcols as [Hcols|Hcols]; [congruence|].
    assert (Hin : Some item_id ∈ dict_get "item_id" <$> items).
    { apply list_find_Some in Hfind as (Hl & Hv & _). apply list_elem_of_fmap.
      exists row. split; [done|]. by eapply list_elem_of_lookup_2. }
    assert (Hvals : ∀ w0, df_values "item_id" items w0 = (Ok (dict_get "item_id" <$> items), w0)).
    { intros w0. unfold df_values.
      by rewrite (bool_decide_eq_true_2 ("item_id" ∈ df_columns items)). }
    intros current item_name Hst Hname.
    assert (Hprefix : ∀ (k : pydict → M action_exit),
      ((missing ← (if df_empty items then mret true
                   else ids ← df_values "item_id" items;
                        mret (bool_decide (Some item_id ∉ ids)));
        if missing : bool then
          display (st_error ("Item " +:+ item_id +:+ " not found!"));; mret ItemNotFound
        else row ← df_first_where "item_id" item_id items; k row) w) = k row w).
    { intros k. rewrite Hne.
      erewrite bind_run; [|erewrite bind_run by apply Hvals; reflexivity].
      rewrite bool_decide_eq_false_2 by (intros Hn; by apply Hn).
      erewrite bind_run; [done|]. unfold df_first_where.
      erewrite bind_run by apply Hvals. by rewrite Hfind. }
    rewrite Hprefix. unfold series_get. rewrite Hst, Hname.
    erewrite bind_run by reflexivity. erewrite bind_run by reflexivity.
    split.
    + intros -> Hc. rewrite (bool_decide_eq_true_2 ("use" = "use")) by done.
      by rewrite (bool_decide_eq_true_2 _ Hc).
    + intros -> Hc. rewrite (bool_decide_eq_false_2 ("return" = "use")) by done.
      rewrite (bool_decide_eq_true_2 ("return" = "return")) by done.
      by rewrite (bool_decide_eq_true_2 _ Hc).
  - destruct (df_empty items) eqn:E; [done|].
    destruct Hcols as [Hcols|Hcols]; [done|].
    unfold df_values. rewrite (bool_decide_eq_true_2 ("item_id" ∈ df_columns items)) by done.
    erewrite bind_run; [|erewrite bind_run by reflexivity; reflexivity].
    rewrite bool_decide_eq_true_2; [done|].
    intros Hin. apply elem_of_values_find in Hin as [x Hx]. congruence.
Qed.

Lemma table_record_keys header g records row :
  table header g → all_records g = Ok records → row ∈ records → dict_keys row = header.
Proof.
  intros (Hnd & rows & -> & Hrows) Hrec Hin.
  rewrite all_records_table in Hrec by done. injection Hrec as <-.
  apply list_elem_of_fmap in Hin as (padded & -> & Hin).
  apply list_elem_of_fmap in Hin as (raw & -> & Hin).
  unfold dict_keys. apply fst_zip. rewrite length_pad_row; [done|].
  rewrite Forall_forall in Hrows. by apply Hrows.
Qed.

Lemma table_records_columns header g records col :
  table header g → all_records g = Ok records → col ∈ header →
  df_empty records = true ∨ col ∈ df_columns records.
Proof.
  intros Htab Hrec Hcol. destruct records as [|row records]; [by left|]. right.
  unfold df_columns. apply elem_of_remove_dups, list_elem_of_join.
  exists (dict_keys row). split; [|by left].
  by rewrite (table_record_keys _ _ _ row Htab Hrec) by by left.
Qed.

(** ** [read_sheet] and the page that checks items out and in *)

Lemma read_sheet_post sheet_name w :
  post (read_sheet sheet_name) w
    (λ r w', ∃ records,
       r = Ok records ∧ sheets w' = sheets w ∧ same_env w w' ∧
       (records = [] ∨
        (is_Some (sheets w !! sheet_name) ∧
         all_records (sheet_of sheet_name w) = Ok records))).
Proof.
  assert (Hfail : ∀ e w1, same_data w w1 →
    post (display (st_error ("Error reading " +:+ sheet_name +:+ ": " +:+ exn_str e));;
          mret []) w1
      (λ r w', ∃ records,
         r = Ok records ∧ sheets w' = sheets w ∧ same_env w w' ∧
         (records = [] ∨
          (is_Some (sheets w !! sheet_name) ∧
           all_records (sheet_of sheet_name w) = Ok records)))).
  { intros e w1 H1. repeat step. exists []. simpl.
    destruct (same_data_fields _ _ H1) as (-> & _).
    split; [done|]. split; [done|]. split; [exact (same_data_env _ _ H1) | by left]. }
  unfold read_sheet. step. step.
  apply post_get_worksheet; [|intros e w1 H1; by apply Hfail].
  intros w1 H1 Hs. step.
  apply post_get_all_records; [|intros e w2 H2; apply Hfail; by etrans].
  intros w2 H2. rewrite (same_data_sheet_of _ _ _ H1).
  assert (H12 : same_data w w2) by by etrans.
  destruct (all_records (sheet_of sheet_name w)) as [records|e] eqn:Hrec;
    [|by apply Hfail].
  step. exists records. destruct (same_data_fields _ _ H12) as (-> & _).
  split; [done|]. split; [done|]. split; [exact (same_data_env _ _ H12) | by right].
Qed.

Lemma page_scan_use_refuses tech item_id action notes_val w g records :
  faults w = [] → sheets w !! "Items" = Some g → table Items_header g →
  all_records g = Ok records →
  match list_find (has_value "item_id" item_id) records with
  | None =>
      page_scan_use tech item_id action notes_val w
      = (Ok ItemNotFound, show (st_error ("Item " +:+ item_id +:+ " not found!")) w)
  | Some (_, row) =>
      ∀ current, dict_get "status" row = Some current →
        (action = "use" → current ≠ "available" →
           page_scan_use tech item_id action notes_val w
           = (Ok CannotCheckOut,
              show (st_error ("❌ Item is currently **" +:+ current +:+
                              "** — cannot check out!")) w)) ∧
        (action = "return" → current ≠ "in_use" →
           page_scan_use tech item_id action notes_val w
           = (Ok NotCheckedOut,
              show (st_error ("❌ Item is not checked out (status: **" +:+
                              current +:+ "**)")) w))
  end.
Proof.
  intros Hq Hg Htab Hrec. unfold page_scan_use.
  rewrite (bind_run _ _ _ _ _ (read_sheet_quiet "Items" w records Hq (mk_is_Some _ _ Hg)
                                 ltac:(by rewrite (sheet_of_Some _ _ _ Hg)))).
  pose proof (do_action_refuses records tech item_id action notes_val w) as Href.
  destruct (list_find (has_value "item_id" item_id) records) as [[i row]|] eqn:Hfind.
  - intros current Hst.
    apply list_find_Some in Hfind as (Hrow & _).
    apply (Href (table_records_columns _ _ _ "item_id" Htab Hrec
                   ltac:(apply (bool_decide_unpack _); by compute)) current
                 (cell g (S i) 1)); [done|].
    by apply (record_cell Items_header g records i row "name" 1).
  - apply Href. apply (table_records_columns _ _ _ "item_id" Htab Hrec).
    apply (bool_decide_unpack _). by compute.
Qed.

(** C2.  For a run of the page in which the check-out or return button is
    pressed for [item_id]: it succeeds only if the Items table read at the
    start of the run has a record with that identifier, and the first such
    record has status available (for a check-out) or in_use (for a return);
    every refusal leaves the whole spreadsheet as it was, so no item row is
    modified and no usage is logged; and on an Items table with its header,
    when no client call fails, an identifier that no record carries is
    refused with "Item ... not found!", a check-out of an item whose status
    is not available is refused with "Item is currently ... cannot check
    out!", and a return of an item whose status is not in_use is refused
    with "Item is not checked out". *)
Theorem checkout_return_guards (tech item_id action notes_val : string) (w : world) :
  let run := page_scan_use tech item_id action notes_val w in
  (run.1 = Ok ActionDone → action = "use" ∨ action = "return" →
     ∃ g records i row,
       sheets w !! "Items" = Some g ∧ all_records g = Ok records ∧
       list_find (has_value "item_id" item_id) records = Some (i, row) ∧
       dict_get "status" row
       = Some (if bool_decide (action = "use") then "available" else "in_use")) ∧
  (∀ exit, run.1 = Ok exit → exit ≠ ActionDone → sheets run.2 = sheets w) ∧
  (∀ g records,
     faults w = [] → sheets w !! "Items" = Some g → table Items_header g →
     all_records g = Ok records →
     match list_find (has_value "item_id" item_id) records with
     | None =>
         run = (Ok ItemNotFound, show (st_error ("Item " +:+ item_id +:+ " not found!")) w)
     | Some (_, row) =>
         ∀ current, dict_get "status" row = Some current →
           (action = "use" → current ≠ "available" →
              run = (Ok CannotCheckOut,
                     show (st_error ("❌ Item is currently **" +:+ current +:+
                                     "** — cannot check out!")) w)) ∧
           (action = "return" → current ≠ "in_use" →
              run = (Ok NotCheckedOut,
                     show (st_error ("❌ Item is not checked out (status: **" +:+
                                     current +:+ "**)")) w))
     end).
Proof.
  intros run. subst run. split; [|split].
  - by_post (page_scan_use tech item_id action notes_val) w. unfold page_scan_use.
    step. eapply post_mono; [apply read_sheet_post|].
    intros r w1 (records & -> & Hs & Henv & Hrecs). simpl.
    eapply post_mono; [apply do_action_post|].
    intros r w2 Hout. simpl. intros -> Haction. simpl in Hout.
    destruct Hout as (i & row & current & item_name & log & Hfind & Hst & _ & Huse & Hret & _).
    destruct Hrecs as [->|[[g Hg] Hrec]]; [done|].
    rewrite (sheet_of_Some _ _ _ Hg) in Hrec.
    exists g, records, i, row. repeat (split; [done|]). rewrite Hst. f_equal.
    destruct Haction as [->| ->].
    + rewrite bool_decide_eq_true_2 by done. by apply Huse.
    + rewrite bool_decide_eq_false_2 by done. by apply Hret.
  - intros exit. by_post (page_scan_use tech item_id action notes_val) w.
    unfold page_scan_use.
    step. eapply post_mono; [apply read_sheet_post|].
    intros r w1 (records & -> & Hs & Henv & Hrecs). simpl.
    eapply post_mono; [apply do_action_post|].
    intros r w2 Hout. simpl. intros -> Hexit. simpl in Hout.
    destruct exit; [| | |done].
    + destruct Hout as (_ & ->). done.
    + destruct Hout as (_ & i & row & current & _ & _ & _ & ->). done.
    + destruct Hout as (_ & i & row & current & _ & _ & _ & ->). done.
  - intros g records Hq Hg Htab Hrec.
    by apply (page_scan_use_refuses tech item_id action notes_val w g records).
Qed.

Lemma sample_items_table : table Items_header sample_items.
Proof.
  split; [apply (bool_decide_unpack _); by compute|].
  eexists. split; [reflexivity|]. repeat constructor.
Qed.

Lemma checkout_return_guards_witness :
  page_scan_use "Ahmad" "ITM-9999" "use" "" sample_world
  = (Ok ItemNotFound, show (st_error "Item ITM-9999 not found!") sample_world) ∧
  page_scan_use "Ahmad" "ITM-0002" "use" "" sample_world
  = (Ok CannotCheckOut,
     show (st_error "❌ Item is currently **in_use** — cannot check out!") sample_world) ∧
  page_scan_use "Ahmad" "ITM-0001" "return" "" sample_world
  = (Ok NotCheckedOut,
     show (st_error "❌ Item is not checked out (status: **available**)") sample_world) ∧
  (∃ g records i row,
     sheets sample_world !! "Items" = Some g ∧ all_records g = Ok records ∧
     list_find (has_value "item_id" "ITM-0001") records = Some (i, row) ∧
     dict_get "status" row = Some "available").
Proof.
  assert (Hs : sheets sample_world !! "Items" = Some sample_items) by (vm_compute; reflexivity).
  assert (Hr : all_records sample_items = Ok sample_records) by (vm_compute; reflexivity).
  split; [|split; [|split]].
  - destruct (checkout_return_guards "Ahmad" "ITM-9999" "use" "" sample_world) as (_ & _ & H).
    exact (H sample_items sample_records eq_refl Hs sample_items_table Hr).
  - destruct (checkout_return_guards "Ahmad" "ITM-0002" "use" "" sample_world) as (_ & _ & H).
    specialize (H sample_items sample_records eq_refl Hs sample_items_table Hr).
    apply (H "in_use"); [reflexivity | reflexivity | discriminate].
  - destruct (checkout_return_guards "Ahmad" "ITM-0001" "return" "" sample_world) as (_ & _ & H).
    specialize (H sample_items sample_records eq_refl Hs sample_items_table Hr).
    apply (H "available"); [reflexivity | reflexivity | discriminate].
  - destruct (checkout_return_guards "Ahmad" "ITM-0001" "use" "" sample_world) as (H & _ & _).
    apply H; [vm_compute; reflexivity | by left].
Defined.

(** ** The operations of the system and the usage log *)

Lemma rows_kept_trans t w1 w2 w3 : rows_kept t w1 w2 → rows_kept t w2 w3 → rows_kept t w1 w3.
Proof. unfold rows_kept. by etrans. Qed.

Lemma rows_kept_same t w w' : sheets w' = sheets w → rows_kept t w w'.
Proof. unfold rows_kept, sheet_of. by intros ->. Qed.

Lemma keeps_rows_post {A} t (m : M A) :
  keeps_rows t m ↔ ∀ w, post m w (λ _ w', rows_kept t w w').
Proof. done. Qed.

Lemma keeps_rows_ret {A} t (a : A) : keeps_rows t (mret a).
Proof. intros w. by apply rows_kept_same. Qed.

Lemma keeps_rows_raise {A} t e : keeps_rows t (raise e : M A).
Proof. intros w. by apply rows_kept_same. Qed.

Lemma keeps_rows_lift {A} t (r : result A) : keeps_rows t (lift_result r).
Proof. intros w. by apply rows_kept_same. Qed.

Lemma keeps_rows_display t ev : keeps_rows t (display ev).
Proof. intros w. by apply rows_kept_same. Qed.

Lemma keeps_rows_short_uuid t : keeps_rows t short_uuid.
Proof. intros w. by apply rows_kept_same. Qed.

Lemma keeps_rows_datetime_now t : keeps_rows t datetime_now.
Proof. intros w. by apply rows_kept_same. Qed.

Lemma keeps_rows_bind {A B} t (m : M A) (k : A → M B) :
  keeps_rows t m → (∀ a, keeps_rows t (k a)) → keeps_rows t (m ≫= k).
Proof.
  intros Hm Hk w. specialize (Hm w). unfold mbind, M_bind, run_bind.
  destruct (m w) as [[a|e] w1]; simpl in *; [|done].
  eapply rows_kept_trans; [exact Hm | apply Hk].
Qed.

Lemma keeps_rows_try {A} t (m : M A) h :
  keeps_rows t m → (∀ e, keeps_rows t (h e)) → keeps_rows t (try_except m h).
Proof.
  intros Hm Hh w. specialize (Hm w). unfold try_except.
  destruct (m w) as [[a|e] w1]; simpl in *; [done|].
  eapply rows_kept_trans; [exact Hm | apply Hh].
Qed.

Lemma keeps_rows_for_each {A} t (body : A → M unit) l :
  (∀ x, keeps_rows t (body x)) → keeps_rows t (for_each body l).
Proof.
  intros Hb. induction l as [|x l IH]; simpl; [apply keeps_rows_ret|].
  apply keeps_rows_bind; [apply Hb | done].
Qed.

Lemma keeps_rows_if {A} t (b : bool) (m1 m2 : M A) :
  keeps_rows t m1 → keeps_rows t m2 → keeps_rows t (if b then m1 else m2).
Proof. by destruct b. Qed.

Lemma keeps_rows_api t : keeps_rows t api_call.
Proof.
  intros w. apply rows_kept_same. unfold api_call. by destruct (faults w) as [|[e|] l].
Qed.

Lemma keeps_rows_get_world t : keeps_rows t get_world.
Proof. intros w. by apply rows_kept_same. Qed.

Lemma keeps_rows_get_worksheet t sheet_name : keeps_rows t (get_worksheet sheet_name).
Proof.
  unfold get_worksheet. apply keeps_rows_bind; [apply keeps_rows_api|]. intros _.
  apply keeps_rows_bind; [apply keeps_rows_get_world|]. intros w0.
  destruct (sheets w0 !! sheet_name); [apply keeps_rows_ret | apply keeps_rows_raise].
Qed.

Lemma keeps_rows_get_all_values t ws : keeps_rows t (get_all_values ws).
Proof.
  unfold get_all_values. apply keeps_rows_bind; [apply keeps_rows_api|]. intros _.
  apply keeps_rows_bind; [apply keeps_rows_get_world|]. intros w0. apply keeps_rows_ret.
Qed.

Lemma keeps_rows_get_all_records t ws : keeps_rows t (get_all_records ws).
Proof.
  unfold get_all_records. apply keeps_rows_bind; [apply keeps_rows_api|]. intros _.
  apply keeps_rows_bind; [apply keeps_rows_get_world|]. intros w0. apply keeps_rows_lift.
Qed.

Lemma keeps_rows_ws_append_row t ws values : keeps_rows t (ws_append_row ws values).
Proof.
  unfold ws_append_row. apply keeps_rows_bind; [apply keeps_rows_api|]. intros _ w.
  unfold rows_kept, write_sheet. simpl.
  destruct (decide (ws = t)) as [->|Hne].
  - rewrite sheet_of_set_sheets_eq. by apply prefix_app_r.
  - by rewrite sheet_of_set_sheets_ne.
Qed.

Lemma keeps_rows_read_sheet t sheet_name : keeps_rows t (read_sheet sheet_name).
Proof.
  unfold read_sheet. apply keeps_rows_try.
  - apply keeps_rows_bind; [apply keeps_rows_get_worksheet|]. intros ws.
    apply keeps_rows_bind; [apply keeps_rows_get_all_records|]. intros data.
    apply keeps_rows_ret.
  - intros e. apply keeps_rows_bind; [apply keeps_rows_display|]. intros _.
    apply keeps_rows_ret.
Qed.

Lemma keeps_rows_append_row t sheet_name row : keeps_rows t (append_row sheet_name row).
Proof.
  unfold append_row. apply keeps_rows_bind; [apply keeps_rows_get_worksheet|]. intros ws.
  apply keeps_rows_bind; [apply keeps_rows_get_all_values|]. intros vals.
  apply keeps_rows_bind; [|intros _; apply keeps_rows_ws_append_row].
  apply keeps_rows_if; [apply keeps_rows_ws_append_row | apply keeps_rows_ret].
Qed.

Lemma keeps_rows_update_cell_by_id t sheet_name id_col id_val update_dict :
  sheet_name ≠ t → keeps_rows t (update_cell_by_id sheet_name id_col id_val update_dict).
Proof.
  intros Hne w.
  destruct (update_cell_by_id_frame sheet_name id_col id_val update_dict w)
    as (_ & Hother & _).
  unfold rows_kept, sheet_of. by rewrite Hother.
Qed.

Lemma keeps_rows_init_sheet_headers t : keeps_rows t init_sheet_headers.
Proof.
  unfold init_sheet_headers. apply keeps_rows_for_each. intros [sheet_name headers].
  apply keeps_rows_try.
  - apply keeps_rows_bind; [apply keeps_rows_get_worksheet|]. intros ws.
    apply keeps_rows_bind; [apply keeps_rows_get_all_values|]. intros vals.
    apply keeps_rows_if; [apply keeps_rows_ws_append_row | apply keeps_rows_ret].
  - intros e. apply keeps_rows_display.
Qed.

Lemma keeps_rows_seed_users t : keeps_rows t seed_users.
Proof.
  unfold seed_users. apply keeps_rows_bind; [apply keeps_rows_read_sheet|]. intros df.
  apply keeps_rows_if; [|apply keeps_rows_ret].
  apply keeps_rows_for_each. intros user. apply keeps_rows_append_row.
Qed.

Lemma keeps_rows_page_register_item {image} (make_qr : pystr → result image)
    t tech name category location notes :
  keeps_rows t (page_register_item make_qr tech name category location notes).
Proof.
  unfold page_register_item. apply keeps_rows_if.
  - apply keeps_rows_bind; [apply keeps_rows_display|]. intros _. apply keeps_rows_ret.
  - apply keeps_rows_bind; [apply keeps_rows_short_uuid|]. intros u. cbv zeta.
    apply keeps_rows_bind; [apply keeps_rows_lift|]. intros _.
    apply keeps_rows_bind; [apply keeps_rows_datetime_now|]. intros now.
    apply keeps_rows_bind; [apply keeps_rows_append_row|]. intros _.
    apply keeps_rows_bind; [apply keeps_rows_display|]. intros _. apply keeps_rows_ret.
Qed.

Lemma keeps_rows_page_submit_report t name title description priority :
  keeps_rows t (page_submit_report name title description priority).
Proof.
  unfold page_submit_report. apply keeps_rows_if.
  - apply keeps_rows_bind; [apply keeps_rows_display|]. intros _. apply keeps_rows_ret.
  - apply keeps_rows_bind; [apply keeps_rows_short_uuid|]. intros u. cbv zeta.
    apply keeps_rows_bind; [apply keeps_rows_datetime_now|]. intros now.
    apply keeps_rows_bind; [apply keeps_rows_append_row|]. intros _.
    apply keeps_rows_bind; [apply keeps_rows_display|]. intros _. apply keeps_rows_ret.
Qed.

Lemma keeps_rows_page_manage_reports tech sel_id new_status resolution :
  keeps_rows "Usage_Log" (page_manage_reports tech sel_id new_status resolution).
Proof.
  unfold page_manage_reports.
  apply keeps_rows_bind; [apply keeps_rows_datetime_now|]. intros now.
  apply keeps_rows_bind; [by apply keeps_rows_update_cell_by_id|]. intros r.
  apply keeps_rows_bind; [apply keeps_rows_display|]. intros _. apply keeps_rows_ret.
Qed.

Lemma keeps_rows_do_action items tech item_id action notes_val :
  keeps_rows "Usage_Log" (do_action items tech item_id action notes_val).
Proof.
  unfold do_action. apply keeps_rows_bind.
  { apply keeps_rows_if; [apply keeps_rows_ret|].
    apply keeps_rows_bind; [|intros; apply keeps_rows_ret].
    unfold df_values. apply keeps_rows_if; [apply keeps_rows_ret | apply keeps_rows_raise]. }
  intros missing. apply keeps_rows_if.
  { apply keeps_rows_bind; [apply keeps_rows_display|]. intros _. apply keeps_rows_ret. }
  apply keeps_rows_bind.
  { unfold df_first_where. apply keeps_rows_bind.
    - unfold df_values. apply keeps_rows_if; [apply keeps_rows_ret | apply keeps_rows_raise].
    - intros _. destruct (list_find _ _) as [[i r]|];
        [apply keeps_rows_ret | apply keeps_rows_raise]. }
  intros row. unfold series_get. apply keeps_rows_bind.
  { destruct (dict_get "status" row); [apply keeps_rows_ret | apply keeps_rows_raise]. }
  intros current. apply keeps_rows_bind.
  { destruct (dict_get "name" row); [apply keeps_rows_ret | apply keeps_rows_raise]. }
  intros item_name. apply keeps_rows_if.
  { apply keeps_rows_bind; [apply keeps_rows_display|]. intros _. apply keeps_rows_ret. }
  apply keeps_rows_if.
  { apply keeps_rows_bind; [apply keeps_rows_display|]. intros _. apply keeps_rows_ret. }
  cbv zeta. apply keeps_rows_bind; [by apply keeps_rows_update_cell_by_id|]. intros _.
  apply keeps_rows_bind; [apply keeps_rows_short_uuid|]. intros log_id.
  apply keeps_rows_bind; [apply keeps_rows_datetime_now|]. intros now.
  apply keeps_rows_bind; [apply keeps_rows_append_row|]. intros _.
  apply keeps_rows_bind; [apply keeps_rows_display|]. intros _. apply keeps_rows_ret.
Qed.

(** C8.  No operation of the system changes or removes a row of the
    Usage_Log worksheet: after any sequence of operations, of one session or
    of several interleaved, whether they succeed or stop on an exception,
    the worksheet is the one before followed by the rows added since, in the
    order they were added. *)
Theorem usage_log_is_append_only {image : Type} (make_qr : pystr → result image)
    (ops : list operation) (w : world) :
  ∃ added, sheet_of "Usage_Log" (run_operations make_qr ops w)
           = sheet_of "Usage_Log" w ++ added.
Proof.
  change (rows_kept "Usage_Log" w (run_operations make_qr ops w)).
  unfold run_operations. revert w.
  induction ops as [|op ops IH]; intros w; simpl; [by apply rows_kept_same|].
  eapply rows_kept_trans; [|apply IH].
  assert (Hop : keeps_rows "Usage_Log" (run_operation make_qr op)); [|apply Hop].
  destruct op; simpl;
    (apply keeps_rows_bind; [|intros; apply keeps_rows_ret]) || idtac.
  - apply keeps_rows_init_sheet_headers.
  - apply keeps_rows_seed_users.
  - apply keeps_rows_read_sheet.
  - apply keeps_rows_page_register_item.
  - apply keeps_rows_do_action.
  - apply keeps_rows_page_manage_reports.
  - apply keeps_rows_page_submit_report.
Qed.

(** ** Failures of the client *)

Lemma no_fault_hit_refl w : no_fault_hit w w.
Proof. by exists 0. Qed.

Lemma no_fault_hit_trans w1 w2 w3 :
  no_fault_hit w1 w2 → no_fault_hit w2 w3 → no_fault_hit w1 w3.
Proof.
  intros [k1 H1] [k2 H2]. exists (k1 + k2).
  by rewrite H1, H2, replicate_add, <- app_assoc.
Qed.

Lemma fault_hit_after e w1 w2 w3 :
  no_fault_hit w1 w2 → fault_hit e w2 w3 → fault_hit e w1 w3.
Proof.
  intros [k1 H1] [k2 H2]. exists (k1 + k2).
  by rewrite H1, H2, replicate_add, <- app_assoc.
Qed.

Lemma propagates_pure {A} (m : M A) : (∀ w, faults (m w).2 = faults w) → propagates m.
Proof. intros H w. left. exists 0. by rewrite H. Qed.

Lemma propagates_ret {A} (a : A) : propagates (mret a).
Proof. by apply propagates_pure. Qed.

Lemma propagates_raise {A} e : propagates (raise e : M A).
Proof. by apply propagates_pure. Qed.

Lemma propagates_lift {A} (r : result A) : propagates (lift_result r).
Proof. by apply propagates_pure. Qed.

Lemma propagates_get_world : propagates get_world.
Proof. by apply propagates_pure. Qed.

Lemma propagates_display ev : propagates (display ev).
Proof. by apply propagates_pure. Qed.

Lemma propagates_write_sheet t f : propagates (write_sheet t f).
Proof. by apply propagates_pure. Qed.

Lemma propagates_short_uuid : propagates short_uuid.
Proof. by apply propagates_pure. Qed.

Lemma propagates_datetime_now : propagates datetime_now.
Proof. by apply propagates_pure. Qed.

Lemma propagates_api : propagates api_call.
Proof.
  intros w. unfold api_call. destruct (faults w) as [|[e|] l] eqn:E; simpl.
  - left. exists 0. by rewrite E.
  - right. exists e. split; [|done]. exists 0. by rewrite E.
  - left. exists 1. by rewrite E.
Qed.

Lemma propagates_bind {A B} (m : M A) (k : A → M B) :
  propagates m → (∀ a, propagates (k a)) → propagates (m ≫= k).
Proof.
  intros Hm Hk w. specialize (Hm w). unfold mbind, M_bind, run_bind.
  destruct (m w) as [[a|e] w1]; simpl in *.
  2: { destruct Hm as [Hm|(e0 & Hm & [= <-])]; [by left | right; by exists e]. }
  destruct Hm as [Hm|(e & _ & [=])].
  destruct (Hk a w1) as [H|(e & H & Hr)].
  - left. by eapply no_fault_hit_trans.
  - right. exists e. split; [by eapply fault_hit_after | done].
Qed.

Lemma propagates_if {A} (b : bool) (m1 m2 : M A) :
  propagates m1 → propagates m2 → propagates (if b then m1 else m2).
Proof. by destruct b. Qed.

(** Closes the goals [propagates m] for code made of binds, branches, client
    calls and the helpers already shown to propagate. *)
Create HintDb propagate discriminated.
#[export] Hint Resolve propagates_ret propagates_raise propagates_lift propagates_get_world
  propagates_display propagates_write_sheet propagates_short_uuid propagates_datetime_now
  propagates_api propagates_if : propagate.
#[export] Hint Extern 2 (propagates (mbind _ _)) =>
  apply propagates_bind; [|intros ?] : propagate.
#[export] Hint Extern 2 (propagates (match ?x with _ => _ end)) => destruct x : propagate.

Lemma propagates_get_worksheet sheet_name : propagates (get_worksheet sheet_name).
Proof. unfold get_worksheet. auto 10 with propagate. Qed.

Lemma propagates_get_all_values ws : propagates (get_all_values ws).
Proof. unfold get_all_values. auto 10 with propagate. Qed.

Lemma propagates_get_all_records ws : propagates (get_all_records ws).
Proof. unfold get_all_records. auto 10 with propagate. Qed.

Lemma propagates_row_values ws n : propagates (row_values ws n).
Proof. unfold row_values. auto 10 with propagate. Qed.

Lemma propagates_ws_append_row ws values : propagates (ws_append_row ws values).
Proof. unfold ws_append_row. auto 10 with propagate. Qed.

Lemma propagates_update_cell ws row col value : propagates (update_cell ws row col value).
Proof. unfold update_cell. auto 10 with propagate. Qed.

#[export] Hint Resolve propagates_get_worksheet propagates_get_all_values
  propagates_get_all_records propagates_row_values propagates_ws_append_row
  propagates_update_cell : propagate.

Lemma propagates_append_row sheet_name row : propagates (append_row sheet_name row).
Proof. unfold append_row. auto 10 with propagate. Qed.

Lemma propagates_update_cells ws row_num headers update_dict :
  propagates (update_cells ws row_num headers update_dict).
Proof.
  induction update_dict as [|[col_name new_val] rest IH]; simpl; auto 10 with propagate.
Qed.

Lemma propagates_scan_records ws headers id_col id_val update_dict i records :
  propagates (scan_records ws headers id_col id_val update_dict i records).
Proof.
  revert i. induction records as [|record rest IH]; intros i; simpl; [auto with propagate|].
  case_bool_decide; [|apply IH].
  apply propagates_bind; [apply propagates_update_cells | auto with propagate].
Qed.

#[export] Hint Resolve propagates_append_row propagates_update_cells
  propagates_scan_records : propagate.

Lemma propagates_update_cell_by_id sheet_name id_col id_val update_dict :
  propagates (update_cell_by_id sheet_name id_col id_val update_dict).
Proof. unfold update_cell_by_id. auto 12 with propagate. Qed.

#[export] Hint Resolve propagates_update_cell_by_id : propagate.

Lemma propagates_do_action items tech item_id action notes_val :
  propagates (do_action items tech item_id action notes_val).
Proof.
  unfold do_action, df_first_where, df_values, series_get. auto 30 with propagate.
Qed.

Lemma propagates_page_manage_reports tech sel_id new_status resolution :
  propagates (page_manage_reports tech sel_id new_status resolution).
Proof. unfold page_manage_reports. auto 12 with propagate. Qed.

Lemma propagates_page_submit_report name title description priority :
  propagates (page_submit_report name title description priority).
Proof. unfold page_submit_report. auto 12 with propagate. Qed.

Lemma propagates_page_register_item {image} (make_qr : pystr → result image)
    tech name category location notes :
  propagates (page_register_item make_qr tech name category location notes).
Proof. unfold page_register_item. auto 12 with propagate. Qed.

(** C5, as stated, fails on a read: [read_sheet] turns the failure of the
    client into an empty table, so the page goes on and reports the item as
    not found. *)
Lemma read_sheet_swallows_client_error :
  read_sheet "Items" failing_world
  = (Ok [], show (st_error "Error reading Items: 429 quota exceeded")
              (set_faults [] failing_world)) ∧
  (page_scan_use "Ahmad" "ITM-0001" "use" "" failing_world).1 = Ok ItemNotFound ∧
  ¬ propagates (read_sheet "Items").
Proof.
  split; [reflexivity|]. split; [reflexivity|].
  intros H. destruct (H failing_world) as [[k Hk]|(e & _ & He)].
  - destruct k; vm_compute in Hk; discriminate.
  - vm_compute in He. discriminate.
Qed.

(** C5, amended.  An exception raised by the table client inside
    [append_row] or [update_cell_by_id] stops the call at once and comes out
    of it unchanged, and likewise out of the handlers built on them
    ([do_action], the register, submit and report-update buttons).
    [read_sheet] never raises: when a client call fails in it, it shows
    "Error reading <table>: <message>" and returns an empty table. *)
Theorem client_errors_propagate_through_writes_only
    {image : Type} (make_qr : pystr → result image) :
  (∀ sheet_name row, propagates (append_row sheet_name row)) ∧
  (∀ sheet_name id_col id_val update_dict,
     propagates (update_cell_by_id sheet_name id_col id_val update_dict)) ∧
  (∀ items tech item_id action notes_val,
     propagates (do_action items tech item_id action notes_val)) ∧
  (∀ tech name category location notes,
     propagates (page_register_item make_qr tech name category location notes)) ∧
  (∀ tech sel_id new_status resolution,
     propagates (page_manage_reports tech sel_id new_status resolution)) ∧
  (∀ name title description priority,
     propagates (page_submit_report name title description priority)) ∧
  (∀ sheet_name w, ∃ records, (read_sheet sheet_name w).1 = Ok records) ∧
  (∀ sheet_name w e rest, faults w = Some e :: rest →
     read_sheet sheet_name w
     = (Ok [], show (st_error ("Error reading " +:+ sheet_name +:+ ": " +:+ exn_str e))
                 (set_faults rest w))).
Proof.
  split; [exact propagates_append_row|].
  split; [exact propagates_update_cell_by_id|].
  split; [exact propagates_do_action|].
  split; [exact (propagates_page_register_item make_qr)|].
  split; [exact propagates_page_manage_reports|].
  split; [exact propagates_page_submit_report|].
  split.
  - intros sheet_name w.
    destruct (read_sheet_post sheet_name w) as (records & Hr & _). by exists records.
  - intros sheet_name w e rest Hf.
    unfold read_sheet, try_except, get_worksheet.
    erewrite bind_run_raise; [|erewrite bind_run_raise; [reflexivity|]].
    + reflexivity.
    + unfold api_call. by rewrite Hf.
Qed.

Lemma client_errors_propagate_through_writes_only_witness :
  read_sheet "Reports" failing_world
  = (Ok [], show (st_error "Error reading Reports: 429 quota exceeded")
              (set_faults [] failing_world)) ∧
  (append_row "Users" [("user_id", "U001")] failing_world).1
  = Raise (TransportError "429 quota exceeded").
Proof.
  destruct (client_errors_propagate_through_writes_only (λ _, Ok tt))
    as (Happend & _ & _ & _ & _ & _ & _ & Hread).
  split.
  - apply (Hread "Reports" failing_world (TransportError "429 quota exceeded") []).
    reflexivity.
  - destruct (Happend "Users" [("user_id", "U001")] failing_world) as [[k Hk]|(e & [k Hk] & He)].
    + exfalso. destruct k; vm_compute in Hk; discriminate.
    + rewrite He. f_equal.
      destruct k; vm_compute in Hk; [by injection Hk as <- | discriminate].
Defined.

(** ** A check-out carried through *)

Lemma list_find_ext_in {A} (P Q : A → Prop) `{∀ x, Decision (P x)} `{∀ x, Decision (Q x)}
    (l : list A) :
  (∀ x, x ∈ l → (P x ↔ Q x)) → list_find P l = list_find Q l.
Proof.
  induction l as [|x l IH]; intros Hext; simpl; [done|].
  assert (Hx : P x ↔ Q x) by (apply Hext; by left).
  rewrite IH by (intros y Hy; apply Hext; by right).
  destruct (decide (P x)), (decide (Q x)); tauto || done.
Qed.

Lemma find_id_matches_has_value header g records col val :
  table header g → all_records g = Ok records → col ∈ header →
  list_find (id_matches col val) records = list_find (has_value col val) records.
Proof.
  intros Htab Hrec Hcol. apply list_find_ext_in. intros row Hrow.
  apply list_elem_of_lookup in Hrow as [k Hk].
  destruct (list_index col header) as [c|] eqn:Hc;
    [|by apply list_index_None in Hc].
  unfold id_matches, has_value.
  rewrite (record_cell _ _ _ _ _ _ _ Htab Hrec Hk Hc). simpl. split; congruence.
Qed.

Lemma table_grid_set header g r c v :
  table header g → 0 < r < length g → c < length header →
  table header (grid_set r c v g).
Proof.
  intros (Hnd & rows & -> & Hrows) [Hr0 Hr] Hc. split; [done|].
  destruct r as [|k]; [lia|]. simpl in Hr.
  unfold grid_set. replace (S (S k) - length (header :: rows)) with 0 by (simpl; lia).
  simpl. rewrite app_nil_r.
  eexists. split; [reflexivity|].
  destruct (rows !! k) as [row|] eqn:Hrow; simpl.
  - apply Forall_insert; [done|].
    rewrite length_insert, length_app, length_replicate.
    rewrite Forall_lookup in Hrows. specialize (Hrows _ _ Hrow). simpl in Hrows. lia.
  - apply lookup_ge_None in Hrow. lia.
Qed.

Lemma do_action_quiet items tech item_id action notes_val w g live log i row current item_name :
  faults w = [] →
  sheets w !! "Items" = Some g → all_records g = Ok live →
  sheets w !! "Usage_Log" = Some log →
  "item_id" ∈ df_columns items →
  list_find (has_value "item_id" item_id) items = Some (i, row) →
  dict_get "status" row = Some current →
  dict_get "name" row = Some item_name →
  (action = "use" → current = "available") →
  (action = "return" → current = "in_use") →
  do_action items tech item_id action notes_val w
  = (Ok ActionDone,
     logged
       (update_cell_by_id "Items" "item_id" item_id
          [("status", if bool_decide (action = "use") then "in_use" else "available")] w).2
       log
       (usage_row (upper (String.substring 0 8 (uuids w (uuid_count w))))
          item_id item_name tech action (clock w) notes_val)
       ((if bool_decide (action = "use") then "🔴" else "✅") +:+ " **" +:+ item_name +:+
        "** — " +:+ (if bool_decide (action = "use") then "Checked OUT" else "Returned") +:+
        " successfully!")).
Proof.
  intros Hq Hg Hlive Hlog Hcols Hfind Hst Hname Huse Hret. unfold do_action.
  assert (Hne : df_empty items = false).
  { destruct (df_empty items) eqn:E; [|done].
    by rewrite (df_empty_find "item_id" item_id _ E) in Hfind. }
  assert (Hin : Some item_id ∈ dict_get "item_id" <$> items).
  { apply list_find_Some in Hfind as (Hl & Hv & _). apply list_elem_of_fmap.
    exists row. split; [done|]. by eapply list_elem_of_lookup_2. }
  assert (Hvals : ∀ w0, df_values "item_id" items w0 = (Ok (dict_get "item_id" <$> items), w0)).
  { intros w0. unfold df_values.
    by rewrite (bool_decide_eq_true_2 ("item_id" ∈ df_columns items)). }
  rewrite Hne.
  erewrite bind_run; [|erewrite bind_run by apply Hvals; reflexivity].
  rewrite bool_decide_eq_false_2 by (intros Hn; by apply Hn).
  erewrite bind_run; [|unfold df_first_where; erewrite bind_run by apply Hvals;
                        by rewrite Hfind].
  unfold series_get. rewrite Hst, Hname.
  erewrite bind_run by reflexivity. erewrite bind_run by reflexivity.
  assert (Hg1 : bool_decide (action = "use") && bool_decide (current ≠ "available") = false).
  { destruct (bool_decide (action = "use")) eqn:Ha; [|done].
    apply bool_decide_eq_true in Ha. simpl. apply bool_decide_eq_false_2.
    intros Hn. by apply Hn, Huse. }
  assert (Hg2 : bool_decide (action = "return") && bool_decide (current ≠ "in_use") = false).
  { destruct (bool_decide (action = "return")) eqn:Ha; [|done].
    apply bool_decide_eq_true in Ha. simpl. apply bool_decide_eq_false_2.
    intros Hn. by apply Hn, Hret. }
  rewrite Hg1, Hg2. cbv zeta.
  pose proof (update_cell_by_id_quiet "Items" "item_id" item_id
                [("status", if bool_decide (action = "use") then "in_use" else "available")]
                w g live Hq Hg Hlive) as Hupd.
  set (upd := update_cell_by_id "Items" "item_id" item_id
                [("status", if bool_decide (action = "use") then "in_use" else "available")] w)
    in *.
  assert (Hw1 : faults upd.2 = [] ∧ sheets upd.2 !! "Usage_Log" = Some log ∧
                uuids upd.2 = uuids w ∧ uuid_count upd.2 = uuid_count w ∧
                clock upd.2 = clock w ∧ ∃ r, upd = (Ok r, upd.2)).
  { rewrite Hupd. destruct (list_find (id_matches "item_id" item_id) live) as [[j x]|]; simpl.
    - rewrite lookup_insert_ne by done. eauto 10.
    - eauto 10. }
  destruct Hw1 as (Hq1 & Hlog1 & Hu1 & Hc1 & Hk1 & r & Hr).
  erewrite bind_run by exact Hr.
  rewrite (bind_run _ _ _ _ _ (short_uuid_run _)).
  erewrite bind_run by reflexivity.
  erewrite bind_run by (by apply (append_row_quiet _ _ _ log)).
  rewrite Hu1, Hc1. simpl. rewrite Hk1. reflexivity.
Qed.

(** ** Two check-outs of the same item *)

Lemma find_after_status_update g records i row item_id v :
  table Items_header g → all_records g = Ok records →
  list_find (has_value "item_id" item_id) records = Some (i, row) →
  table Items_header (grid_set (S i) 4 v g) ∧
  ∃ records1 row1,
    all_records (grid_set (S i) 4 v g) = Ok records1 ∧
    list_find (has_value "item_id" item_id) records1 = Some (i, row1) ∧
    dict_get "status" row1 = Some v.
Proof.
  intros Htab Hrec Hfind.
  apply list_find_Some in Hfind as (Hrow & Hid & Hfirst).
  assert (Hi : i < length records) by by eapply lookup_lt_Some.
  pose proof (length_all_records _ _ Hrec) as Hlen.
  assert (Htab1 : table Items_header (grid_set (S i) 4 v g)).
  { apply table_grid_set; [done | lia | simpl; lia]. }
  split; [done|].
  destruct (table_records _ _ Htab1) as [records1 Hrec1].
  pose proof (length_all_records _ _ Hrec1) as Hlen1.
  rewrite length_grid_set in Hlen1 by lia.
  destruct (lookup_lt_is_Some_2 records1 i) as [row1 Hrow1]; [lia|].
  exists records1, row1. split; [done|].
  assert (Hcell0 : ∀ k, cell (grid_set (S i) 4 v g) (S k) 0 = cell g (S k) 0).
  { intros k. rewrite cell_grid_set. by rewrite decide_False by lia. }
  split.
  - apply list_find_Some. split; [done|]. split.
    + unfold has_value in *.
      rewrite (record_cell _ _ _ _ _ "item_id" 0 Htab1 Hrec1 Hrow1 eq_refl), Hcell0.
      by rewrite <- (record_cell _ _ _ _ _ "item_id" 0 Htab Hrec Hrow eq_refl).
    + intros j y Hy Hj.
      destruct (lookup_lt_is_Some_2 records j) as [y0 Hy0]; [lia|].
      specialize (Hfirst j y0 Hy0 Hj). unfold has_value in *.
      rewrite (record_cell _ _ _ _ _ "item_id" 0 Htab1 Hrec1 Hy eq_refl), Hcell0.
      by rewrite <- (record_cell _ _ _ _ _ "item_id" 0 Htab Hrec Hy0 eq_refl).
  - rewrite (record_cell _ _ _ _ _ "status" 4 Htab1 Hrec1 Hrow1 eq_refl).
    rewrite cell_grid_set. by rewrite decide_True.
Qed.

(** C1, as stated, fails: when two check-outs of the available item
    ITM-0001 overlap, both run to their end, and the usage log gains two
    CHECK OUT entries; no run is refused. *)
Lemma overlapping_checkouts_both_succeed :
  let run := checkouts_overlapping "Ahmad" "Siti" "ITM-0001" "" "" sample_world in
  run.1 = Ok (ActionDone, ActionDone) ∧
  sheet_of "Usage_Log" run.2
  = [ Usage_Log_header;
      ["1B4E28BA"; "ITM-0001"; "Multimeter"; "Ahmad"; "CHECK OUT"; "2024-01-05 10:30"; ""];
      ["9F3C07D1"; "ITM-0001"; "Multimeter"; "Siti"; "CHECK OUT"; "2024-01-05 10:30"; ""] ] ∧
  ui run.2 = [ st_success "🔴 **Multimeter** — Checked OUT successfully!";
               st_success "🔴 **Multimeter** — Checked OUT successfully!" ].
Proof. vm_compute. done. Qed.

(** C1, amended.  When two check-outs of the same available item run one
    after the other, without client failure, the first succeeds (the status
    of the item becomes in_use and exactly one CHECK OUT entry, of the first
    technician, is appended to the usage log) and the second is refused
    because the item is not available any more, and writes nothing. *)
Theorem checkouts_in_turn_one_succeeds
    (tech_a tech_b item_id notes_a notes_b : string) (w : world) (g log : grid)
    (records : list pydict) (i : nat) (row : pydict) (item_name : string) :
  faults w = [] →
  sheets w !! "Items" = Some g → table Items_header g →
  sheets w !! "Usage_Log" = Some log →
  all_records g = Ok records →
  list_find (has_value "item_id" item_id) records = Some (i, row) →
  dict_get "status" row = Some "available" →
  dict_get "name" row = Some item_name →
  let run := checkouts_in_turn tech_a tech_b item_id notes_a notes_b w in
  run.1 = Ok (ActionDone, CannotCheckOut) ∧
  field Items_header (sheet_of "Items" run.2) i "status" = "in_use" ∧
  sheet_of "Usage_Log" run.2
  = appended log (usage_row (upper (String.substring 0 8 (uuids w (uuid_count w))))
                    item_id item_name tech_a "use" (clock w) notes_a) ∧
  sheets run.2 = sheets (page_scan_use tech_a item_id "use" notes_a w).2.
Proof.
  intros Hq Hg Htab Hlog Hrec Hfind Hst Hname run. subst run.
  set (entry := usage_row (upper (String.substring 0 8 (uuids w (uuid_count w))))
                  item_id item_name tech_a "use" (clock w) notes_a).
  set (wa := logged (set_sheets (λ m, <["Items" := grid_set (S i) 4 "in_use" g]> m) w)
               log entry ("🔴 **" +:+ item_name +:+ "** — Checked OUT successfully!")).
  assert (Ha : page_scan_use tech_a item_id "use" notes_a w = (Ok ActionDone, wa)).
  { unfold page_scan_use.
    rewrite (bind_run _ _ _ _ _ (read_sheet_quiet "Items" w records Hq (mk_is_Some _ _ Hg)
                                   ltac:(by rewrite (sheet_of_Some _ _ _ Hg)))).
    rewrite (do_action_quiet records tech_a item_id "use" notes_a w g records log i row
               "available" item_name); try done.
    - rewrite (update_cell_by_id_quiet _ _ _ _ _ _ _ Hq Hg Hrec).
      rewrite (find_id_matches_has_value Items_header g records "item_id" item_id Htab Hrec)
        by (apply (bool_decide_unpack _); by compute).
      rewrite Hfind, (table_head _ _ Htab). reflexivity.
    - destruct (table_records_columns Items_header g records "item_id" Htab Hrec) as [He|Hc];
        [apply (bool_decide_unpack _); by compute | | done].
      by rewrite (df_empty_find "item_id" item_id _ He) in Hfind. }
  destruct (find_after_status_update g records i row item_id "in_use" Htab Hrec Hfind)
    as (Htab1 & records1 & row1 & Hrec1 & Hfind1 & Hst1).
  assert (Hb : page_scan_use tech_b item_id "use" notes_b wa
               = (Ok CannotCheckOut,
                  show (st_error "❌ Item is currently **in_use** — cannot check out!") wa)).
  { pose proof (page_scan_use_refuses tech_b item_id "use" notes_b wa
                  (grid_set (S i) 4 "in_use" g) records1) as Href.
    rewrite Hfind1 in Href.
    assert (Hga : sheets wa !! "Items" = Some (grid_set (S i) 4 "in_use" g)).
    { unfold wa, logged. simpl. rewrite lookup_insert_ne by done. by rewrite lookup_insert_eq. }
    by apply (Href Hq Hga Htab1 Hrec1 "in_use" Hst1). }
  unfold checkouts_in_turn.
  rewrite (bind_run _ _ _ _ _ Ha), (bind_run _ _ _ _ _ Hb), Ha. simpl.
  split; [done|]. split; [|split; [|done]].
  - unfold sheet_of, wa, logged. simpl.
    rewrite lookup_insert_ne by done. rewrite lookup_insert_eq. simpl.
    unfold field. simpl. rewrite cell_grid_set. by rewrite decide_True.
  - unfold sheet_of, wa, logged. simpl. by rewrite lookup_insert_eq.
Qed.

Lemma checkouts_in_turn_one_succeeds_witness :
  let run := checkouts_in_turn "Ahmad" "Siti" "ITM-0001" "" "" sample_world in
  run.1 = Ok (ActionDone, CannotCheckOut) ∧
  field Items_header (sheet_of "Items" run.2) 0 "status" = "in_use" ∧
  sheet_of "Usage_Log" run.2
  = [ Usage_Log_header;
      ["1B4E28BA"; "ITM-0001"; "Multimeter"; "Ahmad"; "CHECK OUT"; "2024-01-05 10:30"; ""] ].
Proof.
  intros run.
  destruct (checkouts_in_turn_one_succeeds "Ahmad" "Siti" "ITM-0001" "" "" sample_world
              sample_items [] sample_records 0
              (zip Items_header ["ITM-0001"; "Multimeter"; "Tools"; "Rack A"; "available";
                                 "Ahmad"; "2024-01-01 09:00"; ""])
              "Multimeter")
    as (Hexits & Hstatus & Hlog & _).
  - reflexivity.
  - vm_compute. reflexivity.
  - apply sample_items_table.
  - vm_compute. reflexivity.
  - vm_compute. reflexivity.
  - vm_compute. reflexivity.
  - vm_compute. reflexivity.
  - vm_compute. reflexivity.
  - split; [exact Hexits|]. split; [exact Hstatus|]. fold run in Hlog. rewrite Hlog.
    reflexivity.
Defined.

(** ** The codec: escapes and their reading *)

(** Decides the comparisons of code points met in a goal *)
Ltac compare_codes :=
  repeat match goal with
         | |- context [N.leb ?a ?b] => destruct (N.leb_spec a b)
         | |- context [N.ltb ?a ?b] => destruct (N.ltb_spec a b)
         | |- context [N.eqb ?a ?b] => destruct (N.eqb_spec a b)
         end.

Lemma hex_value_digit d : (d < 16)%N → hex_value (hex_digit d) = Some d.
Proof.
  intros Hd. unfold hex_value, hex_digit.
  destruct (N.ltb_spec d 10); compare_codes; simpl; try lia; f_equal; lia.
Qed.

Lemma hex4_digits n :
  (n < 65536)%N →
  hex4 (hex_digit (n / 4096)) (hex_digit ((n / 256) mod 16))
       (hex_digit ((n / 16) mod 16)) (hex_digit (n mod 16)) = Some n.
Proof.
  intros Hn. unfold hex4.
  rewrite !hex_value_digit by (zify; Z.to_euclidean_division_equations; lia).
  simpl. f_equal. zify. Z.to_euclidean_division_equations. lia.
Qed.

Lemma lor_shiftl_small a b k :
  (b < 2 ^ k)%N → N.lor (N.shiftl a k) b = (N.shiftl a k + b)%N.
Proof.
  intros Hb. rewrite <- N.lxor_lor, <- N.add_nocarry_lxor; trivial;
    apply N.bits_inj_0; intros m; rewrite N.land_spec;
    (destruct (N.lt_ge_cases m k) as [Hm|Hm];
     [rewrite N.shiftl_spec_low by trivial; reflexivity
     | rewrite <- (N.mod_small b (2 ^ k)) by trivial;
       rewrite N.mod_pow2_bits_high by trivial; apply andb_false_r]).
Qed.

Lemma high_surrogate n : N.lor 55296 (N.land (N.shiftr n 10) 1023) = (55296 + (n / 1024) mod 1024)%N.
Proof.
  change 1023%N with (N.ones 10). rewrite N.land_ones, N.shiftr_div_pow2.
  change 55296%N with (N.shiftl 54 10) at 1. rewrite lor_shiftl_small; [done|].
  by apply N.mod_lt.
Qed.

Lemma low_surrogate n : N.lor 56320 (N.land n 1023) = (56320 + n mod 1024)%N.
Proof.
  change 1023%N with (N.ones 10). rewrite N.land_ones.
  change 56320%N with (N.shiftl 55 10) at 1. rewrite lor_shiftl_small; [done|].
  by apply N.mod_lt.
Qed.

Lemma join_surrogates n :
  (n < 1048576)%N →
  (65536 + N.lor (N.shiftl (55296 + (n / 1024) mod 1024 - 55296) 10)
                 (56320 + n mod 1024 - 56320))%N = (65536 + n)%N.
Proof.
  intros Hn. f_equal.
  replace (55296 + (n / 1024) mod 1024 - 55296)%N with (n / 1024)%N
    by (zify; Z.to_euclidean_division_equations; lia).
  replace (56320 + n mod 1024 - 56320)%N with (n mod 1024)%N
    by (zify; Z.to_euclidean_division_equations; lia).
  rewrite lor_shiftl_small by (by apply N.mod_lt).
  rewrite N.shiftl_mul_pow2. zify. Z.to_euclidean_division_equations. lia.
Qed.

Lemma scanstring_quote rest : scanstring (34%N :: rest) = Ok ([], rest).
Proof. reflexivity. Qed.

Lemma scanstring_plain c rest :
  c ≠ 34%N → c ≠ 92%N → (32 <= c)%N →
  scanstring (c :: rest) = scanned c (scanstring rest).
Proof.
  intros H1 H2 H3. simpl.
  destruct (N.eqb_spec c 34); [done|]. destruct (N.eqb_spec c 92); [done|].
  destruct (N.ltb_spec c 32); [lia | done].
Qed.

Lemma scanstring_backslash esc ch rest :
  esc ≠ 117%N → backslash esc = Some ch →
  scanstring (92%N :: esc :: rest) = scanned ch (scanstring rest).
Proof.
  intros H1 H2. cbn [scanstring]. change (92 =? 34)%N with false.
  change (92 =? 92)%N with true. cbv iota.
  destruct (N.eqb_spec esc 117); [done|]. by rewrite H2.
Qed.

Lemma scanstring_u_escape n rest :
  (n < 55296 ∨ 56319 < n < 65536)%N →
  scanstring (u_escape n ++ rest) = scanned n (scanstring rest).
Proof.
  intros Hn. unfold u_escape. cbn [app scanstring].
  change (92 =? 34)%N with false. change (92 =? 92)%N with true.
  change (117 =? 117)%N with true. cbv iota.
  rewrite hex4_digits by lia.
  destruct (N.leb_spec 55296 n); [|done]. destruct (N.leb_spec n 56319); [lia | done].
Qed.

Lemma scanstring_surrogate_pair n rest :
  (n < 1048576)%N →
  scanstring (u_escape (55296 + (n / 1024) mod 1024) ++
              u_escape (56320 + n mod 1024) ++ rest)
  = scanned (65536 + n)%N (scanstring rest).
Proof.
  intros Hn.
  assert (Hhi : (55296 <= 55296 + (n / 1024) mod 1024 <= 56319)%N)
    by (zify; Z.to_euclidean_division_equations; lia).
  assert (Hlo : (56320 <= 56320 + n mod 1024 <= 57343)%N)
    by (zify; Z.to_euclidean_division_equations; lia).
  unfold u_escape at 1. cbn [app scanstring].
  change (92 =? 34)%N with false. change (92 =? 92)%N with true.
  change (117 =? 117)%N with true. cbv iota.
  rewrite hex4_digits by lia.
  rewrite (proj2 (N.leb_le _ _) (proj1 Hhi)), (proj2 (N.leb_le _ _) (proj2 Hhi)).
  unfold u_escape. cbn [app andb].
  change (92 =? 92)%N with true. change (117 =? 117)%N with true. cbn [andb].
  rewrite hex4_digits by lia.
  rewrite (proj2 (N.leb_le _ _) (proj1 Hlo)), (proj2 (N.leb_le _ _) (proj2 Hlo)).
  cbn [andb]. by rewrite join_surrogates.
Qed.

Lemma scanstring_escape_char c rest :
  scalar c → scanstring (escape_char c ++ rest) = scanned c (scanstring rest).
Proof.
  intros Hc. unfold escape_char.
  destruct (N.eqb_spec c 34) as [->|?]; [by apply scanstring_backslash|].
  destruct (N.eqb_spec c 92) as [->|?]; [by apply scanstring_backslash|].
  destruct (N.eqb_spec c 10) as [->|?]; [by apply scanstring_backslash|].
  destruct (N.eqb_spec c 13) as [->|?]; [by apply scanstring_backslash|].
  destruct (N.eqb_spec c 9) as [->|?]; [by apply scanstring_backslash|].
  destruct (N.eqb_spec c 8) as [->|?]; [by apply scanstring_backslash|].
  destruct (N.eqb_spec c 12) as [->|?]; [by apply scanstring_backslash|].
  destruct (N.leb_spec 32 c); cbn [andb].
  - destruct (N.leb_spec c 126); cbn [andb]; [by apply scanstring_plain|].
    destruct (N.ltb_spec c 65536).
    + apply scanstring_u_escape. unfold scalar in Hc. lia.
    + cbv zeta. rewrite high_surrogate, low_surrogate, <- app_assoc.
      rewrite scanstring_surrogate_pair by (unfold scalar in Hc; lia).
      by replace (65536 + (c - 65536))%N with c by lia.
  - destruct (N.ltb_spec c 65536); [|lia].
    apply scanstring_u_escape. lia.
Qed.

Lemma scanstring_escaped s rest :
  well_formed s → scanstring ((s ≫= escape_char) ++ 34%N :: rest) = Ok (s, rest).
Proof.
  induction 1 as [|c s Hc Hs IH]; [done|].
  change ((c :: s) ≫= escape_char) with (escape_char c ++ (s ≫= escape_char)).
  by rewrite <- app_assoc, scanstring_escape_char, IH.
Qed.

(** ** The codec: a dictionary of texts written and read back *)

Lemma hex_digit_ascii d : (d < 16)%N → (hex_digit d < 128)%N.
Proof. intros Hd. unfold hex_digit. destruct (N.ltb_spec d 10); lia. Qed.

Lemma u_escape_ascii n : (n < 65536)%N → ascii_only (u_escape n).
Proof.
  intros Hn. unfold u_escape.
  repeat constructor;
    try (apply hex_digit_ascii; zify; Z.to_euclidean_division_equations; lia); lia.
Qed.

Lemma escape_char_ascii c : ascii_only (escape_char c).
Proof.
  unfold escape_char.
  destruct (N.eqb_spec c 34); [by repeat constructor|].
  destruct (N.eqb_spec c 92); [by repeat constructor|].
  destruct (N.eqb_spec c 10); [by repeat constructor|].
  destruct (N.eqb_spec c 13); [by repeat constructor|].
  destruct (N.eqb_spec c 9); [by repeat constructor|].
  destruct (N.eqb_spec c 8); [by repeat constructor|].
  destruct (N.eqb_spec c 12); [by repeat constructor|].
  assert (Hwide : ascii_only
    (if (c <? 65536)%N then u_escape c
     else let n := (c - 65536)%N in
          u_escape (N.lor 55296 (N.land (N.shiftr n 10) 1023)) ++
          u_escape (N.lor 56320 (N.land n 1023)))).
  { destruct (N.ltb_spec c 65536); [by apply u_escape_ascii|].
    cbv zeta. rewrite high_surrogate, low_surrogate.
    apply Forall_app; split; apply u_escape_ascii;
      zify; Z.to_euclidean_division_equations; lia. }
  destruct (N.leb_spec 32 c), (N.leb_spec c 126); cbn [andb]; try done.
  repeat constructor. lia.
Qed.

Lemma text_ascii_brace_open : ascii_only (text "{").
Proof. vm_compute. repeat constructor. Qed.
Lemma text_ascii_brace_close : ascii_only (text "}").
Proof. vm_compute. repeat constructor. Qed.
Lemma text_ascii_colon : ascii_only (text ": ").
Proof. vm_compute. repeat constructor. Qed.
Lemma text_ascii_comma : ascii_only (text ", ").
Proof. vm_compute. repeat constructor. Qed.

Lemma encode_basestring_ascii_ascii s : ascii_only (encode_basestring_ascii s).
Proof.
  unfold encode_basestring_ascii. apply Forall_app. split; [by repeat constructor|].
  apply Forall_app. split; [|by repeat constructor].
  induction s as [|c s IH]; [constructor|].
  change ((c :: s) ≫= escape_char) with (escape_char c ++ (s ≫= escape_char)).
  apply Forall_app. split; [apply escape_char_ascii | done].
Qed.

Lemma join_items_ascii items : Forall ascii_only items → ascii_only (join_items items).
Proof.
  induction 1 as [|item rest Hitem Hrest IH]; [constructor|].
  destruct rest as [|item' rest]; [done|].
  change (ascii_only (item ++ text ", " ++ join_items (item' :: rest))).
  apply Forall_app. split; [done|]. apply Forall_app. split; [apply text_ascii_comma | done].
Qed.

Lemma json_dumps_ascii data : ascii_only (json_dumps data).
Proof.
  unfold json_dumps. apply Forall_app. split; [apply text_ascii_brace_open|].
  apply Forall_app. split; [|apply text_ascii_brace_close].
  apply join_items_ascii, Forall_fmap, Forall_forall. intros [k v] _. cbv beta iota.
  apply Forall_app. split; [apply encode_basestring_ascii_ascii|].
  apply Forall_app. split; [apply text_ascii_colon | apply encode_basestring_ascii_ascii].
Qed.

Lemma utf8_decode_ascii b : ascii_only b → utf8_decode b = Ok b.
Proof.
  induction 1 as [|c b Hc Hb IH]; [done|]. simpl.
  destruct (N.ltb_spec c 128); [|lia]. by rewrite IH.
Qed.

Lemma scan_once_quote depth rest :
  scan_once (S depth) (34%N :: rest)
  = match scanstring rest with
    | Ok (str, r) => Ok (JStr str, r)
    | Raise e => Raise e
    end.
Proof. reflexivity. Qed.

Lemma encode_basestring_ascii_app s tail :
  encode_basestring_ascii s ++ tail = 34%N :: (s ≫= escape_char) ++ 34%N :: tail.
Proof. unfold encode_basestring_ascii. by rewrite <- !app_assoc. Qed.

Lemma scan_once_string depth s tail :
  well_formed s →
  scan_once (S depth) (encode_basestring_ascii s ++ tail) = Ok (JStr s, tail).
Proof.
  intros Hs. rewrite encode_basestring_ascii_app, scan_once_quote.
  by rewrite scanstring_escaped.
Qed.

Lemma json_dumps_members data :
  json_dumps data = 123%N :: join_items (dumped_member <$> data) ++ [125%N].
Proof.
  unfold json_dumps. simpl. do 3 f_equal. apply list_fmap_ext. by intros i [k v] _.
Qed.

Lemma dumped_member_head kv : ∃ t, dumped_member kv = 34%N :: t.
Proof. by eexists. Qed.

Lemma join_items_head data :
  data ≠ [] → ∃ t, join_items (dumped_member <$> data) = 34%N :: t.
Proof.
  destruct data as [|kv [|kv' data]]; [done | by eexists | by eexists].
Qed.

Lemma length_join_items data : length data ≤ length (join_items (dumped_member <$> data)).
Proof.
  induction data as [|kv data IH]; [done|].
  destruct data as [|kv' data]; [simpl; lia|].
  change (join_items (dumped_member <$> kv :: kv' :: data))
    with (dumped_member kv ++ text ", " ++ join_items (dumped_member <$> kv' :: data)).
  rewrite !length_app. simpl in *. lia.
Qed.

Lemma scan_members_one depth rounds kv tail acc :
  well_formed kv.1 → well_formed kv.2 →
  scan_members (scan_once (S depth)) (S rounds) (dumped_member kv ++ tail) acc
  = match skip_ws tail with
    | 125%N :: r4 => Ok (JObj (members_set kv.1 (JStr kv.2) acc), r4)
    | 44%N :: r4 =>
        scan_members (scan_once (S depth)) rounds (skip_ws r4)
          (members_set kv.1 (JStr kv.2) acc)
    | _ => Raise (JSONDecodeError "Expecting ',' delimiter")
    end.
Proof.
  intros Hk Hv. unfold dumped_member.
  rewrite <- !app_assoc, encode_basestring_ascii_app.
  change (text ": " ++ encode_basestring_ascii kv.2 ++ tail)
    with (58%N :: 32%N :: encode_basestring_ascii kv.2 ++ tail).
  cbn [scan_members]. rewrite scanstring_escaped by done.
  change (skip_ws (58%N :: 32%N :: encode_basestring_ascii kv.2 ++ tail))
    with (58%N :: 32%N :: encode_basestring_ascii kv.2 ++ tail).
  cbv iota beta.
  change (skip_ws (32%N :: encode_basestring_ascii kv.2 ++ tail))
    with (encode_basestring_ascii kv.2 ++ tail).
  by rewrite scan_once_string.
Qed.

Lemma scan_members_dumped depth data rounds tail acc :
  Forall (λ kv, well_formed kv.1 ∧ well_formed kv.2) data →
  data ≠ [] → length data ≤ rounds →
  scan_members (scan_once (S depth)) rounds
    (join_items (dumped_member <$> data) ++ 125%N :: tail) acc
  = Ok (JObj (members_read data acc), tail).
Proof.
  intros Hwf. revert rounds acc.
  induction Hwf as [|kv data [Hk Hv] Hdata IH]; intros rounds acc Hne Hlen; [done|].
  destruct rounds as [|rounds]; [simpl in Hlen; lia|].
  destruct data as [|kv' data].
  - change (join_items (dumped_member <$> [kv])) with (dumped_member kv).
    by rewrite scan_members_one.
  - change (join_items (dumped_member <$> kv :: kv' :: data))
      with (dumped_member kv ++ text ", " ++ join_items (dumped_member <$> kv' :: data)).
    rewrite <- !app_assoc. rewrite scan_members_one by done.
    destruct (join_items_head (kv' :: data)) as [t Ht]; [done|].
    change (skip_ws (text ", " ++ join_items (dumped_member <$> kv' :: data) ++ 125%N :: tail))
      with (44%N :: 32%N :: join_items (dumped_member <$> kv' :: data) ++ 125%N :: tail).
    cbv iota beta.
    assert (Hskip : skip_ws (32%N :: join_items (dumped_member <$> kv' :: data) ++ 125%N :: tail)
                    = join_items (dumped_member <$> kv' :: data) ++ 125%N :: tail).
    { rewrite Ht. reflexivity. }
    rewrite Hskip. apply IH; [done | simpl in *; lia].
Qed.

Lemma members_set_fresh k v acc : k ∉ acc.*1 → members_set k v acc = acc ++ [(k, v)].
Proof.
  induction acc as [|[k' v'] acc IH]; [done|]. simpl.
  intros [Hne Hk]%not_elem_of_cons. rewrite bool_decide_eq_false_2 by done.
  by rewrite IH.
Qed.

Lemma members_read_distinct data acc :
  NoDup (acc.*1 ++ data.*1) →
  members_read data acc = acc ++ ((λ '(k, v), (k, JStr v)) <$> data).
Proof.
  revert acc. induction data as [|[k v] data IH]; intros acc Hnd; simpl.
  - by rewrite app_nil_r.
  - simpl in Hnd. apply NoDup_app in Hnd as (Hacc & Hdisj & Hdata).
    rewrite members_set_fresh by (intros Hin; apply (Hdisj k Hin); by left).
    unfold members_read in IH. rewrite IH.
    + by rewrite <- app_assoc.
    + rewrite fmap_app. simpl. rewrite <- app_assoc. simpl.
      apply NoDup_app. split; [done|]. split; [|done].
      intros x Hx. by apply Hdisj.
Qed.

Lemma json_loads_object depth t :
  json_loads (S depth) (123%N :: 34%N :: t)
  = match scan_members (scan_once depth) (S (length t)) (34%N :: t) [] with
    | Raise e => Raise e
    | Ok (v, r) =>
        if bool_decide (skip_ws r = []) then Ok v else Raise (JSONDecodeError "Extra data")
    end.
Proof. reflexivity. Qed.

Lemma json_loads_dumps depth data :
  2 ≤ depth → NoDup data.*1 →
  Forall (λ kv, well_formed kv.1 ∧ well_formed kv.2) data →
  json_loads depth (json_dumps data) = Ok (json_of_dict data).
Proof.
  intros Hdepth Hnd Hwf. rewrite json_dumps_members.
  destruct depth as [|[|depth]]; [lia | lia |].
  destruct data as [|kv data]; [done|].
  destruct (join_items_head (kv :: data)) as [t Ht]; [done|].
  pose proof (length_join_items (kv :: data)) as Hlen.
  rewrite Ht in Hlen |- *. cbn [app]. rewrite json_loads_object.
  change (34%N :: t ++ [125%N]) with ((34%N :: t) ++ [125%N]). rewrite <- Ht.
  rewrite scan_members_dumped; [|done|done|rewrite length_app; simpl in *; lia].
  simpl skip_ws. rewrite bool_decide_eq_true_2 by done.
  unfold json_of_dict. by rewrite members_read_distinct.
Qed.

(** Why the texts must be made of scalar values: two surrogate code points
    in a row are written as two escapes and read back as one character. *)
Remark surrogates_do_not_round_trip :
  json_loads 1000 (json_dumps [(text "name", [55357; 56832]%N)])
  = Ok (JObj [(text "name", JStr [128512%N])]).
Proof. vm_compute. reflexivity. Qed.

Lemma decode_qr_from_upload_run {upload : Type} (scan : upload → result (list (list N)))
    depth uploaded_file w :
  decode_qr_from_upload scan depth uploaded_file w
  = match scan uploaded_file with
    | Ok [] => (Ok None, w)
    | Ok (first :: _) =>
        match utf8_decode first with
        | Ok content =>
            match json_loads depth content with
            | Ok value => (Ok (Some value), w)
            | Raise e =>
                (Ok None, show (st_warning ("QR decode error: " +:+ exn_str e +:+
                                             ". Use Manual Entry tab instead.")) w)
            end
        | Raise e =>
            (Ok None, show (st_warning ("QR decode error: " +:+ exn_str e +:+
                                         ". Use Manual Entry tab instead.")) w)
        end
    | Raise e =>
        (Ok None, show (st_warning ("QR decode error: " +:+ exn_str e +:+
                                     ". Use Manual Entry tab instead.")) w)
    end.
Proof.
  unfold decode_qr_from_upload, try_except, lift_result, mbind, M_bind, run_bind.
  destruct (scan uploaded_file) as [[|first rest]|e]; [done| |done].
  destruct (utf8_decode first) as [content|e]; [|done].
  by destruct (json_loads depth content) as [value|e].
Qed.

Section codec_round_trip.
(** The barcode libraries: [make_qr] draws the code of a text, [as_upload]
    is the picture of a code as it comes back through the file uploader
    ([qr_to_bytes], download, upload), [scan] finds the codes in a picture
    and gives the bytes each one holds. *)
Context {image upload : Type}.
Variable make_qr : pystr → result image.
Variable as_upload : image → upload.
Variable scan : upload → result (list (list N)).

(** The scanner reads the bytes of the text the generator drew. *)
Hypothesis scan_reads_make_qr :
  ∀ content img, ascii_only content → make_qr content = Ok img →
                 scan (as_upload img) = Ok [content].

End codec_round_trip.


(** * What the operations keep true of a worksheet *)

Section preservation.

(** A property [P] of the worksheet [t], whose header is [header], that
    survives the first header row, the rows in [may_append] and the cell
    values in [may_set]. *)
Variables (t : string) (header : list string) (P : grid → Prop).
Variable may_append : list string → Prop.
Variable may_set : string → string → Prop.

Hypothesis P_table : ∀ g, P g → g = [] ∨ table header g.
Hypothesis P_header : P [] → P [header].
Hypothesis P_append : ∀ g values, P g → g ≠ [] → may_append values → P (g ++ [values]).
Hypothesis P_set : ∀ g r c col v,
  P g → 0 < r < length g → list_index col header = Some c → may_set col v →
  P (grid_set r c v g).

Lemma preserves_post {A} (m : M A) :
  preserves t P m ↔ ∀ w, P (sheet_of t w) → post m w (λ _ w', P (sheet_of t w')).
Proof. done. Qed.

Lemma preserves_still {A} (m : M A) : (∀ w, sheets (m w).2 = sheets w) → preserves t P m.
Proof. intros H w. unfold sheet_of. by rewrite H. Qed.

Lemma preserves_ret {A} (a : A) : preserves t P (mret a).
Proof. by apply preserves_still. Qed.

Lemma preserves_raise {A} e : preserves t P (raise e : M A).
Proof. by apply preserves_still. Qed.

Lemma preserves_lift {A} (r : result A) : preserves t P (lift_result r).
Proof. by apply preserves_still. Qed.

Lemma preserves_display ev : preserves t P (display ev).
Proof. by apply preserves_still. Qed.

Lemma preserves_short_uuid : preserves t P short_uuid.
Proof. by apply preserves_still. Qed.

Lemma preserves_datetime_now : preserves t P datetime_now.
Proof. by apply preserves_still. Qed.

Lemma preserves_bind {A B} (m : M A) (k : A → M B) :
  preserves t P m → (∀ a, preserves t P (k a)) → preserves t P (m ≫= k).
Proof.
  intros Hm Hk w Hw. specialize (Hm w Hw). unfold mbind, M_bind, run_bind.
  destruct (m w) as [[a|e] w1]; simpl in *; [by apply Hk | done].
Qed.

Lemma preserves_try {A} (m : M A) h :
  preserves t P m → (∀ e, preserves t P (h e)) → preserves t P (try_except m h).
Proof.
  intros Hm Hh w Hw. specialize (Hm w Hw). unfold try_except.
  destruct (m w) as [[a|e] w1]; simpl in *; [done | by apply Hh].
Qed.

Lemma preserves_for_each {A} (body : A → M unit) l :
  (∀ x, x ∈ l → preserves t P (body x)) → preserves t P (for_each body l).
Proof.
  induction l as [|x l IH]; intros Hb; simpl; [apply preserves_ret|].
  apply preserves_bind; [apply Hb; left | intros _; apply IH; intros; apply Hb; by right].
Qed.

Lemma preserves_if {A} (b : bool) (m1 m2 : M A) :
  preserves t P m1 → preserves t P m2 → preserves t P (if b then m1 else m2).
Proof. by destruct b. Qed.

Lemma preserves_read_sheet sheet_name : preserves t P (read_sheet sheet_name).
Proof.
  apply preserves_still. intros w.
  by destruct (read_sheet_post sheet_name w) as (records & _ & -> & _).
Qed.

Lemma preserves_same w w' : same_data w w' → P (sheet_of t w) → P (sheet_of t w').
Proof. intros H. by rewrite (same_data_sheet_of _ _ _ H). Qed.

Lemma appended_kept g row :
  dict_keys row = header → may_append (dict_values row) → P g → P (appended g row).
Proof.
  intros Hk Hv Hg. unfold appended. case_bool_decide as Hnil.
  - subst g. simpl. rewrite Hk. apply (P_append [header]); [by apply P_header | done | done].
  - rewrite app_nil_r. by apply P_append.
Qed.

Lemma preserves_append_row sheet_name row :
  (sheet_name = t → dict_keys row = header ∧ may_append (dict_values row)) →
  preserves t P (append_row sheet_name row).
Proof.
  intros Hrow w Hw. pose proof (append_row_post sheet_name row w) as Hpost.
  unfold post in Hpost.
  destruct (decide (sheet_name = t)) as [->|Hne].
  - destruct (Hrow eq_refl) as [Hk Hv].
    destruct (append_row t row w).1 as [[]|e].
    + destruct Hpost as (g & Hg & Hsame).
      rewrite (same_data_sheet_of _ _ _ Hsame), sheet_of_set_sheets_eq.
      apply appended_kept; [done..|]. by rewrite <- (sheet_of_Some _ _ _ Hg).
    + destruct Hpost as [Hsame|[Hg Hsame]].
      * by apply (preserves_same w).
      * rewrite (same_data_sheet_of _ _ _ Hsame), sheet_of_set_sheets_eq, Hk.
        apply P_header. by rewrite <- (sheet_of_Some _ _ _ Hg).
  - destruct (append_row sheet_name row w).1 as [[]|e].
    + destruct Hpost as (g & Hg & Hsame).
      by rewrite (same_data_sheet_of _ _ _ Hsame), sheet_of_set_sheets_ne.
    + destruct Hpost as [Hsame|[Hg Hsame]].
      * by apply (preserves_same w).
      * by rewrite (same_data_sheet_of _ _ _ Hsame), sheet_of_set_sheets_ne.
Qed.

Lemma update_cells_kept row_num update_dict w :
  P (sheet_of t w) → 1 < row_num ≤ length (sheet_of t w) →
  Forall (λ kv, may_set kv.1 kv.2) update_dict →
  post (update_cells t row_num header update_dict) w
    (λ _ w', P (sheet_of t w') ∧ length (sheet_of t w') = length (sheet_of t w)).
Proof.
  intros Hw Hrow Hd. revert w Hw Hrow.
  induction Hd as [|[col_name new_val] rest Hset _ IH]; intros w Hw Hrow; simpl.
  - by step.
  - step. destruct (list_index col_name header) as [i|] eqn:Hi.
    + apply post_update_cell.
      * intros w1 H1. replace (i + 1 - 1) with i in H1 by lia.
        eapply post_mono.
        { apply IH.
          - rewrite (same_data_sheet_of _ _ _ H1), sheet_of_set_sheets_eq.
            apply (P_set _ _ _ col_name); [done | lia | done | done].
          - rewrite (same_data_sheet_of _ _ _ H1), sheet_of_set_sheets_eq.
            rewrite length_grid_set; lia. }
        intros r w2 [H2 Hlen]. split; [done|]. rewrite Hlen.
        rewrite (same_data_sheet_of _ _ _ H1), sheet_of_set_sheets_eq.
        apply length_grid_set. lia.
      * intros e w1 H1. by rewrite (same_data_sheet_of _ _ _ H1).
    + step. by apply IH.
Qed.

Lemma scan_records_kept id_col id_val update_dict i records w :
  P (sheet_of t w) → i + length records ≤ length (sheet_of t w) - 1 →
  Forall (λ kv, may_set kv.1 kv.2) update_dict →
  post (scan_records t header id_col id_val update_dict i records) w
    (λ _ w', P (sheet_of t w')).
Proof.
  intros Hw Hlen Hd. revert i Hlen.
  induction records as [|record rest IH]; intros i Hlen; simpl.
  - by step.
  - simpl in Hlen. case_bool_decide.
    + step. eapply post_mono; [apply (update_cells_kept (i + 2)); [done | lia | done]|].
      intros r w' [Hw' _]. destruct r as [[]|e]; [by step | done].
    + apply IH. lia.
Qed.

Lemma preserves_update_cell_by_id sheet_name id_col id_val update_dict :
  (sheet_name = t → Forall (λ kv, may_set kv.1 kv.2) update_dict) →
  preserves t P (update_cell_by_id sheet_name id_col id_val update_dict).
Proof.
  intros Hd w Hw. destruct (decide (sheet_name = t)) as [->|Hne].
  - specialize (Hd eq_refl). revert Hw. apply preserves_post. clear w. intros w Hw.
    unfold update_cell_by_id. step.
    apply post_get_worksheet; [|intros e w1 H1; by apply (preserves_same w)].
    intros w1 H1 _. step.
    apply post_get_all_records; [|intros e w2 H2; apply (preserves_same w); [by etrans | done]].
    intros w2 H2. rewrite (same_data_sheet_of _ _ _ H1).
    assert (H02 : same_data w w2) by (by etrans).
    destruct (all_records (sheet_of t w)) as [records|e] eqn:Hrec;
      [|by apply (preserves_same w)].
    step. apply post_row_values; [|intros e w3 H3; apply (preserves_same w); [by etrans | done]].
    intros w3 H3. rewrite (same_data_sheet_of _ _ _ H02).
    assert (H03 : same_data w w3) by (by etrans).
    assert (Hw3 : P (sheet_of t w3)) by (by apply (preserves_same w)).
    step. change (1 - 1) with 0. destruct (P_table _ Hw) as [Hnil|Htab].
    + rewrite Hnil in Hrec. injection Hrec as <-. rewrite Hnil. simpl. step. repeat step. done.
    + rewrite (table_head _ _ Htab). simpl. eapply post_mono.
      { apply scan_records_kept; [done | | done].
        rewrite (same_data_sheet_of _ _ _ H03), (length_all_records _ _ Hrec). lia. }
      intros r w4 Hw4. destruct r as [[]|e]; [by step | by repeat step | done].
  - destruct (update_cell_by_id_frame sheet_name id_col id_val update_dict w)
      as (_ & Hother & _).
    unfold sheet_of. by rewrite Hother.
Qed.

Lemma preserves_init_one sheet_name headers (h : exn → M unit) :
  (sheet_name = t → headers = header) →
  (∀ e, preserves t P (h e)) →
  preserves t P
    (try_except
       (ws ← get_worksheet sheet_name;
        vals ← get_all_values ws;
        if bool_decide (vals = []) then ws_append_row ws headers else mret tt) h).
Proof.
  intros Hh Hhandler. apply preserves_post. intros w Hw. step. step.
  assert (Hcatch : ∀ e w', same_data w w' → post (h e) w' (λ _ w'', P (sheet_of t w''))).
  { intros e w' Hsame. apply preserves_post; [apply Hhandler | by apply (preserves_same w)]. }
  apply post_get_worksheet; [|done].
  intros w1 H1 _. step.
  apply post_get_all_values; [|intros e w2 H2; apply Hcatch; by etrans].
  intros w2 H2. assert (H02 : same_data w w2) by (by etrans).
  rewrite (same_data_sheet_of _ _ _ H1). case_bool_decide as Hvals.
  - apply (proj1 (fill_gaps_nil _)) in Hvals. apply post_ws_append_row; [|intros e w3 H3; apply Hcatch; by etrans].
    intros w3 H3. rewrite (same_data_sheet_of _ _ _ H3).
    destruct (decide (sheet_name = t)) as [->|Hne].
    + rewrite sheet_of_set_sheets_eq, (same_data_sheet_of _ _ _ H02), Hvals, (Hh eq_refl).
      apply P_header. by rewrite <- Hvals.
    + rewrite sheet_of_set_sheets_ne by done. by apply (preserves_same w).
  - step. by apply (preserves_same w).
Qed.

Hypothesis rules : page_rules t header may_append may_set.

Lemma preserves_init_sheet_headers : preserves t P init_sheet_headers.
Proof.
  unfold init_sheet_headers. apply preserves_for_each. intros [sheet_name headers] Hin.
  apply preserves_init_one; [|intros e; apply preserves_display].
  intros ->. by apply rules.
Qed.

Lemma preserves_seed_users : preserves t P seed_users.
Proof.
  unfold seed_users. apply preserves_bind; [apply preserves_read_sheet|]. intros df.
  apply preserves_if; [|apply preserves_ret].
  apply preserves_for_each. intros user Hin. apply preserves_append_row. intros <-.
  destruct rules as (Hh & _ & _ & _ & Hu). split; [|by apply Hu].
  rewrite <- (Hh Users_header) by (apply (bool_decide_unpack _); by compute).
  revert Hin. unfold demo_users. rewrite !elem_of_cons, elem_of_nil.
  by intros [->|[->|[->|[->|[]]]]].
Qed.

Lemma preserves_page_register_item {image} (make_qr : pystr → result image)
    tech name category location notes :
  preserves t P (page_register_item make_qr tech name category location notes).
Proof.
  unfold page_register_item. apply preserves_if.
  - apply preserves_bind; [apply preserves_display|]. intros _. apply preserves_ret.
  - apply preserves_bind; [apply preserves_short_uuid|]. intros u. cbv zeta.
    apply preserves_bind; [apply preserves_lift|]. intros _.
    apply preserves_bind; [apply preserves_datetime_now|]. intros now.
    apply preserves_bind; [|intros _; apply preserves_bind;
                             [apply preserves_display | intros _; apply preserves_ret]].
    apply preserves_append_row. intros <-.
    destruct rules as (Hh & Hi & _). split; [|by apply Hi].
    by rewrite <- (Hh Items_header) by (apply (bool_decide_unpack _); by compute).
Qed.

Lemma preserves_page_submit_report name title description priority :
  preserves t P (page_submit_report name title description priority).
Proof.
  unfold page_submit_report. apply preserves_if.
  - apply preserves_bind; [apply preserves_display|]. intros _. apply preserves_ret.
  - apply preserves_bind; [apply preserves_short_uuid|]. intros u. cbv zeta.
    apply preserves_bind; [apply preserves_datetime_now|]. intros now.
    apply preserves_bind; [|intros _; apply preserves_bind;
                             [apply preserves_display | intros _; apply preserves_ret]].
    apply preserves_append_row. intros <-.
    destruct rules as (Hh & _ & _ & Hr & _). split; [|by apply Hr].
    by rewrite <- (Hh Reports_header) by (apply (bool_decide_unpack _); by compute).
Qed.

Lemma preserves_page_manage_reports tech sel_id new_status resolution :
  preserves t P (page_manage_reports tech sel_id new_status resolution).
Proof.
  unfold page_manage_reports.
  apply preserves_bind; [apply preserves_datetime_now|]. intros now.
  apply preserves_bind; [|intros r; apply preserves_bind;
                           [apply preserves_display | intros _; apply preserves_ret]].
  apply preserves_update_cell_by_id. intros <-.
  destruct rules as (_ & _ & _ & Hr & _). destruct (Hr eq_refl) as [_ Hset].
  repeat constructor; simpl; apply Hset.
Qed.

Lemma preserves_do_action items tech item_id action notes_val :
  preserves t P (do_action items tech item_id action notes_val).
Proof.
  unfold do_action. apply preserves_bind.
  { apply preserves_if; [apply preserves_ret|].
    apply preserves_bind; [|intros; apply preserves_ret].
    unfold df_values. apply preserves_if; [apply preserves_ret | apply preserves_raise]. }
  intros missing. apply preserves_if.
  { apply preserves_bind; [apply preserves_display|]. intros _. apply preserves_ret. }
  apply preserves_bind.
  { unfold df_first_where. apply preserves_bind.
    - unfold df_values. apply preserves_if; [apply preserves_ret | apply preserves_raise].
    - intros _. destruct (list_find _ _) as [[i r]|];
        [apply preserves_ret | apply preserves_raise]. }
  intros row. unfold series_get. apply preserves_bind.
  { destruct (dict_get "status" row); [apply preserves_ret | apply preserves_raise]. }
  intros current. apply preserves_bind.
  { destruct (dict_get "name" row); [apply preserves_ret | apply preserves_raise]. }
  intros item_name. apply preserves_if.
  { apply preserves_bind; [apply preserves_display|]. intros _. apply preserves_ret. }
  apply preserves_if.
  { apply preserves_bind; [apply preserves_display|]. intros _. apply preserves_ret. }
  cbv zeta. destruct rules as (Hh & Hi & Hl & _). apply preserves_bind.
  { apply preserves_update_cell_by_id. intros <-. destruct (Hi eq_refl) as (_ & ? & ?).
    repeat constructor; simpl. by case_bool_decide. }
  intros _. apply preserves_bind; [apply preserves_short_uuid|]. intros log_id.
  apply preserves_bind; [apply preserves_datetime_now|]. intros now.
  apply preserves_bind; [|intros _; apply preserves_bind;
                           [apply preserves_display | intros _; apply preserves_ret]].
  apply preserves_append_row. intros <-. split.
  - by rewrite <- (Hh Usage_Log_header) by (apply (bool_decide_unpack _); by compute).
  - simpl. case_bool_decide; by apply Hl.
Qed.

Lemma preserves_run_operation {image} (make_qr : pystr → result image) op :
  preserves t P (run_operation make_qr op).
Proof.
  destruct op; simpl;
    (apply preserves_bind; [|intros; apply preserves_ret]) || idtac.
  - apply preserves_init_sheet_headers.
  - apply preserves_seed_users.
  - apply preserves_read_sheet.
  - apply preserves_page_register_item.
  - apply preserves_do_action.
  - apply preserves_page_manage_reports.
  - apply preserves_page_submit_report.
Qed.

Lemma run_operations_kept {image} (make_qr : pystr → result image) ops w :
  P (sheet_of t w) → P (sheet_of t (run_operations make_qr ops w)).
Proof.
  unfold run_operations. revert w.
  induction ops as [|op ops IH]; intros w Hw; simpl; [done|].
  apply IH. by apply preserves_run_operation.
Qed.

End preservation.

(** ** Tables whose rows keep what they hold outside some columns *)

Lemma grid_set_in_row (g : grid) r c v row :
  g !! r = Some row → c < length row → grid_set r c v g = <[r := <[c := v]> row]> g.
Proof.
  intros Hrow Hc. unfold grid_set. pose proof (lookup_lt_Some _ _ _ Hrow) as Hr.
  replace (S r - length g) with 0 by lia. simpl. rewrite app_nil_r, Hrow. simpl.
  replace (S c - length row) with 0 by lia. simpl. by rewrite app_nil_r.
Qed.

Lemma cell_app_l (g : grid) rows r c : r < length g → cell (g ++ rows) r c = cell g r c.
Proof. intros Hr. unfold cell. by rewrite lookup_app_l. Qed.

Lemma table_append header g values :
  table header g → length values ≤ length header → table header (g ++ [values]).
Proof.
  intros (Hnd & rows & -> & Hrows) Hv. split; [done|]. exists (rows ++ [values]).
  split; [done|]. apply Forall_app. split; [done | by constructor].
Qed.

Section frozen_columns.

Variables (header : list string) (cols : list nat) (g0 : grid).
Hypothesis header_nodup : NoDup header.



Lemma kept_header : kept_outside header cols g0 [] → kept_outside header cols g0 [header].
Proof.
  intros [_ [Hlen _]]. split.
  - right. split; [done|]. by exists [].
  - split; [simpl in *; lia|]. intros r c Hr. simpl in Hlen. lia.
Qed.

Lemma kept_append g values :
  kept_outside header cols g0 g → g ≠ [] → length values ≤ length header →
  kept_outside header cols g0 (g ++ [values]).
Proof.
  intros [[?|Htab] [Hlen Hcells]] Hne Hv; [done|]. split.
  - right. by apply table_append.
  - split; [rewrite length_app; lia|]. intros r c Hr Hc.
    rewrite cell_app_l by lia. by apply Hcells.
Qed.

Lemma kept_set g r c col v :
  kept_outside header cols g0 g → 0 < r < length g →
  list_index col header = Some c → c ∈ cols →
  kept_outside header cols g0 (grid_set r c v g).
Proof.
  intros [[->|Htab] [Hlen Hcells]] Hr Hc Hin; [simpl in Hr; lia|]. split.
  - right. apply table_grid_set; [done..|]. by apply list_index_lt in Hc.
  - split; [rewrite length_grid_set; lia|]. intros r' c' Hr' Hc'.
    rewrite cell_grid_set. rewrite decide_False; [by apply Hcells|].
    intros [_ ->]. done.
Qed.

End frozen_columns.

Lemma kept_outside_start header cols g0 :
  g0 = [] ∨ table header g0 → kept_outside header cols g0 g0.
Proof. intros H. split; [done|]. by split. Qed.

Ltac rules_of_sheet :=
  unfold page_rules, sheets_headers;
  split_and!; try (intros [=]);
  try (intros headers; rewrite !elem_of_cons, elem_of_nil; by intros [[=]|[[=]|[[=]|[[=]|[]]]]]).

(** ** The Reports worksheet *)

Lemma reports_kept {image} (make_qr : pystr → result image) ops w g0 :
  kept_outside Reports_header [5; 6; 8; 9] g0 (sheet_of "Reports" w) →
  kept_outside Reports_header [5; 6; 8; 9] g0 (sheet_of "Reports" (run_operations make_qr ops w)).
Proof.
  assert (Hnd : NoDup Reports_header) by (apply (bool_decide_unpack _); by compute).
  apply (run_operations_kept "Reports" Reports_header _
           (λ values, length values ≤ length Reports_header)
           (λ col v, ∃ c, list_index col Reports_header = Some c ∧ c ∈ [5; 6; 8; 9])).
  - by intros g [? _].
  - by apply kept_header.
  - by apply kept_append.
  - intros g r c col v Hg Hr Hc (c' & Hc' & Hin). rewrite Hc in Hc'. injection Hc' as <-.
    by eapply kept_set.
  - rules_of_sheet. split.
    + intros. simpl. lia.
    + intros v. split_and!; eexists; (split; [by compute|]);
        apply (bool_decide_unpack _); by compute.
Qed.

(** ** The Items worksheet *)

Lemma items_ok_table g : items_ok g → g = [] ∨ table Items_header g.
Proof.
  intros [->|(rows & -> & Hrows)]; [by left | right]. split.
  - apply (bool_decide_unpack _). by compute.
  - exists rows. split; [done|]. eapply Forall_impl; [exact Hrows|]. by intros row [? _].
Qed.

Lemma items_ok_append g values :
  items_ok g → g ≠ [] → item_row_ok values → items_ok (g ++ [values]).
Proof.
  intros [->|(rows & -> & Hrows)] Hne Hv; [done | right].
  exists (rows ++ [values]). split; [done|]. apply Forall_app. split; [done | by constructor].
Qed.

Lemma items_ok_set g r v :
  items_ok g → 0 < r < length g → v = "in_use" ∨ v = "available" →
  items_ok (grid_set r 4 v g).
Proof.
  intros [->|(rows & -> & Hrows)] Hr Hv; [simpl in Hr; lia | right].
  destruct r as [|r]; [lia|]. simpl in Hr.
  destruct (lookup_lt_is_Some_2 rows r) as [row Hrow]; [lia|].
  pose proof (proj1 (Forall_lookup _ _) Hrows _ _ Hrow) as [Hlen Hstatus].
  assert (H4 : 4 < length row).
  { destruct Hstatus as [H|H]; by apply lookup_lt_Some in H. }
  rewrite (grid_set_in_row _ _ _ _ row) by done. simpl.
  eexists. split; [done|]. apply Forall_insert; [done|]. split.
  - by rewrite length_insert.
  - rewrite list_lookup_insert_eq by done. destruct Hv as [->| ->]; auto.
Qed.

Lemma items_kept {image} (make_qr : pystr → result image) ops w :
  items_ok (sheet_of "Items" w) → items_ok (sheet_of "Items" (run_operations make_qr ops w)).
Proof.
  apply (run_operations_kept "Items" Items_header _ item_row_ok
           (λ col v, col = "status" ∧ (v = "in_use" ∨ v = "available"))).
  - apply items_ok_table.
  - intros _. right. by exists [].
  - apply items_ok_append.
  - intros g r c col v Hg Hr Hc [-> Hv]. injection Hc as <-. by apply items_ok_set.
  - rules_of_sheet. split_and!; [|by auto..].
    intros. split; [simpl; lia | by left].
Qed.

Lemma items_fields_kept {image} (make_qr : pystr → result image) ops w g0 :
  kept_outside Items_header [4] g0 (sheet_of "Items" w) →
  kept_outside Items_header [4] g0 (sheet_of "Items" (run_operations make_qr ops w)).
Proof.
  assert (Hnd : NoDup Items_header) by (apply (bool_decide_unpack _); by compute).
  apply (run_operations_kept "Items" Items_header _
           (λ values, length values ≤ length Items_header)
           (λ col v, col = "status")).
  - by intros g [? _].
  - by apply kept_header.
  - by apply kept_append.
  - intros g r c col v Hg Hr Hc Hcol. subst col. eapply kept_set; [done..|].
    injection Hc as <-. by apply list_elem_of_singleton.
  - rules_of_sheet. split_and!; [|done..]. intros. simpl. lia.
Qed.

(** * Reads, start-up and seeding *)

Lemma get_worksheet_missing sheet_name w :
  faults w = [] → sheets w !! sheet_name = None →
  get_worksheet sheet_name w = (Raise (WorksheetNotFound sheet_name), w).
Proof.
  intros Hq Hg. unfold get_worksheet.
  rewrite (bind_run _ _ _ _ _ (api_call_quiet _ Hq)).
  unfold mbind, M_bind, run_bind, get_world. by rewrite Hg.
Qed.

Lemma read_sheet_missing sheet_name w :
  faults w = [] → sheets w !! sheet_name = None →
  read_sheet sheet_name w
  = (Ok [], show (st_error ("Error reading " +:+ sheet_name +:+ ": " +:+ sheet_name)) w).
Proof.
  intros Hq Hg. unfold read_sheet, try_except.
  by rewrite (bind_run_raise _ _ _ _ _ (get_worksheet_missing _ _ Hq Hg)).
Qed.

Lemma read_sheet_unreadable sheet_name w e :
  faults w = [] → is_Some (sheets w !! sheet_name) →
  all_records (sheet_of sheet_name w) = Raise e →
  read_sheet sheet_name w
  = (Ok [], show (st_error ("Error reading " +:+ sheet_name +:+ ": " +:+ exn_str e)) w).
Proof.
  intros Hq Hs Hrec. unfold read_sheet, try_except.
  rewrite (bind_run _ _ _ _ _ (get_worksheet_quiet _ _ Hq Hs)).
  unfold mbind, M_bind, run_bind. rewrite get_all_records_quiet by done.
  by rewrite Hrec.
Qed.

Lemma read_sheet_fault sheet_name w e rest :
  faults w = Some e :: rest →
  read_sheet sheet_name w
  = (Ok [], show (st_error ("Error reading " +:+ sheet_name +:+ ": " +:+ exn_str e))
              (set_faults rest w)).
Proof.
  intros Hf. unfold read_sheet, try_except, get_worksheet, mbind, M_bind, run_bind, api_call.
  by rewrite Hf.
Qed.

(** ** [init_sheet_headers] *)

(** One round of the loop of lines 105-111 when no client call fails *)
Lemma init_round_quiet sheet_name headers w :
  faults w = [] →
  try_except
    (ws ← get_worksheet sheet_name;
     vals ← get_all_values ws;
     if bool_decide (vals = []) then ws_append_row ws headers else mret tt)
    (λ e, display (st_warning ("Could not init " +:+ sheet_name +:+ ": " +:+ exn_str e))) w
  = (Ok tt,
     match sheets w !! sheet_name with
     | None => show (st_warning ("Could not init " +:+ sheet_name +:+ ": " +:+ sheet_name)) w
     | Some [] => set_sheets (λ m, <[sheet_name := [headers]]> m) w
     | Some _ => w
     end).
Proof.
  intros Hq. unfold try_except. destruct (sheets w !! sheet_name) as [g|] eqn:Hg.
  - rewrite (bind_run _ _ _ _ _ (get_worksheet_quiet _ _ Hq (mk_is_Some _ _ Hg))).
    rewrite (bind_run _ _ _ _ _ (get_all_values_quiet _ _ Hq)).
    rewrite (sheet_of_Some _ _ _ Hg). destruct g as [|row rows].
    + simpl. rewrite ws_append_row_quiet by done. by rewrite (sheet_of_Some _ _ _ Hg).
    + by rewrite bool_decide_eq_false_2 by (by intros ?%fill_gaps_nil).
  - by rewrite (bind_run_raise _ _ _ _ _ (get_worksheet_missing _ _ Hq Hg)).
Qed.

Lemma init_loop_quiet (l : list (string * list string)) w :
  faults w = [] → NoDup l.*1 →
  ∃ w',
    for_each (λ '(sheet_name, headers),
      try_except
        (ws ← get_worksheet sheet_name;
         vals ← get_all_values ws;
         if bool_decide (vals = []) then ws_append_row ws headers else mret tt)
        (λ e, display (st_warning ("Could not init " +:+ sheet_name +:+ ": " +:+ exn_str e))))
      l w = (Ok tt, w') ∧
    faults w' = [] ∧ same_env w w' ∧
    (∀ t headers, (t, headers) ∈ l → sheets w !! t = Some [] → sheets w' !! t = Some [headers]) ∧
    (∀ t, t ∉ l.*1 ∨ sheets w !! t ≠ Some [] → sheets w' !! t = sheets w !! t) ∧
    ui w' = ui w ++ init_warnings (sheets w) l.*1.
Proof.
  intros Hq Hnd. revert w Hq.
  induction l as [|[n h] l IH]; intros w Hq.
  - exists w. simpl. unfold init_warnings. simpl. rewrite app_nil_r.
    split_and!; try done. by intros t headers ?%elem_of_nil.
  - simpl in Hnd. apply NoDup_cons in Hnd as [Hn Hnd].
    cbn [for_each]. rewrite (bind_run _ _ _ _ _ (init_round_quiet n h w Hq)).
    set (w1 := match sheets w !! n with
               | None => show (st_warning ("Could not init " +:+ n +:+ ": " +:+ n)) w
               | Some [] => set_sheets (λ m, <[n := [h]]> m) w
               | Some _ => w
               end).
    assert (Hq1 : faults w1 = []).
    { subst w1. by destruct (sheets w !! n) as [[|??]|]. }
    assert (Henv : same_env w w1).
    { subst w1. by destruct (sheets w !! n) as [[|??]|]. }
    assert (Hn1 : sheets w !! n = Some [] → sheets w1 !! n = Some [h]).
    { subst w1. intros ->. simpl. by rewrite lookup_insert_eq. }
    assert (Hother : ∀ t, t ≠ n ∨ sheets w !! t ≠ Some [] → sheets w1 !! t = sheets w !! t).
    { subst w1. intros t Ht. destruct (sheets w !! n) as [[|??]|] eqn:Hg; try done.
      simpl. destruct Ht as [Ht|Ht]; [by rewrite lookup_insert_ne|].
      destruct (decide (t = n)) as [->|?]; [done | by rewrite lookup_insert_ne]. }
    assert (Hui : ui w1 = ui w ++ init_warnings (sheets w) [n]).
    { subst w1. unfold init_warnings. rewrite filter_cons, filter_nil.
      destruct (sheets w !! n) as [[|??]|] eqn:Hg; simpl; by rewrite ?app_nil_r. }
    assert (Hnone : ∀ t, sheets w1 !! t = None ↔ sheets w !! t = None).
    { intros t. destruct (decide (t = n ∧ sheets w !! t = Some [])) as [[-> Hg]|Hno].
      - rewrite (Hn1 Hg), Hg. done.
      - rewrite Hother; [done|]. destruct (decide (t = n)); [right | by left].
        intros Hg. by apply Hno. }
    destruct (IH Hnd w1 Hq1) as (w' & Hrun & Hq' & Henv' & Hadd & Hkeep & Hui').
    exists w'. split_and!; try done.
    + by eapply same_env_trans.
    + intros t headers [[= -> ->]|Hin]%elem_of_cons Hg.
      * rewrite Hkeep by (by left). by apply Hn1.
      * apply Hadd; [done|]. rewrite Hother; [done|]. left. intros ->.
        apply Hn. apply list_elem_of_fmap. by exists (n, headers).
    + intros t Ht. simpl in Ht. rewrite not_elem_of_cons in Ht.
      destruct (decide (t = n)) as [->|Hne].
      * rewrite Hkeep by (by left). apply Hother. right. by destruct Ht as [[? _]|?].
      * rewrite Hkeep; [apply Hother; by left|].
        rewrite Hother by (by left). destruct Ht as [[_ ?]|?]; [by left | by right].
    + rewrite Hui', Hui, <- app_assoc. f_equal. unfold init_warnings.
      rewrite <- fmap_app. f_equal. simpl. rewrite (filter_cons _ n).
      rewrite filter_nil. simpl.
      assert (filter (λ t, sheets w1 !! t = None) l.*1 = filter (λ t, sheets w !! t = None) l.*1)
        as ->.
      { apply list_filter_iff. intros t. apply Hnone. }
      rewrite filter_cons. by destruct (decide (sheets w !! n = None)).
Qed.

Lemma only_headers_added_same w w' : sheets w' = sheets w → only_headers_added w w'.
Proof. intros H t. left. by rewrite H. Qed.

Lemma only_headers_added_trans w1 w2 w3 :
  only_headers_added w1 w2 → only_headers_added w2 w3 → only_headers_added w1 w3.
Proof.
  intros H12 H23 t. destruct (H12 t) as [E12|(E1 & h & Hh & E2)], (H23 t) as [E23|(E2' & h' & Hh' & E3)].
  - left. congruence.
  - right. split; [congruence|]. by exists h'.
  - right. split; [done|]. exists h. split; [done | congruence].
  - rewrite E2 in E2'. done.
Qed.

Lemma same_data_sheets w w' : same_data w w' → sheets w' = sheets w.
Proof. intros H. by destruct (same_data_fields _ _ H) as [-> _]. Qed.

Lemma init_round_post sheet_name headers w :
  (sheet_name, headers) ∈ sheets_headers →
  post
    (try_except
       (ws ← get_worksheet sheet_name;
        vals ← get_all_values ws;
        if bool_decide (vals = []) then ws_append_row ws headers else mret tt)
       (λ e, display (st_warning ("Could not init " +:+ sheet_name +:+ ": " +:+ exn_str e))))
    w (λ r w', r = Ok tt ∧ only_headers_added w w').
Proof.
  intros Hin.
  assert (Hcatch : ∀ e w', same_data w w' →
    post (display (st_warning ("Could not init " +:+ sheet_name +:+ ": " +:+ exn_str e))) w'
      (λ r w'', r = Ok tt ∧ only_headers_added w w'')).
  { intros e w' Hsame. step. split; [done|]. apply only_headers_added_same.
    by rewrite <- (same_data_sheets _ _ Hsame). }
  step. step. apply post_get_worksheet; [|done].
  intros w1 H1 [g Hg]. step.
  apply post_get_all_values; [|intros e w2 H2; apply Hcatch; by etrans].
  intros w2 H2. assert (H02 : same_data w w2) by (by etrans).
  rewrite (same_data_sheet_of _ _ _ H1). case_bool_decide as Hvals.
  - apply (proj1 (fill_gaps_nil _)) in Hvals.
    apply post_ws_append_row; [|intros e w3 H3; apply Hcatch; by etrans].
    intros w3 H3. split; [done|]. intros t.
    rewrite (same_data_sheets _ _ H3). simpl.
    rewrite (same_data_sheet_of _ _ _ H02), Hvals, (same_data_sheets _ _ H02). simpl.
    destruct (decide (t = sheet_name)) as [->|Hne].
    + rewrite lookup_insert_eq. rewrite (sheet_of_Some _ _ _ Hg) in Hvals. subst g.
      right. split; [done|]. by exists headers.
    + left. by rewrite lookup_insert_ne.
  - step. split; [done|]. apply only_headers_added_same. by apply same_data_sheets.
Qed.

Lemma init_loop_post (l : list (string * list string)) w :
  (∀ x, x ∈ l → x ∈ sheets_headers) →
  post
    (for_each (λ '(sheet_name, headers),
       try_except
         (ws ← get_worksheet sheet_name;
          vals ← get_all_values ws;
          if bool_decide (vals = []) then ws_append_row ws headers else mret tt)
         (λ e, display (st_warning ("Could not init " +:+ sheet_name +:+ ": " +:+ exn_str e))))
       l)
    w (λ r w', r = Ok tt ∧ only_headers_added w w').
Proof.
  revert w. induction l as [|[n h] l IH]; intros w Hl.
  - simpl. step. split; [done|]. by apply only_headers_added_same.
  - cbn [for_each]. step. eapply post_mono; [apply init_round_post, Hl; by left|].
    intros r w1 [-> H1]. eapply post_mono; [apply IH; intros; apply Hl; by right|].
    intros r w2 [-> H2]. split; [done|]. by eapply only_headers_added_trans.
Qed.

(** X1.  Once the spreadsheet is open, no failure inside the loop of
    [init_sheet_headers] escapes it: whatever calls to the client fail, the
    function returns normally, and a worksheet is changed only if it was
    empty, by receiving its header row; worksheets that hold a row, and
    worksheets that do not exist, are left as they are. *)
Theorem init_sheet_headers_only_fills_empty_sheets (w : world) :
  let run := init_sheet_headers w in
  run.1 = Ok tt ∧
  ∀ t, match sheets w !! t with
       | Some [] =>
           sheets run.2 !! t = Some [] ∨
           ∃ headers, (t, headers) ∈ sheets_headers ∧ sheets run.2 !! t = Some [headers]
       | other => sheets run.2 !! t = other
       end.
Proof.
  cbv zeta. unfold init_sheet_headers.
  destruct (init_loop_post sheets_headers w) as [Hok Hadd]; [done|].
  split; [exact Hok|]. intros t.
  destruct (Hadd t) as [E|(E & h & Hh & E')].
  - rewrite E. destruct (sheets w !! t) as [[|??]|]; auto.
  - rewrite E. right. by exists h.
Qed.


(** ** [seed_users] *)

Lemma append_rows_quiet sheet_name (rows : list pydict) w g :
  faults w = [] → sheets w !! sheet_name = Some g → g ≠ [] →
  for_each (append_row sheet_name) rows w
  = (Ok tt, set_sheets (λ m, <[sheet_name := g ++ (dict_values <$> rows)]> m) w).
Proof.
  revert w g. induction rows as [|row rows IH]; intros w g Hq Hg Hne.
  - simpl. rewrite app_nil_r, set_sheets_id; done.
  - cbn [for_each]. rewrite (bind_run _ _ _ _ _ (append_row_quiet _ row _ _ Hq Hg)).
    rewrite bool_decide_eq_false_2, app_nil_r by done.
    rewrite (IH _ (g ++ [dict_values row])).
    + by rewrite set_sheets_twice, <- app_assoc.
    + done.
    + simpl. by rewrite lookup_insert_eq.
    + by destruct g.
Qed.

Lemma append_rows_first_quiet sheet_name row (rows : list pydict) w g :
  faults w = [] → sheets w !! sheet_name = Some g →
  for_each (append_row sheet_name) (row :: rows) w
  = (Ok tt, set_sheets (λ m, <[sheet_name :=
       (g ++ if bool_decide (g = []) then [dict_keys row] else []) ++
       (dict_values <$> row :: rows)]> m) w).
Proof.
  intros Hq Hg. cbn [for_each].
  rewrite (bind_run _ _ _ _ _ (append_row_quiet _ row _ _ Hq Hg)).
  erewrite append_rows_quiet; [| done | simpl; by rewrite lookup_insert_eq | by destruct g, (bool_decide _)].
  rewrite set_sheets_twice. by rewrite <- app_assoc.
Qed.

Lemma df_empty_records header row rows :
  header ≠ [] → df_empty (zip header <$> (pad_row (length header) <$> row :: rows)) = false.
Proof.
  intros Hh. unfold df_empty. rewrite bool_decide_eq_false_2 by done. simpl.
  apply bool_decide_eq_false_2. destruct header as [|c header]; [done|].
  intros Hcols. apply (elem_of_nil c). rewrite <- Hcols.
  unfold df_columns. apply elem_of_remove_dups. simpl.
  apply elem_of_app. left. unfold pad_row. destruct row; simpl; by left.
Qed.

Lemma seed_users_on_empty w :
  faults w = [] → sheets w !! "Users" = Some [] →
  seed_users w
  = (Ok tt, set_sheets (λ m, <["Users" := Users_header :: (dict_values <$> demo_users)]> m) w).
Proof.
  intros Hq Hg. unfold seed_users.
  rewrite (bind_run _ _ _ _ _ (read_sheet_quiet "Users" w [] Hq (mk_is_Some _ _ Hg)
             ltac:(by rewrite (sheet_of_Some _ _ _ Hg)))).
  change (df_empty []) with true. cbv iota. unfold demo_users.
  by rewrite (append_rows_first_quiet _ _ _ _ _ Hq Hg).
Qed.

Lemma seed_users_on_header w header :
  faults w = [] → sheets w !! "Users" = Some [header] → NoDup header →
  seed_users w
  = (Ok tt, set_sheets (λ m, <["Users" := header :: (dict_values <$> demo_users)]> m) w).
Proof.
  intros Hq Hg Hnd. unfold seed_users.
  rewrite (bind_run _ _ _ _ _ (read_sheet_quiet "Users" w [] Hq (mk_is_Some _ _ Hg)
             ltac:(rewrite (sheet_of_Some _ _ _ Hg);
                   by rewrite (all_records_table header []) by done))).
  change (df_empty []) with true. cbv iota.
  by rewrite (append_rows_quiet _ _ _ _ Hq Hg).
Qed.

Lemma seed_users_on_users w header row rows :
  faults w = [] → sheets w !! "Users" = Some (header :: row :: rows) →
  header ≠ [] → table header (header :: row :: rows) →
  seed_users w = (Ok tt, w).
Proof.
  intros Hq Hg Hh Htab. unfold seed_users.
  destruct Htab as (Hnd & rows' & [= <-] & Hrows).
  rewrite (bind_run _ _ _ _ _ (read_sheet_quiet "Users" w _ Hq (mk_is_Some _ _ Hg)
             ltac:(rewrite (sheet_of_Some _ _ _ Hg); by apply all_records_table))).
  by rewrite df_empty_records.
Qed.


(** X4.  [seed_users] takes a failed read for an empty table: when the read
    of the Users worksheet fails and the calls after it succeed, the four
    demo users are appended below whatever rows the worksheet holds, after
    the error of the read was shown. *)
Theorem seed_users_appends_after_a_failed_read (w : world) (e : exn) (g : grid) :
  faults w = [Some e] → sheets w !! "Users" = Some g → g ≠ [] →
  seed_users w
  = (Ok tt,
     set_sheets (λ m, <["Users" := g ++ (dict_values <$> demo_users)]> m)
       (show (st_error ("Error reading Users: " +:+ exn_str e)) (set_faults [] w))).
Proof.
  intros Hf Hg Hne. unfold seed_users.
  rewrite (bind_run _ _ _ _ _ (read_sheet_fault "Users" w e [] Hf)).
  change (df_empty []) with true. cbv iota.
  by rewrite (append_rows_quiet _ _ _ g).
Qed.

(** ** The start-up block *)

Lemma seed_users_quiet w :
  faults w = [] → is_Some (sheets w !! "Users") →
  ∃ w', seed_users w = (Ok tt, w') ∧ faults w' = [].
Proof.
  intros Hq [g Hg]. unfold seed_users.
  destruct (all_records (sheet_of "Users" w)) as [records|e] eqn:Hrec.
  - rewrite (bind_run _ _ _ _ _ (read_sheet_quiet "Users" w _ Hq (mk_is_Some _ _ Hg) Hrec)).
    destruct (df_empty records); [|by exists w].
    unfold demo_users. rewrite (append_rows_first_quiet _ _ _ _ _ Hq Hg). by eexists.
  - rewrite (bind_run _ _ _ _ _ (read_sheet_unreadable "Users" w _ Hq (mk_is_Some _ _ Hg) Hrec)).
    change (df_empty []) with true. cbv iota.
    unfold demo_users. erewrite append_rows_first_quiet; [by eexists | done | exact Hg].
Qed.

Lemma seed_users_missing w :
  faults w = [] → sheets w !! "Users" = None →
  seed_users w
  = (Raise (WorksheetNotFound "Users"), show (st_error "Error reading Users: Users") w).
Proof.
  intros Hq Hg. unfold seed_users.
  rewrite (bind_run _ _ _ _ _ (read_sheet_missing "Users" w Hq Hg)).
  change (df_empty []) with true. cbv iota. unfold demo_users. cbn [for_each].
  apply bind_run_raise. unfold append_row. apply bind_run_raise.
  by apply get_worksheet_missing.
Qed.

(** X5.  When no client call fails, the start-up block succeeds exactly when
    the spreadsheet has a Users worksheet.  Without it the block ends in
    the message "Connection failed: Users" and the session stays
    uninitialized, whatever other worksheets exist; the other three
    worksheets may be missing without stopping the start-up. *)
Theorem initialize_needs_the_users_worksheet (w : world) :
  faults w = [] →
  (is_Some (sheets w !! "Users") → (initialize w).1 = Ok true) ∧
  (sheets w !! "Users" = None →
     (initialize w).1 = Ok false ∧
     last (ui (initialize w).2) = Some (st_error "Connection failed: Users")).
Proof.
  intros Hq.
  assert (Hnd : NoDup sheets_headers.*1) by (apply (bool_decide_unpack _); by compute).
  destruct (init_loop_quiet sheets_headers w Hq Hnd) as (w1 & Hrun & Hq1 & _ & Hadd & Hkeep & _).
  assert (Hin : ("Users", Users_header) ∈ sheets_headers)
    by (apply (bool_decide_unpack _); by compute).
  unfold initialize, try_except, init_sheet_headers.
  rewrite (bind_run _ _ _ _ _ Hrun). split.
  - intros [g Hg].
    assert (Hs1 : is_Some (sheets w1 !! "Users")).
    { destruct (decide (g = [])) as [->|Hne].
      - rewrite (Hadd _ _ Hin Hg). by eexists.
      - rewrite Hkeep, Hg; [by eexists|]. right. rewrite Hg. congruence. }
    destruct (seed_users_quiet w1 Hq1 Hs1) as (w2 & Hseed & _).
    by rewrite (bind_run _ _ _ _ _ Hseed).
  - intros Hg.
    assert (Hs1 : sheets w1 !! "Users" = None).
    { rewrite Hkeep, Hg; [done|]. right. by rewrite Hg. }
    rewrite (bind_run_raise _ _ _ _ _ (seed_users_missing w1 Hq1 Hs1)). simpl.
    split; [done|]. by rewrite last_snoc.
Qed.

Lemma init_warnings_none (m : gmap string grid) names :
  Forall (λ t, is_Some (m !! t)) names → init_warnings m names = [].
Proof.
  unfold init_warnings. induction 1 as [|t names [g Hg] _ IH]; [done|].
  rewrite filter_cons, decide_False by (by rewrite Hg). exact IH.
Qed.

Lemma world_eq w w' :
  sheets w' = sheets w → faults w' = faults w → same_env w w' → ui w' = ui w → w' = w.
Proof.
  destruct w, w'. simpl. intros -> -> (Hu & Hc & Hk) ->. simpl in *. by subst.
Qed.

Lemma init_sheet_headers_idle w :
  faults w = [] →
  Forall (λ t, ∃ g, sheets w !! t = Some g ∧ g ≠ []) sheets_headers.*1 →
  init_sheet_headers w = (Ok tt, w).
Proof.
  intros Hq Hfull.
  assert (Hnd : NoDup sheets_headers.*1) by (apply (bool_decide_unpack _); by compute).
  destruct (init_loop_quiet sheets_headers w Hq Hnd) as (w1 & Hrun & Hq1 & Henv & _ & Hkeep & Hui).
  unfold init_sheet_headers. rewrite Hrun. f_equal. apply world_eq; [|congruence|done|].
  - apply map_eq. intros t. apply Hkeep.
    destruct (decide (t ∈ sheets_headers.*1)) as [Hin|Hout]; [right | by left].
    destruct (proj1 (Forall_forall _ _) Hfull _ Hin) as (g & -> & Hne). congruence.
  - rewrite Hui, init_warnings_none, app_nil_r; [done|].
    eapply Forall_impl; [exact Hfull|]. intros t (g & -> & _). by eexists.
Qed.


(** * Runs in which a given client call fails *)

Lemma api_call_pass w rest : faults w = None :: rest → api_call w = (Ok tt, set_faults rest w).
Proof. unfold api_call. by intros ->. Qed.

Lemma api_call_fail w e rest :
  faults w = Some e :: rest → api_call w = (Raise e, set_faults rest w).
Proof. unfold api_call. by intros ->. Qed.

Lemma get_worksheet_pass sheet_name w rest :
  faults w = None :: rest → is_Some (sheets w !! sheet_name) →
  get_worksheet sheet_name w = (Ok sheet_name, set_faults rest w).
Proof.
  intros Hf [g Hg]. unfold get_worksheet.
  rewrite (bind_run _ _ _ _ _ (api_call_pass _ _ Hf)).
  unfold mbind, M_bind, run_bind, get_world. simpl. by rewrite Hg.
Qed.

Lemma get_worksheet_fail sheet_name w e rest :
  faults w = Some e :: rest → get_worksheet sheet_name w = (Raise e, set_faults rest w).
Proof. intros Hf. unfold get_worksheet. by rewrite (bind_run_raise _ _ _ _ _ (api_call_fail _ _ _ Hf)). Qed.

Lemma get_all_values_pass ws w rest :
  faults w = None :: rest →
  get_all_values ws w = (Ok (fill_gaps (sheet_of ws w)), set_faults rest w).
Proof.
  intros Hf. unfold get_all_values. by rewrite (bind_run _ _ _ _ _ (api_call_pass _ _ Hf)).
Qed.

Lemma get_all_records_pass ws w rest :
  faults w = None :: rest →
  get_all_records ws w = (all_records (sheet_of ws w), set_faults rest w).
Proof.
  intros Hf. unfold get_all_records. by rewrite (bind_run _ _ _ _ _ (api_call_pass _ _ Hf)).
Qed.

Lemma row_values_pass ws n w rest :
  faults w = None :: rest →
  row_values ws n w = (Ok (default [] (sheet_of ws w !! (n - 1))), set_faults rest w).
Proof.
  intros Hf. unfold row_values. by rewrite (bind_run _ _ _ _ _ (api_call_pass _ _ Hf)).
Qed.

Lemma ws_append_row_pass ws values w rest :
  faults w = None :: rest →
  ws_append_row ws values w
  = (Ok tt, set_sheets (λ m, <[ws := sheet_of ws w ++ [values]]> m) (set_faults rest w)).
Proof.
  intros Hf. unfold ws_append_row. by rewrite (bind_run _ _ _ _ _ (api_call_pass _ _ Hf)).
Qed.

Lemma ws_append_row_fail ws values w e rest :
  faults w = Some e :: rest → ws_append_row ws values w = (Raise e, set_faults rest w).
Proof.
  intros Hf. unfold ws_append_row. by rewrite (bind_run_raise _ _ _ _ _ (api_call_fail _ _ _ Hf)).
Qed.

Lemma update_cell_pass ws row col value w rest :
  faults w = None :: rest →
  update_cell ws row col value w
  = (Ok tt, set_sheets (λ m, <[ws := grid_set (row - 1) (col - 1) value (sheet_of ws w)]> m)
              (set_faults rest w)).
Proof.
  intros Hf. unfold update_cell. by rewrite (bind_run _ _ _ _ _ (api_call_pass _ _ Hf)).
Qed.

Lemma update_cell_fail ws row col value w e rest :
  faults w = Some e :: rest → update_cell ws row col value w = (Raise e, set_faults rest w).
Proof.
  intros Hf. unfold update_cell. by rewrite (bind_run_raise _ _ _ _ _ (api_call_fail _ _ _ Hf)).
Qed.

Lemma read_sheet_pass sheet_name w rest records :
  faults w = None :: None :: rest → is_Some (sheets w !! sheet_name) →
  all_records (sheet_of sheet_name w) = Ok records →
  read_sheet sheet_name w = (Ok records, set_faults rest w).
Proof.
  intros Hf Hs Hrec. unfold read_sheet, try_except.
  rewrite (bind_run _ _ _ _ _ (get_worksheet_pass _ _ _ Hf Hs)).
  unfold mbind, M_bind, run_bind. rewrite (get_all_records_pass _ _ rest) by done.
  change (sheet_of sheet_name (set_faults (None :: rest) w)) with (sheet_of sheet_name w).
  by rewrite Hrec.
Qed.

(** ** [read_sheet] *)

(** X7.  [read_sheet] only reads: whatever the client does, it changes no
    worksheet and draws no identifier, and a frame with rows that it
    returns is the content of the worksheet.  When no client call fails it
    returns the records of the worksheet, and for a worksheet that does not
    exist, or whose header row names a column twice, the empty frame after
    showing the error. *)
Theorem read_sheet_only_reads (sheet_name : string) (w : world) :
  let run := read_sheet sheet_name w in
  sheets run.2 = sheets w ∧ uuid_count run.2 = uuid_count w ∧
  (∀ records, run.1 = Ok records → records ≠ [] →
     all_records (sheet_of sheet_name w) = Ok records) ∧
  (faults w = [] →
     match sheets w !! sheet_name with
     | None =>
         run = (Ok [], show (st_error ("Error reading " +:+ sheet_name +:+ ": " +:+ sheet_name)) w)
     | Some g =>
         match all_records g with
         | Ok records => run = (Ok records, w)
         | Raise e =>
             run = (Ok [], show (st_error ("Error reading " +:+ sheet_name +:+ ": " +:+ exn_str e)) w)
         end
     end).
Proof.
  cbv zeta. destruct (read_sheet_post sheet_name w) as (records & Hr & Hs & Henv & Hrec).
  split_and!.
  - exact Hs.
  - by destruct Henv as (_ & ? & _).
  - intros records' Hr' Hne. rewrite Hr in Hr'. injection Hr' as <-.
    by destruct Hrec as [->|[_ ?]].
  - intros Hq. destruct (sheets w !! sheet_name) as [g|] eqn:Hg.
    + destruct (all_records g) as [records'|e] eqn:Hrec'.
      * apply read_sheet_quiet; [done | by eexists | by rewrite (sheet_of_Some _ _ _ Hg)].
      * apply read_sheet_unreadable; [done | by eexists | by rewrite (sheet_of_Some _ _ _ Hg)].
    + by apply read_sheet_missing.
Qed.

(** ** [append_row] *)

(** X8.  [append_row] stores the values of the row by position, not by
    name: under a header row that is already there it appends the values
    in the order of the mapping, whatever its keys are, and a later read
    returns them under the columns of the worksheet, from the first on. *)
Theorem append_row_stores_values_by_position
    (sheet_name : string) (row : pydict) (w : world) (header : list string) (rows : grid) :
  faults w = [] →
  sheets w !! sheet_name = Some (header :: rows) →
  table header (header :: rows) →
  length (dict_values row) ≤ length header →
  let w' := (append_row sheet_name row w).2 in
  sheets w' !! sheet_name = Some (header :: rows ++ [dict_values row]) ∧
  ∃ records,
    all_records (header :: rows) = Ok records ∧
    read_sheet sheet_name w'
    = (Ok (records ++ [zip header (pad_row (length header) (dict_values row))]), w').
Proof.
  intros Hq Hg Htab Hlen. cbv zeta. rewrite (append_row_quiet _ _ _ _ Hq Hg).
  rewrite bool_decide_eq_false_2, app_nil_r by done. cbn [fst snd].
  split; [simpl; by rewrite lookup_insert_eq|].
  destruct Htab as (Hnd & rows' & [= <-] & Hrows).
  exists (zip header <$> (pad_row (length header) <$> rows)).
  split; [by apply all_records_table|].
  apply read_sheet_quiet; [done | simpl; rewrite lookup_insert_eq; by eexists |].
  rewrite sheet_of_set_sheets_eq. simpl.
  rewrite (all_records_table header (rows ++ [dict_values row])); [|done|].
  - by rewrite !fmap_app.
  - apply Forall_app. split; [done | by constructor].
Qed.


(** ** [update_cell_by_id] *)

Lemma update_cell_by_id_reads_pass sheet_name id_col id_val update_dict w rest g records :
  faults w = None :: None :: None :: rest →
  sheets w !! sheet_name = Some g → all_records g = Ok records →
  update_cell_by_id sheet_name id_col id_val update_dict w
  = (found ← scan_records sheet_name (default [] (g !! 0)) id_col id_val update_dict 0 records;
     if found : bool then mret RowUpdated
     else display (st_error ("ID " +:+ id_val +:+ " not found in " +:+ sheet_name));;
          mret IdNotFound) (set_faults rest w).
Proof.
  intros Hf Hg Hrec. unfold update_cell_by_id.
  rewrite (bind_run _ _ _ _ _ (get_worksheet_pass _ _ _ Hf (mk_is_Some _ _ Hg))).
  assert (H2 : get_all_records sheet_name (set_faults (None :: None :: rest) w)
               = (Ok records, set_faults (None :: rest) w)).
  { rewrite (get_all_records_pass _ _ (None :: rest)) by done.
    change (sheet_of sheet_name (set_faults _ w)) with (sheet_of sheet_name w).
    by rewrite (sheet_of_Some _ _ _ Hg), Hrec. }
  rewrite (bind_run _ _ _ _ _ H2).
  assert (H3 : row_values sheet_name 1 (set_faults (None :: rest) w)
               = (Ok (default [] (g !! 0)), set_faults rest w)).
  { rewrite (row_values_pass _ _ _ rest) by done.
    change (sheet_of sheet_name (set_faults _ w)) with (sheet_of sheet_name w).
    by rewrite (sheet_of_Some _ _ _ Hg). }
  by rewrite (bind_run _ _ _ _ _ H3).
Qed.

Lemma scan_records_at ws headers id_col id_val update_dict i records j record w :
  list_find (id_matches id_col id_val) records = Some (j, record) →
  scan_records ws headers id_col id_val update_dict i records w
  = (update_cells ws (i + j + 2) headers update_dict;; mret true) w.
Proof.
  revert i j. induction records as [|r records IH]; intros i j Hfind; [done|].
  simpl in *. unfold id_matches in Hfind at 1. case_bool_decide as E.
  - rewrite decide_True in Hfind by done. injection Hfind as <- <-.
    by replace (i + 0 + 2) with (i + 2) by lia.
  - rewrite decide_False in Hfind by done.
    destruct (list_find _ records) as [[j' r']|] eqn:Hf; [|done].
    injection Hfind as <- <-. rewrite (IH (S i) j' eq_refl).
    by replace (S i + j' + 2) with (i + S j' + 2) by lia.
Qed.

(** X10.  An update of several fields is not atomic.  When the client fails
    at the second cell that the update of a report writes, the handler
    raises the error of the client without showing its success message, and
    the report is left with its new status but with the assignee, the
    resolution and the time of update it had before. *)
Theorem triage_interrupted_keeps_the_first_write
    (tech sel_id new_status resolution : string) (w : world) (g : grid)
    (records : list pydict) (i : nat) (record : pydict) (e : exn) :
  faults w = [None; None; None; None; Some e] →
  sheets w !! "Reports" = Some g →
  table Reports_header g →
  all_records g = Ok records →
  list_find (id_matches "report_id" sel_id) records = Some (i, record) →
  let run := page_manage_reports tech sel_id new_status resolution w in
  run.1 = Raise e ∧
  sheets run.2 !! "Reports" = Some (grid_set (S i) 5 new_status g) ∧
  ui run.2 = ui w.
Proof.
  intros Hf Hg Htab Hrec Hfind. cbv zeta. unfold page_manage_reports.
  erewrite bind_run by reflexivity.
  assert (Hrun : update_cell_by_id "Reports" "report_id" sel_id
                   [("status", new_status); ("assigned_to", tech);
                    ("resolution", resolution); ("updated_at", clock w)] w
    = (Raise e, set_faults [] (set_sheets (λ m, <["Reports" := grid_set (S i) 5 new_status g]> m) w))).
  { rewrite (update_cell_by_id_reads_pass _ _ _ _ _ _ _ _ Hf Hg Hrec).
    rewrite (table_head _ _ Htab). simpl.
    apply bind_run_raise. rewrite (scan_records_at _ _ _ _ _ _ _ _ _ _ Hfind).
    apply bind_run_raise. cbn [update_cells].
    change (list_index "status" Reports_header) with (Some 5).
    change (list_index "assigned_to" Reports_header) with (Some 6).
    erewrite bind_run by (by apply update_cell_pass).
    apply bind_run_raise. rewrite (update_cell_fail _ _ _ _ _ e []) by done.
    change (sheet_of "Reports" (set_faults _ w)) with (sheet_of "Reports" w).
    rewrite (sheet_of_Some _ _ _ Hg).
    by replace (0 + i + 2 - 1) with (S i) by lia. }
  rewrite (bind_run_raise _ _ _ _ _ Hrun). cbn [fst snd].
  split; [done|]. split; [|done]. simpl. by rewrite lookup_insert_eq.
Qed.

(** ** A check-out that the client interrupts *)

Lemma do_action_reaches_the_update items tech item_id action notes_val w i row current item_name :
  "item_id" ∈ df_columns items →
  list_find (has_value "item_id" item_id) items = Some (i, row) →
  dict_get "status" row = Some current →
  dict_get "name" row = Some item_name →
  (action = "use" → current = "available") →
  (action = "return" → current = "in_use") →
  do_action items tech item_id action notes_val w
  = (update_cell_by_id "Items" "item_id" item_id
       [("status", if bool_decide (action = "use") then "in_use" else "available")];;
     log_id ← short_uuid;
     now ← datetime_now;
     append_row "Usage_Log"
       [("log_id", log_id); ("item_id", item_id); ("item_name", item_name);
        ("technician", tech);
        ("action", if bool_decide (action = "use") then "CHECK OUT" else "RETURN");
        ("timestamp", now); ("notes", notes_val)];;
     display (st_success ((if bool_decide (action = "use") then "🔴" else "✅") +:+ " **" +:+
                          item_name +:+ "** — " +:+
                          (if bool_decide (action = "use") then "Checked OUT" else "Returned") +:+
                          " successfully!"));;
     mret ActionDone) w.
Proof.
  intros Hcols Hfind Hst Hname Huse Hret. unfold do_action.
  assert (Hne : df_empty items = false).
  { destruct (df_empty items) eqn:E; [|done].
    by rewrite (df_empty_find "item_id" item_id _ E) in Hfind. }
  assert (Hin : Some item_id ∈ dict_get "item_id" <$> items).
  { apply list_find_Some in Hfind as (Hl & Hv & _). apply list_elem_of_fmap.
    exists row. split; [done|]. by eapply list_elem_of_lookup_2. }
  assert (Hvals : ∀ w0, df_values "item_id" items w0 = (Ok (dict_get "item_id" <$> items), w0)).
  { intros w0. unfold df_values.
    by rewrite (bool_decide_eq_true_2 ("item_id" ∈ df_columns items)). }
  rewrite Hne.
  erewrite bind_run; [|erewrite bind_run by apply Hvals; reflexivity].
  rewrite bool_decide_eq_false_2 by (intros Hn; by apply Hn).
  erewrite bind_run; [|unfold df_first_where; erewrite bind_run by apply Hvals;
                        by rewrite Hfind].
  unfold series_get. rewrite Hst, Hname.
  erewrite bind_run by reflexivity. erewrite bind_run by reflexivity.
  assert (Hg1 : bool_decide (action = "use") && bool_decide (current ≠ "available") = false).
  { destruct (bool_decide (action = "use")) eqn:Ha; [|done].
    apply bool_decide_eq_true in Ha. simpl. apply bool_decide_eq_false_2.
    intros Hn. by apply Hn, Huse. }
  assert (Hg2 : bool_decide (action = "return") && bool_decide (current ≠ "in_use") = false).
  { destruct (bool_decide (action = "return")) eqn:Ha; [|done].
    apply bool_decide_eq_true in Ha. simpl. apply bool_decide_eq_false_2.
    intros Hn. by apply Hn, Hret. }
  by rewrite Hg1, Hg2.
Qed.

(** X11.  A check-out is not atomic either.  When the client fails right
    after the status of the item was written, the handler raises the error
    of the client: the item is left in use, the usage log has no entry for
    it, and no message is shown.  The check-out cannot be repeated to get
    the entry written: the next attempt is refused because the item is no
    longer available. *)
Theorem check_out_interrupted_before_the_log
    (tech item_id notes_val : string) (w : world) (g : grid) (records : list pydict)
    (i : nat) (row : pydict) (e : exn) :
  faults w = replicate 6 None ++ [Some e] →
  sheets w !! "Items" = Some g →
  table Items_header g →
  all_records g = Ok records →
  list_find (has_value "item_id" item_id) records = Some (i, row) →
  dict_get "status" row = Some "available" →
  let run := page_scan_use tech item_id "use" notes_val w in
  run.1 = Raise e ∧
  sheets run.2 !! "Items" = Some (grid_set (S i) 4 "in_use" g) ∧
  sheets run.2 !! "Usage_Log" = sheets w !! "Usage_Log" ∧
  ui run.2 = ui w ∧
  (page_scan_use tech item_id "use" notes_val run.2).1 = Ok CannotCheckOut.
Proof.
  intros Hf Hg Htab Hrec Hfind Hst. simpl in Hf.
  assert (Hrow : records !! i = Some row) by (by apply list_find_Some in Hfind as (? & _)).
  assert (Hname : dict_get "name" row = Some (cell g (S i) 1)).
  { by apply (record_cell Items_header g records i row "name" 1). }
  assert (Hcols : "item_id" ∈ df_columns records).
  { destruct (table_records_columns Items_header g records "item_id" Htab Hrec) as [E|?];
      [apply (bool_decide_unpack _); by compute | | done].
    by rewrite (df_empty_find "item_id" item_id _ E) in Hfind. }
  assert (Hrun : page_scan_use tech item_id "use" notes_val w
    = (Raise e, set_faults [] (tick_uuid
         (set_sheets (λ m, <["Items" := grid_set (S i) 4 "in_use" g]> m) w)))).
  { unfold page_scan_use.
    rewrite (bind_run _ _ _ _ _ (read_sheet_pass "Items" w _ records Hf (mk_is_Some _ _ Hg)
               ltac:(by rewrite (sheet_of_Some _ _ _ Hg)))).
    rewrite (do_action_reaches_the_update _ _ _ _ _ _ _ _ _ _ Hcols Hfind Hst Hname) by done.
    rewrite bool_decide_eq_true_2 by done.
    assert (Hupd : update_cell_by_id "Items" "item_id" item_id [("status", "in_use")]
                     (set_faults [None; None; None; None; Some e] w)
      = (Ok RowUpdated,
         set_sheets (λ m, <["Items" := grid_set (S i) 4 "in_use" g]> m) (set_faults [Some e] w))).
    { rewrite (update_cell_by_id_reads_pass _ _ _ _ _ [None; Some e] g records) by done.
      rewrite (table_head _ _ Htab). simpl.
      rewrite <- (find_id_matches_has_value Items_header g records "item_id" item_id) in Hfind;
        [|done | done | apply (bool_decide_unpack _); by compute].
      assert (Hscan : scan_records "Items" Items_header "item_id" item_id [("status", "in_use")]
                        0 records (set_faults [None; Some e] w)
        = (Ok true, set_sheets (λ m, <["Items" := grid_set (S i) 4 "in_use" g]> m)
                      (set_faults [Some e] w))).
      { rewrite (scan_records_at _ _ _ _ _ _ _ _ _ _ Hfind). cbn [update_cells].
        change (list_index "status" Items_header) with (Some 4).
        erewrite bind_run; [reflexivity|].
        erewrite bind_run by (by apply update_cell_pass).
        change (sheet_of "Items" (set_faults _ w)) with (sheet_of "Items" w).
        rewrite (sheet_of_Some _ _ _ Hg).
        by replace (0 + i + 2 - 1) with (S i) by lia. }
      by rewrite (bind_run _ _ _ _ _ Hscan). }
    rewrite (bind_run _ _ _ _ _ Hupd).
    rewrite (bind_run _ _ _ _ _ (short_uuid_run _)).
    erewrite bind_run by reflexivity.
    apply bind_run_raise. unfold append_row. apply bind_run_raise.
    by rewrite (get_worksheet_fail _ _ e []). }
  cbv zeta. rewrite Hrun. cbn [fst snd].
  split; [done|]. split; [simpl; by rewrite lookup_insert_eq|].
  split; [simpl; by rewrite lookup_insert_ne|]. split; [done|].
  destruct (find_after_status_update g records i row item_id "in_use" Htab Hrec Hfind)
    as (Htab1 & records1 & row1 & Hrec1 & Hfind1 & Hst1).
  pose proof (page_scan_use_refuses tech item_id "use" notes_val
    (set_faults [] (tick_uuid (set_sheets (λ m, <["Items" := grid_set (S i) 4 "in_use" g]> m) w)))
    _ records1 eq_refl ltac:(simpl; by rewrite lookup_insert_eq) Htab1 Hrec1) as Hrefuse.
  rewrite Hfind1 in Hrefuse. destruct (Hrefuse _ Hst1) as [Huse _].
  by rewrite Huse.
Qed.

(** * Updates applied again, and updates by a column that is not there *)

Lemma grid_set_noop (g : grid) r c v row :
  g !! r = Some row → row !! c = Some v → grid_set r c v g = g.
Proof.
  intros Hrow Hc. rewrite (grid_set_in_row _ _ _ _ row); [|done | by eapply lookup_lt_Some].
  by rewrite (list_insert_id row), list_insert_id.
Qed.

Lemma grid_set_holds (g : grid) r c v :
  r < length g →
  ∃ row', grid_set r c v g !! r = Some row' ∧ row' !! c = Some v ∧
          ∀ row c' v', g !! r = Some row → c' ≠ c → row !! c' = Some v' → row' !! c' = Some v'.
Proof.
  intros Hr. unfold grid_set. replace (S r - length g) with 0 by lia. simpl.
  rewrite app_nil_r. destruct (lookup_lt_is_Some_2 g r Hr) as [row Hrow]. rewrite Hrow. simpl.
  eexists. split; [by apply list_lookup_insert_eq|]. split.
  - apply list_lookup_insert_eq. rewrite length_app, length_replicate. lia.
  - intros row0 c' v' [= <-] Hne Hc'. rewrite list_lookup_insert_ne by done.
    by apply lookup_app_l_Some.
Qed.

Lemma apply_updates_keeps_cell r headers update_dict (g : grid) c v :
  r < length g →
  (∀ col v', (col, v') ∈ update_dict → list_index col headers ≠ Some c) →
  (∃ row, g !! r = Some row ∧ row !! c = Some v) →
  ∃ row, apply_updates r headers update_dict g !! r = Some row ∧ row !! c = Some v.
Proof.
  unfold apply_updates. revert g.
  induction update_dict as [|[k v0] rest IH]; intros g Hr Hfree Hheld; simpl; [done|].
  assert (Hrest : ∀ col v', (col, v') ∈ rest → list_index col headers ≠ Some c).
  { intros col v' Hin. apply (Hfree col v'). by right. }
  destruct (list_index k headers) as [c0|] eqn:Hk; [|by apply IH].
  apply IH; [by rewrite length_grid_set | done |].
  destruct Hheld as (row & Hrow & Hc).
  destruct (grid_set_holds g r c0 v0 Hr) as (row' & Hrow' & _ & Hkeep).
  exists row'. split; [done|]. apply (Hkeep row); [done | | done].
  intros ->. by apply (Hfree k v0); [left|].
Qed.

Lemma list_index_key_eq col1 col2 headers c :
  list_index col1 headers = Some c → list_index col2 headers = Some c → col1 = col2.
Proof.
  intros [H1 _]%list_index_Some [H2 _]%list_index_Some. congruence.
Qed.

Lemma apply_updates_holds r headers update_dict (g : grid) col v c :
  r < length g → NoDup (dict_keys update_dict) →
  (col, v) ∈ update_dict → list_index col headers = Some c →
  ∃ row, apply_updates r headers update_dict g !! r = Some row ∧ row !! c = Some v.
Proof.
  unfold apply_updates. revert g.
  induction update_dict as [|[k v0] rest IH]; intros g Hr Hnd Hin Hc; [by apply elem_of_nil in Hin|].
  simpl in Hnd. apply NoDup_cons in Hnd as [Hk Hnd].
  apply elem_of_cons in Hin as [[= <- <-]|Hin]; simpl.
  - rewrite Hc. apply (apply_updates_keeps_cell r headers rest); [by rewrite length_grid_set | |].
    + intros col' v' Hin' Hc'. apply Hk. rewrite (list_index_key_eq _ _ _ _ Hc Hc').
      apply list_elem_of_fmap. by exists (col', v').
    + destruct (grid_set_holds g r c v Hr) as (row' & Hrow' & Hv & _). by exists row'.
  - destruct (list_index k headers) as [c0|]; [|by apply IH].
    apply IH; [by rewrite length_grid_set | done..].
Qed.

Lemma apply_updates_noop r headers update_dict (g : grid) :
  (∀ col v c, (col, v) ∈ update_dict → list_index col headers = Some c →
     ∃ row, g !! r = Some row ∧ row !! c = Some v) →
  apply_updates r headers update_dict g = g.
Proof.
  unfold apply_updates.
  induction update_dict as [|[k v0] rest IH]; intros Hheld; simpl; [done|].
  destruct (list_index k headers) as [c0|] eqn:Hk.
  - destruct (Hheld k v0 c0) as (row & Hrow & Hc); [by left | done|].
    rewrite (grid_set_noop _ _ _ _ row) by done.
    apply IH. intros col v c Hin. apply Hheld. by right.
  - apply IH. intros col v c Hin. apply Hheld. by right.
Qed.

Lemma apply_updates_twice r headers update_dict (g : grid) :
  r < length g → NoDup (dict_keys update_dict) →
  apply_updates r headers update_dict (apply_updates r headers update_dict g)
  = apply_updates r headers update_dict g.
Proof.
  intros Hr Hnd. apply apply_updates_noop. intros col v c Hin Hc.
  by apply (apply_updates_holds _ _ _ _ col).
Qed.

Lemma cell_apply_updates_other r headers update_dict (g : grid) r' c' :
  (∀ col v, (col, v) ∈ update_dict → list_index col headers ≠ Some c') →
  cell (apply_updates r headers update_dict g) r' c' = cell g r' c'.
Proof.
  unfold apply_updates. revert g.
  induction update_dict as [|[k v0] rest IH]; intros g Hfree; simpl; [done|].
  assert (Hrest : ∀ col v, (col, v) ∈ rest → list_index col headers ≠ Some c').
  { intros col v Hin. apply (Hfree col v). by right. }
  destruct (list_index k headers) as [c0|] eqn:Hk; [|by apply IH].
  rewrite IH by done. rewrite cell_grid_set. rewrite decide_False; [done|].
  intros [_ ->]. by apply (Hfree k v0); [left|].
Qed.

Lemma table_apply_updates header r update_dict g :
  table header g → 0 < r < length g → table header (apply_updates r header update_dict g).
Proof.
  unfold apply_updates. revert g.
  induction update_dict as [|[k v0] rest IH]; intros g Htab Hr; simpl; [done|].
  destruct (list_index k header) as [c0|] eqn:Hk; [|by apply IH].
  apply IH; [|by rewrite length_grid_set by lia].
  apply table_grid_set; [done..|]. by apply list_index_lt in Hk.
Qed.

Lemma list_find_same_tests {A} (P : A → Prop) `{∀ x, Decision (P x)} (l1 l2 : list A) :
  length l1 = length l2 →
  (∀ k x y, l1 !! k = Some x → l2 !! k = Some y → (P x ↔ P y)) →
  fst <$> list_find P l1 = fst <$> list_find P l2.
Proof.
  revert l2. induction l1 as [|x l1 IH]; intros [|y l2] Hlen Hsame; try done.
  simpl in *. assert (Hxy : P x ↔ P y) by (by apply (Hsame 0)).
  specialize (IH l2 ltac:(lia) (λ k, Hsame (S k))).
  destruct (decide (P x)), (decide (P y)); [done | tauto | tauto |].
  destruct (list_find P l1) as [[??]|], (list_find P l2) as [[??]|]; simpl in *; congruence.
Qed.

Lemma find_after_updates header g records r update_dict id_col id_val :
  table header g → all_records g = Ok records → 0 < r < length g →
  id_col ∉ dict_keys update_dict →
  ∃ records1,
    all_records (apply_updates r header update_dict g) = Ok records1 ∧
    fst <$> list_find (id_matches id_col id_val) records1
    = fst <$> list_find (id_matches id_col id_val) records.
Proof.
  intros Htab Hrec Hr Hid.
  pose proof (table_apply_updates header r update_dict g Htab Hr) as Htab1.
  destruct (table_records _ _ Htab1) as [records1 Hrec1]. exists records1. split; [done|].
  apply list_find_same_tests.
  - rewrite (length_all_records _ _ Hrec1), (length_all_records _ _ Hrec).
    by rewrite length_apply_updates by lia.
  - intros k x y Hx Hy. unfold id_matches.
    destruct (list_index id_col header) as [c|] eqn:Hc.
    + rewrite (record_cell _ _ _ _ _ _ _ Htab1 Hrec1 Hx Hc).
      rewrite (record_cell _ _ _ _ _ _ _ Htab Hrec Hy Hc).
      rewrite cell_apply_updates_other; [done|].
      intros col v Hin Hcol. apply Hid. rewrite <- (list_index_key_eq _ _ _ _ Hcol Hc).
      apply list_elem_of_fmap. by exists (col, v).
    + rewrite (record_no_cell _ _ _ _ _ _ Htab1 Hrec1 Hx Hc).
      by rewrite (record_no_cell _ _ _ _ _ _ Htab Hrec Hy Hc).
Qed.

(** X12.  [update_cell_by_id] can be repeated: on a table, with an update
    that does not write the key column and when no client call fails, a
    second call with the same arguments finds the same row, leaves the
    spreadsheet as the first call left it, and ends the same way. *)
Theorem update_cell_by_id_again_changes_nothing
    (sheet_name id_col id_val : string) (update_dict : pydict) (w : world)
    (header : list string) (g : grid) :
  faults w = [] →
  sheets w !! sheet_name = Some g →
  table header g →
  NoDup (dict_keys update_dict) →
  id_col ∉ dict_keys update_dict →
  let once := update_cell_by_id sheet_name id_col id_val update_dict w in
  let twice := update_cell_by_id sheet_name id_col id_val update_dict once.2 in
  twice.1 = once.1 ∧ sheets twice.2 = sheets once.2.
Proof.
  intros Hq Hg Htab Hnd Hid. destruct (table_records _ _ Htab) as [records Hrec].
  cbv zeta. rewrite (update_cell_by_id_quiet _ _ _ _ _ _ _ Hq Hg Hrec).
  rewrite (table_head _ _ Htab). simpl.
  destruct (list_find (id_matches id_col id_val) records) as [[j x]|] eqn:Hfind; cbn [fst snd].
  - assert (Hj : 0 < S j < length g).
    { apply list_find_Some in Hfind as (Hl & _). apply lookup_lt_Some in Hl.
      rewrite (length_all_records _ _ Hrec) in Hl. lia. }
    destruct (find_after_updates header g records (S j) update_dict id_col id_val
                Htab Hrec Hj Hid) as (records1 & Hrec1 & Hfind1).
    rewrite Hfind in Hfind1. simpl in Hfind1.
    erewrite update_cell_by_id_quiet;
      [| done | simpl; by rewrite lookup_insert_eq | exact Hrec1].
    destruct (list_find (id_matches id_col id_val) records1) as [[j1 x1]|]; [|done].
    injection Hfind1 as ->. cbn [fst snd].
    rewrite (table_head _ _ (table_apply_updates _ _ _ _ Htab Hj)). simpl.
    rewrite apply_updates_twice by (done || lia).
    split; [done|]. by rewrite insert_insert_eq.
  - erewrite update_cell_by_id_quiet; [| done | exact Hg | exact Hrec].
    by rewrite Hfind.
Qed.

(** X13.  When the key column named in a call of [update_cell_by_id] is not
    a column of the table, the key of every record reads as [None]: no
    record matches and the call reports the identifier as not found,
    unless the identifier is the text "None", in which case the first
    record of the table is taken for the match and updated. *)
Theorem update_cell_by_id_with_unknown_key_column
    (sheet_name id_col id_val : string) (update_dict : pydict) (w : world)
    (header row : list string) (rows : grid) :
  faults w = [] →
  sheets w !! sheet_name = Some (header :: row :: rows) →
  table header (header :: row :: rows) →
  id_col ∉ header →
  (id_val ≠ "None" →
     update_cell_by_id sheet_name id_col id_val update_dict w
     = (Ok IdNotFound,
        show (st_error ("ID " +:+ id_val +:+ " not found in " +:+ sheet_name)) w)) ∧
  (id_val = "None" →
     update_cell_by_id sheet_name id_col id_val update_dict w
     = (Ok RowUpdated,
        set_sheets (λ m, <[sheet_name :=
          apply_updates 1 header update_dict (header :: row :: rows)]> m) w)).
Proof.
  intros Hq Hg Htab Hid. destruct (table_records _ _ Htab) as [records Hrec].
  apply list_index_None in Hid.
  assert (Hkeys : ∀ k record, records !! k = Some record → dict_get id_col record = None).
  { intros k record Hk. by apply (record_no_cell _ _ _ _ _ _ Htab Hrec Hk). }
  rewrite (update_cell_by_id_quiet _ _ _ _ _ _ _ Hq Hg Hrec). simpl. split.
  - intros Hne. rewrite (proj2 (list_find_None _ _)); [done|].
    apply Forall_lookup. intros k record Hk. unfold id_matches.
    rewrite (Hkeys _ _ Hk). simpl. congruence.
  - intros ->. pose proof (length_all_records _ _ Hrec) as Hlen. simpl in Hlen.
    destruct records as [|record records]; [done|].
    simpl. rewrite decide_True; [done|].
    unfold id_matches. by rewrite (Hkeys 0 record eq_refl).
Qed.

(** * Labels, navigation and login *)

Lemma prefix_app (s t : string) : String.prefix s (s +:+ t) = true.
Proof.
  induction s as [|c s IH]; simpl; [by destruct t|].
  by destruct (ascii_dec c c).
Qed.

Lemma split_first_label (sep_tail ident rest : string) :
  no_space ident →
  split_first (String " " sep_tail) (ident +:+ String " " sep_tail +:+ rest) = ident.
Proof.
  unfold no_space. induction ident as [|c ident IH]; intros Hno.
  - change ("" +:+ ?s) with s.
    destruct (String " " sep_tail +:+ rest) eqn:E; [done|].
    unfold split_first. by rewrite <- E, prefix_app.
  - simpl in Hno. apply not_elem_of_cons in Hno as [Hc Hno].
    change (String c ident +:+ ?s) with (String c (ident +:+ s)).
    cbn [split_first String.prefix].
    destruct (ascii_dec " " c) as [E|_]; [done|]. f_equal. by apply IH.
Qed.

(** X14.  The identifier taken from a selection label is the identifier the
    label was built from, whatever the name or title after it, as long as
    the identifier holds no space: this is so for the item chosen in the
    manual entry tab and for the report chosen for an update. *)
Theorem selection_labels_give_back_the_identifier (ident name : string) :
  no_space ident →
  manual_item_id (item_option ident name) = ident ∧
  selected_report_id (report_option ident name) = ident.
Proof.
  intros Hno. split.
  - unfold manual_item_id, item_option. by apply (split_first_label _ ident name).
  - unfold selected_report_id, report_option. by apply (split_first_label _ ident name).
Qed.

(** X15.  Every entry that [sidebar_nav] offers to a role is one that
    [main] serves for that role, so no entry of the menu is dead; and the
    page served is one of the five technician pages exactly when the role
    is the text "technician": any other role, whatever its spelling, is
    served the three user pages only. *)
Theorem every_menu_entry_is_served_by_role (role page : string) :
  page ∈ sidebar_nav role →
  ∃ f, main role page = Some f ∧ (technician_page f = true ↔ role = "technician").
Proof.
  unfold sidebar_nav, main. case_bool_decide as Hrole.
  - rewrite !elem_of_cons, elem_of_nil. intros [->|[->|[->|[->|[->|[]]]]]];
      eexists; (split; [by vm_compute|]); done.
  - rewrite !elem_of_cons, elem_of_nil. intros [->|[->|[->|[]]]];
      eexists; (split; [by vm_compute|]); done.
Qed.

(** X16.  Login takes the first row of the Users table that carries the
    selected name: that row becomes the user of the session, so of two rows
    with one name only the first can ever be logged in.  Nothing is written,
    and nobody is logged in before the button is pressed.  When the Users
    table cannot be read because the client fails, the screen shows that
    the users could not be loaded and logs nobody in. *)
Theorem login_takes_the_first_user_of_the_name
    (selected : string) (w : world) (g : grid) (records : list pydict)
    (i : nat) (user : pydict) :
  faults w = [] →
  sheets w !! "Users" = Some g →
  table Users_header g →
  all_records g = Ok records →
  list_find (has_value "name" selected) records = Some (i, user) →
  login_screen selected true w = (Ok (Some user), w) ∧
  login_screen selected false w = (Ok None, w) ∧
  ∀ w0 e rest pressed,
    faults w0 = Some e :: rest →
    login_screen selected pressed w0
    = (Ok None,
       show (st_error "Could not load users. Check your Google Sheet connection.")
         (show (st_error ("Error reading Users: " +:+ exn_str e)) (set_faults rest w0))).
Proof.
  intros Hq Hg Htab Hrec Hfind.
  assert (Hread : read_sheet "Users" w = (Ok records, w)).
  { apply read_sheet_quiet; [done | by eexists | by rewrite (sheet_of_Some _ _ _ Hg)]. }
  assert (Hne : df_empty records = false).
  { destruct (df_empty records) eqn:E; [|done].
    by rewrite (df_empty_find "name" selected _ E) in Hfind. }
  assert (Hcols : "name" ∈ df_columns records).
  { destruct (table_records_columns Users_header g records "name" Htab Hrec) as [E|?];
      [apply (bool_decide_unpack _); by compute | congruence | done]. }
  assert (Hvals : ∀ w0, df_values "name" records w0 = (Ok (dict_get "name" <$> records), w0)).
  { intros w0. unfold df_values. by rewrite (bool_decide_eq_true_2 ("name" ∈ df_columns records)). }
  split_and!.
  - unfold login_screen. rewrite (bind_run _ _ _ _ _ Hread), Hne.
    rewrite (bind_run _ _ _ _ _ (Hvals w)).
    unfold df_first_where. erewrite bind_run; [reflexivity|].
    rewrite (bind_run _ _ _ _ _ (Hvals w)). by rewrite Hfind.
  - unfold login_screen. rewrite (bind_run _ _ _ _ _ Hread), Hne.
    by rewrite (bind_run _ _ _ _ _ (Hvals w)).
  - intros w0 e rest pressed Hf. unfold login_screen.
    by rewrite (bind_run _ _ _ _ _ (read_sheet_fault "Users" w0 e rest Hf)).
Qed.

(** X17.  The register button saves nothing without a name, and nothing
    when the QR code cannot be drawn: the code is drawn before the row is
    written, so an error of the barcode library leaves the spreadsheet as
    it was.  Otherwise, when no client call fails, it appends one row to
    Items (after the header row, on an empty worksheet) with the new
    identifier, the status "available", the technician and the time, and
    shows the identifier. *)
Theorem register_saves_one_available_item
    {image : Type} (make_qr : pystr → result image)
    (tech name category location notes : string) (w : world) :
  let run := page_register_item make_qr tech name category location notes w in
  let item_id := "ITM-" +:+ upper (String.substring 0 8 (uuids w (uuid_count w))) in
  let payload := json_dumps (item_payload (code_points item_id) (code_points name)
                               (code_points category)) in
  (name = "" → run = (Ok NameRequired, show (st_error "Item name is required!") w)) ∧
  (∀ e, name ≠ "" → make_qr payload = Raise e → run = (Raise e, tick_uuid w)) ∧
  (∀ img g, name ≠ "" → make_qr payload = Ok img →
     faults w = [] → sheets w !! "Items" = Some g →
     run = (Ok (Registered item_id),
            show (st_success ("✅ Item saved to Google Sheets! ID: **" +:+ item_id +:+ "**"))
              (set_sheets (λ m, <["Items" := appended g
                 [("item_id", item_id); ("name", name); ("category", category);
                  ("location", location); ("status", "available"); ("registered_by", tech);
                  ("registered_at", clock w); ("notes", notes)]]> m) (tick_uuid w)))).
Proof.
  cbv zeta. unfold page_register_item. split_and!.
  - intros ->. by rewrite bool_decide_eq_true_2.
  - intros e Hname Hqr. rewrite bool_decide_eq_false_2 by done.
    rewrite (bind_run _ _ _ _ _ (short_uuid_run _)). cbv zeta.
    unfold generate_qr. rewrite Hqr. done.
  - intros img g Hname Hqr Hq Hg. rewrite bool_decide_eq_false_2 by done.
    rewrite (bind_run _ _ _ _ _ (short_uuid_run _)). cbv zeta.
    unfold generate_qr. rewrite Hqr.
    erewrite bind_run by reflexivity. erewrite bind_run by reflexivity.
    erewrite bind_run by (by apply (append_row_quiet _ _ _ g)).
    reflexivity.
Qed.

(** * What holds after any sequence of operations *)

(** X18.  Whatever operations run on the spreadsheet, in whatever order and
    whether or not client calls fail, an Items table stays an Items table:
    no row is lost, a row keeps every field it was registered with except
    its status, and every status is "available" or "in_use" (no operation
    writes any other status, "maintenance" included). *)
Theorem items_change_only_in_status
    {image : Type} (make_qr : pystr → result image) (ops : list operation) (w : world) :
  let g0 := sheet_of "Items" w in
  let g := sheet_of "Items" (run_operations make_qr ops w) in
  items_ok g0 →
  items_ok g ∧ length g0 ≤ length g ∧
  ∀ r c, r < length g0 → c ≠ 4 → cell g r c = cell g0 r c.
Proof.
  cbv zeta. intros Hok. split; [by apply items_kept|].
  destruct (items_fields_kept make_qr ops w (sheet_of "Items" w)) as [_ [Hlen Hcells]].
  { apply kept_outside_start. by apply items_ok_table. }
  split; [done|]. intros r c Hr Hc. apply Hcells; [done|]. by intros ->%list_elem_of_singleton.
Qed.

(** X19.  Whatever operations run, a Reports table keeps what was
    submitted: no report is lost, and the identifier, the author, the
    title, the description, the priority and the time of creation of a
    report never change; only its status, assignee, resolution and time of
    update can. *)
Theorem reports_keep_what_was_submitted
    {image : Type} (make_qr : pystr → result image) (ops : list operation) (w : world) :
  let g0 := sheet_of "Reports" w in
  let g := sheet_of "Reports" (run_operations make_qr ops w) in
  g0 = [] ∨ table Reports_header g0 →
  (g = [] ∨ table Reports_header g) ∧ length g0 ≤ length g ∧
  ∀ r c, r < length g0 → c ∉ [5; 6; 8; 9] → cell g r c = cell g0 r c.
Proof.
  cbv zeta. intros Hok.
  destruct (reports_kept make_qr ops w (sheet_of "Reports" w)) as [Htab [Hlen Hcells]];
    [by apply kept_outside_start | done].
Qed.

Lemma usage_log_ok_table g : usage_log_ok g → g = [] ∨ table Usage_Log_header g.
Proof.
  intros [->|(rows & -> & Hrows)]; [by left | right]. split.
  - apply (bool_decide_unpack _). by compute.
  - exists rows. split; [done|]. eapply Forall_impl; [exact Hrows|].
    intros row [Hlen _]. simpl. lia.
Qed.

(** X20.  Whatever operations run, a usage log stays well formed: every
    entry has the seven fields of the header, and its action is
    "CHECK OUT" or "RETURN". *)
Theorem usage_log_entries_are_check_outs_or_returns
    {image : Type} (make_qr : pystr → result image) (ops : list operation) (w : world) :
  usage_log_ok (sheet_of "Usage_Log" w) →
  usage_log_ok (sheet_of "Usage_Log" (run_operations make_qr ops w)).
Proof.
  apply (run_operations_kept "Usage_Log" Usage_Log_header _ log_row_ok (λ _ _, False)).
  - apply usage_log_ok_table.
  - intros _. right. by exists [].
  - intros g values [->|(rows & -> & Hrows)] Hne Hv; [done | right].
    exists (rows ++ [values]). split; [done|]. apply Forall_app. split; [done | by constructor].
  - by intros.
  - rules_of_sheet. intros. split; (split; [done | by auto]).
Qed.

(** X21.  No operation creates or changes a user: whatever operations run,
    the Users table is the one before, or the one before (under its header
    row, if it was empty) followed by rows of the four demo users. *)
Theorem users_are_only_ever_seeded
    {image : Type} (make_qr : pystr → result image) (ops : list operation) (w : world) :
  let g0 := sheet_of "Users" w in
  g0 = [] ∨ table Users_header g0 →
  users_seeded g0 (sheet_of "Users" (run_operations make_qr ops w)).
Proof.
  cbv zeta. intros Hok. set (g0 := sheet_of "Users" w) in *.
  assert (Hnd : NoDup Users_header) by (apply (bool_decide_unpack _); by compute).
  apply (run_operations_kept "Users" Users_header (users_seeded g0)
           (λ values, values ∈ dict_values <$> demo_users) (λ _ _, False)).
  - by intros g [? _].
  - intros [_ [<-|(added & Hg & _)]].
    + split; [right; split; [done | by exists []]|]. right. exists []. by simpl.
    + destruct g0, added; done.
  - intros g values [[->|Htab] Hseed] Hne Hv; [done|]. split.
    + right. apply table_append; [done|].
      apply list_elem_of_fmap in Hv as (user & -> & Hin). revert Hin. unfold demo_users.
      rewrite !elem_of_cons, elem_of_nil. by intros [->|[->|[->|[->|[]]]]]; simpl; lia.
    + right. destruct Hseed as [->|(added & -> & Hadded)].
      * exists [values]. rewrite bool_decide_eq_false_2 by done.
        rewrite app_nil_r. split; [done | by constructor].
      * exists (added ++ [values]). rewrite app_assoc. split; [done|].
        apply Forall_app. split; [done | by constructor].
  - by intros.
  - rules_of_sheet. intros user Hin. apply list_elem_of_fmap. by exists user.
  - split; [done | by left].
Qed.

(** * The counters of the dashboard *)

Lemma read_sheet_quiet_any sheet_name w :
  faults w = [] →
  ∃ records w',
    read_sheet sheet_name w = (Ok records, w') ∧ faults w' = [] ∧ sheets w' = sheets w ∧
    (records = [] ∨ all_records (sheet_of sheet_name w) = Ok records).
Proof.
  intros Hq. destruct (sheets w !! sheet_name) as [g|] eqn:Hg.
  - destruct (all_records (sheet_of sheet_name w)) as [records|e] eqn:Hrec.
    + exists records, w. rewrite (read_sheet_quiet _ _ records) by (done || by eexists). auto.
    + eexists [], _. rewrite (read_sheet_unreadable _ _ e) by (done || by eexists). auto.
  - eexists [], _. rewrite read_sheet_missing by done. auto.
Qed.

Lemma count_where_run col val (df : DataFrame) w :
  df_empty df = true ∨ col ∈ df_columns df →
  count_where col val df w
  = (Ok (if df_empty df then 0
         else length (filter (λ v, v = Some val) (dict_get col <$> df))), w).
Proof.
  intros Hcol. unfold count_where. destruct (df_empty df); [done|].
  destruct Hcol as [?|Hcol]; [done|]. unfold df_values.
  by rewrite (bool_decide_eq_true_2 (col ∈ df_columns df)).
Qed.

Lemma two_values_count (vals : list (option string)) a b :
  a ≠ b → Forall (λ v, v = Some a ∨ v = Some b) vals →
  length (filter (λ v, v = Some a) vals) + length (filter (λ v, v = Some b) vals)
  = length vals.
Proof.
  intros Hab. induction 1 as [|v vals [->| ->] _ IH]; [done| |]; rewrite !filter_cons.
  - rewrite decide_True, decide_False by congruence. simpl. lia.
  - rewrite decide_False, decide_True by congruence. simpl. lia.
Qed.

(** X22.  On an Items table whose statuses are "available" or "in_use"
    (every table the operations themselves produce, by X18), and when no
    client call fails, the dashboard shows as the number of items the number
    of rows below the header, and its counts of available items and of
    items in use add up to that number.  The dashboard changes no
    worksheet. *)
Theorem dashboard_counts_add_up (w : world) (g : grid) :
  faults w = [] →
  sheets w !! "Items" = Some g →
  items_ok g →
  sheet_of "Reports" w = [] ∨ table Reports_header (sheet_of "Reports" w) →
  ∃ available in_use open_rpts,
    (page_dashboard_tech w).1 = Ok (length g - 1, available, in_use, open_rpts) ∧
    available + in_use = length g - 1 ∧
    sheets (page_dashboard_tech w).2 = sheets w.
Proof.
  intros Hq Hg Hok Hrep.
  destruct (items_ok_table _ Hok) as [Hnil|Htab].
  - subst g. unfold page_dashboard_tech.
    rewrite (bind_run _ _ _ _ _ (read_sheet_quiet "Items" w [] Hq (mk_is_Some _ _ Hg)
               ltac:(by rewrite (sheet_of_Some _ _ _ Hg)))).
    destruct (read_sheet_quiet_any "Reports" w Hq) as (reports & w1 & Hr1 & Hq1 & Hs1 & Hrec1).
    rewrite (bind_run _ _ _ _ _ Hr1).
    destruct (read_sheet_quiet_any "Usage_Log" w1 Hq1) as (usage & w2 & Hr2 & Hq2 & Hs2 & _).
    rewrite (bind_run _ _ _ _ _ Hr2). cbv zeta.
    rewrite (bind_run _ _ _ _ _ (count_where_run "status" "available" [] w2 (or_introl eq_refl))).
    rewrite (bind_run _ _ _ _ _ (count_where_run "status" "in_use" [] w2 (or_introl eq_refl))).
    erewrite bind_run; [|apply count_where_run].
    + do 3 eexists. split; [reflexivity|]. split; [done | simpl; congruence].
    + destruct Hrec1 as [->|Hrec1]; [by left|].
      destruct Hrep as [Hnil|Htab]; [rewrite Hnil in Hrec1; injection Hrec1 as <-; by left|].
      apply (table_records_columns Reports_header _ _ "status" Htab Hrec1).
      apply (bool_decide_unpack _). by compute.
  - destruct (table_records _ _ Htab) as [records Hrec].
    unfold page_dashboard_tech.
    rewrite (bind_run _ _ _ _ _ (read_sheet_quiet "Items" w records Hq (mk_is_Some _ _ Hg)
               ltac:(by rewrite (sheet_of_Some _ _ _ Hg)))).
    destruct (read_sheet_quiet_any "Reports" w Hq) as (reports & w1 & Hr1 & Hq1 & Hs1 & Hrec1).
    rewrite (bind_run _ _ _ _ _ Hr1).
    destruct (read_sheet_quiet_any "Usage_Log" w1 Hq1) as (usage & w2 & Hr2 & Hq2 & Hs2 & _).
    rewrite (bind_run _ _ _ _ _ Hr2). cbv zeta.
    assert (Hcol : df_empty records = true ∨ "status" ∈ df_columns records).
    { apply (table_records_columns Items_header g records "status" Htab Hrec).
      apply (bool_decide_unpack _). by compute. }
    rewrite (bind_run _ _ _ _ _ (count_where_run "status" "available" records w2 Hcol)).
    rewrite (bind_run _ _ _ _ _ (count_where_run "status" "in_use" records w2 Hcol)).
    erewrite bind_run; [|apply count_where_run].
    + do 3 eexists. rewrite (length_all_records _ _ Hrec).
      split; [reflexivity|]. split; [|simpl; congruence].
      destruct (df_empty records) eqn:Hempty.
      * destruct Htab as (Hnd & rows & -> & Hrows).
        rewrite (all_records_table _ _ Hnd Hrows) in Hrec. injection Hrec as <-.
        destruct rows as [|row rows]; [done|].
        pose proof (df_empty_records Items_header row rows ltac:(done)) as Hfull.
        simpl in Hfull, Hempty. congruence.
      * rewrite two_values_count; [rewrite length_fmap; by apply length_all_records | done |].
        apply Forall_fmap, Forall_lookup. intros k record Hk. simpl.
        rewrite (record_cell Items_header g records k record "status" 4 Htab Hrec Hk eq_refl).
        destruct Hok as [->|(rows & -> & Hrows)]; [by destruct Htab as (_ & ? & ? & _)|].
        pose proof (length_all_records _ _ Hrec) as Hlen. simpl in Hlen.
        destruct (lookup_lt_is_Some_2 rows k) as [row Hrow];
          [apply lookup_lt_Some in Hk; lia|].
        destruct (proj1 (Forall_lookup _ _) Hrows _ _ Hrow) as [_ Hst].
        unfold cell. simpl. rewrite Hrow. simpl. by destruct Hst as [->| ->]; [left | right].
    + destruct Hrec1 as [->|Hrec1]; [by left|].
      destruct Hrep as [Hnil|Htab']; [rewrite Hnil in Hrec1; injection Hrec1 as <-; by left|].
      apply (table_records_columns Reports_header _ _ "status" Htab' Hrec1).
      apply (bool_decide_unpack _). by compute.
Qed.

(** * A report from its submission to the tracking page *)

Lemma all_records_appended (g : grid) (row : pydict) records :
  NoDup (dict_keys row) → g = [] ∨ table (dict_keys row) g →
  all_records g = Ok records →
  table (dict_keys row) (appended g row) ∧
  all_records (appended g row) = Ok (records ++ [row]).
Proof.
  intros Hnd Hshape Hrec. unfold appended.
  destruct Hshape as [->|(_ & rows & -> & Hrows)].
  - injection Hrec as <-. simpl.
    assert (Hv : Forall (λ r, length r ≤ length (dict_keys row)) [dict_values row]).
    { constructor; [by rewrite length_keys_values | constructor]. }
    split; [split; [done | by eexists]|].
    rewrite (all_records_table _ [dict_values row]) by done.
    simpl. rewrite pad_row_full by apply length_keys_values. by rewrite zip_keys_values.
  - rewrite bool_decide_eq_false_2 by done. rewrite app_nil_r. simpl.
    assert (Hv : Forall (λ r, length r ≤ length (dict_keys row)) (rows ++ [dict_values row])).
    { apply Forall_app. split; [done|].
      constructor; [by rewrite length_keys_values | constructor]. }
    split; [split; [done | by eexists]|].
    rewrite (all_records_table _ rows) in Hrec by done. injection Hrec as <-.
    rewrite all_records_table by done.
    rewrite !fmap_app. simpl. rewrite pad_row_full by apply length_keys_values.
    by rewrite zip_keys_values.
Qed.

Lemma page_submit_report_quiet name title description priority w g :
  faults w = [] → sheets w !! "Reports" = Some g → title ≠ "" → description ≠ "" →
  page_submit_report name title description priority w
  = (Ok (Submitted ("RPT-" +:+ upper (String.substring 0 8 (uuids w (uuid_count w))))),
     show (st_success ("✅ Report submitted! ID: **" +:+ "RPT-" +:+
                       upper (String.substring 0 8 (uuids w (uuid_count w))) +:+ "**"))
       (set_sheets (λ m, <["Reports" := appended g
          (report_row ("RPT-" +:+ upper (String.substring 0 8 (uuids w (uuid_count w))))
             name title description priority (clock w))]> m) (tick_uuid w))).
Proof.
  intros Hq Hg Ht Hd. unfold page_submit_report.
  rewrite bool_decide_eq_false_2 by done. rewrite bool_decide_eq_false_2 by done. simpl.
  rewrite (bind_run _ _ _ _ _ (short_uuid_run w)). cbv zeta.
  erewrite bind_run by reflexivity.
  erewrite bind_run by (by apply (append_row_quiet _ _ (tick_uuid w) g)).
  done.
Qed.

Lemma report_card_run row w :
  Forall (λ col, is_Some (dict_get col row))
    ["status"; "title"; "report_id"; "priority"; "created_at"] →
  report_card row w = (Ok tt, w).
Proof.
  intros Hcols. unfold report_card, series_get.
  repeat (apply Forall_cons in Hcols as [[? ->] Hcols]; erewrite bind_run by reflexivity).
  done.
Qed.

Lemma report_cards_run (rows : list pydict) w :
  Forall (λ row, Forall (λ col, is_Some (dict_get col row))
                   ["status"; "title"; "report_id"; "priority"; "created_at"]) rows →
  for_each report_card rows w = (Ok tt, w).
Proof.
  induction 1 as [|row rows Hrow _ IH]; [done|].
  cbn [for_each]. by rewrite (bind_run _ _ _ _ _ (report_card_run row w Hrow)).
Qed.

(** X24.  A report that was just submitted heads the tracking page of its
    author: when no client call fails, after a submission into a Reports
    table (or an empty worksheet) the page shows the new report first, as
    it was stored, and after it the author's earlier reports from the
    latest to the oldest, and no report of anybody else. *)
Theorem submitted_report_heads_the_tracking_page
    (name title description priority : string) (w : world) (g : grid)
    (records : list pydict) :
  faults w = [] →
  sheets w !! "Reports" = Some g →
  g = [] ∨ table Reports_header g →
  all_records g = Ok records →
  title ≠ "" → description ≠ "" →
  let w1 := (page_submit_report name title description priority w).2 in
  let rep_id := "RPT-" +:+ upper (String.substring 0 8 (uuids w (uuid_count w))) in
  (page_track_reports name w1).1
  = Ok (report_row rep_id name title description priority (clock w)
          :: reverse (filter (has_value "submitted_by" name) records)).
Proof.
  intros Hq Hg Hshape Hrec Ht Hd. cbv zeta.
  rewrite (page_submit_report_quiet _ _ _ _ _ _ Hq Hg Ht Hd). cbn [snd].
  set (row := report_row _ name title description priority (clock w)).
  assert (Hnd : NoDup Reports_header) by (apply (bool_decide_unpack _); by compute).
  destruct (all_records_appended g row records Hnd Hshape Hrec) as [Htab1 Hrec1].
  change (dict_keys row) with Reports_header in Htab1.
  set (w1 := show _ _).
  assert (Hread : read_sheet "Reports" w1 = (Ok (records ++ [row]), w1)).
  { apply read_sheet_quiet; [done | simpl; rewrite lookup_insert_eq; by eexists |].
    subst w1. change (sheet_of "Reports" (show ?ev ?w0)) with (sheet_of "Reports" w0).
    by rewrite sheet_of_set_sheets_eq. }
  assert (Hmine : has_value "submitted_by" name row) by done.
  assert (Hmy : filter (has_value "submitted_by" name) (records ++ [row])
                = filter (has_value "submitted_by" name) records ++ [row]).
  { rewrite filter_app, filter_cons, filter_nil. by rewrite decide_True by done. }
  assert (Hfind : is_Some (list_find (has_value "submitted_by" name) (records ++ [row]))).
  { destruct (list_find _ _) eqn:E; [by eexists|].
    apply list_find_None in E. apply Forall_app in E as [_ E]. by inversion E. }
  assert (Hne : df_empty (records ++ [row]) = false).
  { destruct (df_empty (records ++ [row])) eqn:E; [|done].
    rewrite (df_empty_find "submitted_by" name _ E) in Hfind. by destruct Hfind. }
  assert (Hcols : "submitted_by" ∈ df_columns (records ++ [row])).
  { destruct (table_records_columns Reports_header _ _ "submitted_by" Htab1 Hrec1) as [E|?];
      [apply (bool_decide_unpack _); by compute | congruence | done]. }
  unfold page_track_reports. rewrite (bind_run _ _ _ _ _ Hread), Hne.
  unfold df_values at 1. rewrite (bool_decide_eq_true_2 _ Hcols).
  erewrite bind_run by reflexivity. cbv zeta. rewrite Hmy.
  rewrite bool_decide_eq_false_2 by (by destruct (filter _ records)).
  rewrite reverse_app, reverse_singleton.
  change ([row] ++ ?l) with (row :: l).
  assert (Hall : ∀ r, r ∈ records ++ [row] →
    Forall (λ col, is_Some (dict_get col r))
      ["status"; "title"; "report_id"; "priority"; "created_at"]).
  { intros r [k Hk]%list_elem_of_lookup.
    repeat constructor;
      (eexists; eapply (record_cell Reports_header _ _ k r); [done | done | done | by compute]). }
  rewrite (bind_run _ _ _ tt w1); [done|].
  apply report_cards_run. constructor.
  - apply Hall, elem_of_app. right. by left.
  - apply Forall_reverse, Forall_forall. intros r [_ Hr]%list_elem_of_filter.
    apply Hall, elem_of_app. by left.
Qed.

Lemma submitted_report_heads_the_tracking_page_witness :
  let w1 := (page_submit_report "Ali User" "Line 4 down" "Belt torn" "high" sample_world).2 in
  (page_track_reports "Ali User" w1).1
  = Ok (report_row ("RPT-" +:+ upper (String.substring 0 8
                                          (uuids sample_world (uuid_count sample_world))))
          "Ali User" "Line 4 down" "Belt torn" "high" (clock sample_world)
        :: reverse (filter (has_value "submitted_by" "Ali User")
                      [zip Reports_header
                         ["RPT-0001"; "Ali User"; "Line 3 down"; "Conveyor stopped"; "high";
                          "open"; ""; "2024-01-03 08:00"; ""; ""]])).
Proof.
  cbv zeta.
  apply (submitted_report_heads_the_tracking_page "Ali User" "Line 4 down" "Belt torn" "high"
           sample_world sample_reports).
  - reflexivity.
  - vm_compute. reflexivity.
  - right. apply sample_reports_table.
  - vm_compute. reflexivity.
  - discriminate.
  - discriminate.
Defined.

(** * The dashboards after an operation *)

(** ** Counting the rows that pass a test *)

Lemma length_filter_fmap {A B} (f : A → B) (P : B → Prop) `{∀ y, Decision (P y)}
    (l : list A) :
  length (filter P (f <$> l)) = length (filter (λ x, P (f x)) l).
Proof.
  induction l as [|x l IH]; [done|]. rewrite fmap_cons, !filter_cons.
  destruct (decide (P (f x))); simpl; by rewrite IH.
Qed.

Lemma count_same {A} (P : A → Prop) `{∀ x, Decision (P x)} (l l' : list A) :
  length l' = length l →
  (∀ j y y', l !! j = Some y → l' !! j = Some y' → (P y ↔ P y')) →
  length (filter P l') = length (filter P l).
Proof.
  revert l'. induction l as [|y l IH]; intros [|y' l'] Hlen Hsame; try done.
  rewrite !filter_cons. simpl in Hlen.
  assert (Hy : P y ↔ P y') by (by apply (Hsame 0)).
  specialize (IH l' ltac:(lia) (λ j, Hsame (S j))).
  destruct (decide (P y)), (decide (P y')); simpl; tauto || lia.
Qed.

Lemma count_change {A} (P : A → Prop) `{∀ x, Decision (P x)} (l l' : list A) k x x' :
  length l' = length l → l !! k = Some x → l' !! k = Some x' →
  (∀ j y y', j ≠ k → l !! j = Some y → l' !! j = Some y' → (P y ↔ P y')) →
  length (filter P l') + (if decide (P x) then 1 else 0)
  = length (filter P l) + (if decide (P x') then 1 else 0).
Proof.
  revert l' k. induction l as [|y l IH]; intros [|y' l'] k Hlen Hk Hk' Hsame; try done.
  rewrite !filter_cons. simpl in Hlen. destruct k as [|k]; simpl in Hk, Hk'.
  - injection Hk as ->. injection Hk' as ->.
    assert (Hrest : length (filter P l') = length (filter P l)).
    { apply count_same; [lia|]. intros j y y' Hy Hy'. by apply (Hsame (S j)). }
    destruct (decide (P x)), (decide (P x')); simpl; lia.
  - assert (Hy : P y ↔ P y') by (by apply (Hsame 0)).
    specialize (IH l' k ltac:(lia) Hk Hk' (λ j y0 y0' Hj, Hsame (S j) y0 y0' ltac:(lia))).
    destruct (decide (P y)), (decide (P y')); simpl; tauto || lia.
Qed.

(** ** The records of a table after an update of one of its rows *)

Lemma cell_apply_updates_row r headers update_dict (g : grid) r' c :
  r' ≠ r → cell (apply_updates r headers update_dict g) r' c = cell g r' c.
Proof.
  intros Hne. unfold apply_updates. revert g.
  induction update_dict as [|[k v0] rest IH]; intros g; simpl; [done|].
  destruct (list_index k headers) as [c0|]; [|by apply IH].
  rewrite IH, cell_grid_set. by rewrite decide_False by tauto.
Qed.

Lemma records_after_updates header g records k update_dict :
  table header g → all_records g = Ok records → k < length records →
  table header (apply_updates (S k) header update_dict g) ∧
  ∃ records',
    all_records (apply_updates (S k) header update_dict g) = Ok records' ∧
    length records' = length records ∧
    (∀ j r r' col, j ≠ k → records !! j = Some r → records' !! j = Some r' →
       dict_get col r' = dict_get col r) ∧
    (∀ r r' col, records !! k = Some r → records' !! k = Some r' →
       col ∉ dict_keys update_dict → dict_get col r' = dict_get col r) ∧
    (∀ r' col v, NoDup (dict_keys update_dict) → records' !! k = Some r' →
       (col, v) ∈ update_dict → col ∈ header → dict_get col r' = Some v).
Proof.
  intros Htab Hrec Hk.
  pose proof (length_all_records _ _ Hrec) as Hlen.
  assert (Htab' : table header (apply_updates (S k) header update_dict g)).
  { apply table_apply_updates; [done | lia]. }
  split; [done|].
  destruct (table_records _ _ Htab') as [records' Hrec'].
  pose proof (length_all_records _ _ Hrec') as Hlen'.
  rewrite length_apply_updates in Hlen' by lia.
  exists records'. split; [done|]. split; [lia|].
  assert (Hget : ∀ j r r' col, records !! j = Some r → records' !! j = Some r' →
            (∀ c, list_index col header = Some c →
               cell (apply_updates (S k) header update_dict g) (S j) c = cell g (S j) c) →
            dict_get col r' = dict_get col r).
  { intros j r r' col Hr Hr' Hcell.
    destruct (list_index col header) as [c|] eqn:Hc.
    - rewrite (record_cell _ _ _ _ _ _ _ Htab' Hrec' Hr' Hc).
      rewrite (record_cell _ _ _ _ _ _ _ Htab Hrec Hr Hc). by rewrite Hcell.
    - rewrite (record_no_cell _ _ _ _ _ _ Htab' Hrec' Hr' Hc).
      by rewrite (record_no_cell _ _ _ _ _ _ Htab Hrec Hr Hc). }
  split; [|split].
  - intros j r r' col Hj Hr Hr'. apply (Hget j); [done..|].
    intros c _. apply cell_apply_updates_row. lia.
  - intros r r' col Hr Hr' Hcol. apply (Hget k); [done..|].
    intros c Hc. apply cell_apply_updates_other. intros col' v Hin Hc'.
    apply Hcol. rewrite (list_index_key_eq _ _ _ _ Hc Hc').
    apply list_elem_of_fmap. by exists (col', v).
  - intros r' col v Hnd Hr' Hin Hcol.
    destruct (list_index col header) as [c|] eqn:Hc;
      [|by apply list_index_None in Hc].
    rewrite (record_cell _ _ _ _ _ _ _ Htab' Hrec' Hr' Hc).
    destruct (apply_updates_holds (S k) header update_dict g col v c) as (row & Hrow & Hv);
      [lia | done..|].
    unfold cell. by rewrite Hrow; simpl; rewrite Hv.
Qed.

(** ** Reads that do not depend on the rest of the world *)

Lemma read_sheet_result_quiet t w w' :
  faults w = [] → faults w' = [] → sheets w' !! t = sheets w !! t →
  (read_sheet t w').1 = (read_sheet t w).1.
Proof.
  intros Hq Hq' Hs.
  assert (Hsheet : sheet_of t w' = sheet_of t w) by (unfold sheet_of; by rewrite Hs).
  destruct (sheets w !! t) as [g|] eqn:Hg.
  - destruct (all_records (sheet_of t w)) as [records|e] eqn:Hrec.
    + rewrite (read_sheet_quiet t w records), (read_sheet_quiet t w' records);
        [done | done | by rewrite Hs | by rewrite Hsheet | done | by eexists | done].
    + rewrite (read_sheet_unreadable t w e), (read_sheet_unreadable t w' e);
        [done | done | by rewrite Hs | by rewrite Hsheet | done | by eexists | done].
  - by rewrite (read_sheet_missing t w), (read_sheet_missing t w').
Qed.

(** ** The technician dashboard *)

Lemma table_records_nonempty header g records :
  table header g → header ≠ [] → all_records g = Ok records →
  df_empty records = bool_decide (records = []).
Proof.
  intros (Hnd & rows & -> & Hrows) Hh Hrec.
  rewrite all_records_table in Hrec by done. injection Hrec as <-.
  destruct rows as [|row rows]; [done|].
  by rewrite (df_empty_records header row rows Hh).
Qed.

Lemma count_where_records header g records col val w :
  table header g → all_records g = Ok records → col ∈ header →
  count_where col val records w
  = (Ok (length (filter (has_value col val) records)), w).
Proof.
  intros Htab Hrec Hcol.
  rewrite count_where_run by by eapply table_records_columns.
  rewrite (table_records_nonempty header g) by (done || by intros ->; apply elem_of_nil in Hcol).
  case_bool_decide as Hnil; [by subst|].
  by rewrite length_filter_fmap.
Qed.

Lemma page_dashboard_tech_run w g records :
  faults w = [] →
  sheets w !! "Items" = Some g → table Items_header g → all_records g = Ok records →
  sheet_of "Reports" w = [] ∨ table Reports_header (sheet_of "Reports" w) →
  ∃ reports,
    (read_sheet "Reports" w).1 = Ok reports ∧
    (page_dashboard_tech w).1
    = Ok (length records,
          length (filter (has_value "status" "available") records),
          length (filter (has_value "status" "in_use") records),
          if df_empty reports then 0
          else length (filter (λ v, v = Some "open") (dict_get "status" <$> reports))).
Proof.
  intros Hq Hg Htab Hrec Hrep. unfold page_dashboard_tech.
  rewrite (bind_run _ _ _ _ _ (read_sheet_quiet "Items" w records Hq (mk_is_Some _ _ Hg)
             ltac:(by rewrite (sheet_of_Some _ _ _ Hg)))).
  destruct (read_sheet_quiet_any "Reports" w Hq) as (reports & w1 & Hr1 & Hq1 & Hs1 & Hrec1).
  exists reports. split; [by rewrite Hr1|].
  rewrite (bind_run _ _ _ _ _ Hr1).
  destruct (read_sheet_quiet_any "Usage_Log" w1 Hq1) as (usage & w2 & Hr2 & Hq2 & Hs2 & _).
  rewrite (bind_run _ _ _ _ _ Hr2). cbv zeta.
  rewrite (bind_run _ _ _ _ _ (count_where_records Items_header g records "status" "available"
             w2 Htab Hrec ltac:(apply (bool_decide_unpack _); by compute))).
  rewrite (bind_run _ _ _ _ _ (count_where_records Items_header g records "status" "in_use"
             w2 Htab Hrec ltac:(apply (bool_decide_unpack _); by compute))).
  erewrite bind_run; [reflexivity|]. apply count_where_run.
  destruct Hrec1 as [->|Hrec1]; [by left|].
  destruct Hrep as [Hnil|Htab']; [rewrite Hnil in Hrec1; injection Hrec1 as <-; by left|].
  apply (table_records_columns Reports_header _ _ "status" Htab' Hrec1).
  apply (bool_decide_unpack _). by compute.
Qed.

Lemma page_scan_use_done tech item_id action notes w g log records i row current item_name :
  faults w = [] →
  sheets w !! "Items" = Some g → table Items_header g →
  sheets w !! "Usage_Log" = Some log →
  all_records g = Ok records →
  list_find (has_value "item_id" item_id) records = Some (i, row) →
  dict_get "status" row = Some current →
  dict_get "name" row = Some item_name →
  (action = "use" → current = "available") →
  (action = "return" → current = "in_use") →
  page_scan_use tech item_id action notes w
  = (Ok ActionDone,
     logged
       (set_sheets (λ m, <["Items" :=
          apply_updates (S i) Items_header
            [("status", if bool_decide (action = "use") then "in_use" else "available")] g]> m) w)
       log
       (usage_row (upper (String.substring 0 8 (uuids w (uuid_count w))))
          item_id item_name tech action (clock w) notes)
       ((if bool_decide (action = "use") then "🔴" else "✅") +:+ " **" +:+ item_name +:+
        "** — " +:+ (if bool_decide (action = "use") then "Checked OUT" else "Returned") +:+
        " successfully!")).
Proof.
  intros Hq Hg Htab Hlog Hrec Hfind Hst Hname Huse Hret. unfold page_scan_use.
  rewrite (bind_run _ _ _ _ _ (read_sheet_quiet "Items" w records Hq (mk_is_Some _ _ Hg)
                                 ltac:(by rewrite (sheet_of_Some _ _ _ Hg)))).
  rewrite (do_action_quiet records tech item_id action notes w g records log i row
             current item_name); try done.
  - rewrite (update_cell_by_id_quiet _ _ _ _ _ _ _ Hq Hg Hrec).
    rewrite (find_id_matches_has_value Items_header g records "item_id" item_id Htab Hrec)
      by (apply (bool_decide_unpack _); by compute).
    by rewrite Hfind, (table_head _ _ Htab).
  - destruct (table_records_columns Items_header g records "item_id" Htab Hrec) as [He|Hc];
      [apply (bool_decide_unpack _); by compute | | done].
    by rewrite (df_empty_find "item_id" item_id _ He) in Hfind.
Qed.

(** X25.  The dashboard follows the check-outs and returns: when no client
    call fails, after an available item of an Items table is checked out the
    dashboard counts one available item less and one item in use more than
    before, and after an item in use is returned one more and one less; the
    number of items and the number of open reports stay as they were. *)
Theorem dashboard_follows_check_out_and_return
    (tech item_id action notes : string) (w : world) (g log : grid)
    (records : list pydict) (i : nat) (row : pydict) :
  faults w = [] →
  sheets w !! "Items" = Some g → table Items_header g →
  sheets w !! "Usage_Log" = Some log →
  sheet_of "Reports" w = [] ∨ table Reports_header (sheet_of "Reports" w) →
  all_records g = Ok records →
  list_find (has_value "item_id" item_id) records = Some (i, row) →
  (action = "use" ∧ dict_get "status" row = Some "available") ∨
  (action = "return" ∧ dict_get "status" row = Some "in_use") →
  ∃ total available in_use open_rpts,
    (page_dashboard_tech w).1 = Ok (total, available, in_use, open_rpts) ∧
    (page_dashboard_tech (page_scan_use tech item_id action notes w).2).1
    = Ok (if bool_decide (action = "use")
          then (total, available - 1, in_use + 1, open_rpts)
          else (total, available + 1, in_use - 1, open_rpts)) ∧
    0 < (if bool_decide (action = "use") then available else in_use).
Proof.
  intros Hq Hg Htab Hlog Hrep Hrec Hfind Hact.
  pose proof Hfind as (Hrow & Hid & _)%list_find_Some.
  assert (Hi : i < length records) by by eapply lookup_lt_Some.
  destruct (dict_get "name" row) as [item_name|] eqn:Hname; last first.
  { by rewrite (record_cell Items_header g records i row "name" 1 Htab Hrec Hrow eq_refl)
      in Hname. }
  set (new_status := if bool_decide (action = "use") then "in_use" else "available").
  assert (∃ current, dict_get "status" row = Some current ∧
            (action = "use" → current = "available") ∧
            (action = "return" → current = "in_use") ∧ current ≠ new_status ∧
            (action = "use" ∨ action = "return")) as (current & Hst & Huse & Hret & Hdiff & Hwhich).
  { subst new_status. destruct Hact as [[-> Hst]|[-> Hst]]; eexists; (split; [exact Hst|]);
      repeat split; try done; auto. }
  destruct (page_dashboard_tech_run w g records Hq Hg Htab Hrec Hrep) as (reports & Hreports & Hbefore).
  destruct (records_after_updates Items_header g records i [("status", new_status)] Htab Hrec Hi)
    as (Htab1 & records1 & Hrec1 & Hlen1 & Hother & _ & Hset).
  destruct (lookup_lt_is_Some_2 records1 i) as [row1 Hrow1]; [lia|].
  assert (Hst1 : dict_get "status" row1 = Some new_status).
  { apply (Hset row1 "status" new_status); [apply NoDup_singleton | done | by left |].
    apply (bool_decide_unpack _). by compute. }
  rewrite (page_scan_use_done tech item_id action notes w g log records i row current item_name)
    by done.
  fold new_status. cbn [snd]. set (w1 := logged _ _ _ _).
  assert (Hg1 : sheets w1 !! "Items"
                = Some (apply_updates (S i) Items_header [("status", new_status)] g)).
  { unfold w1, logged. simpl. rewrite lookup_insert_ne by done. by rewrite lookup_insert_eq. }
  assert (Hrep1 : sheets w1 !! "Reports" = sheets w !! "Reports").
  { unfold w1, logged. simpl. by rewrite !lookup_insert_ne by done. }
  destruct (page_dashboard_tech_run w1 _ records1 Hq Hg1 Htab1 Hrec1) as (reports1 & Hreports1 & Hafter).
  { unfold sheet_of. rewrite Hrep1. apply Hrep. }
  rewrite (read_sheet_result_quiet "Reports" w w1 Hq Hq Hrep1), Hreports in Hreports1.
  injection Hreports1 as <-.
  assert (Hcount : ∀ v,
    length (filter (has_value "status" v) records1) + (if decide (current = v) then 1 else 0)
    = length (filter (has_value "status" v) records)
      + (if decide (new_status = v) then 1 else 0)).
  { intros v.
    pose proof (count_change (has_value "status" v) records records1 i row row1 Hlen1 Hrow Hrow1)
      as Hc.
    destruct (decide (has_value "status" v row)) as [H1|H1],
             (decide (has_value "status" v row1)) as [H2|H2],
             (decide (current = v)), (decide (new_status = v));
      unfold has_value in H1, H2; rewrite Hst in H1; rewrite Hst1 in H2;
      try congruence;
      (rewrite <- Hc; [lia|]; intros j y y' Hj Hy Hy'; unfold has_value;
       by rewrite (Hother j y y' "status" Hj Hy Hy')). }
  pose proof (Hcount "available") as Ha. pose proof (Hcount "in_use") as Hu.
  do 4 eexists. split; [exact Hbefore|]. rewrite Hafter, Hlen1.
  subst new_status. destruct Hwhich as [-> | ->].
  - rewrite (Huse eq_refl) in Ha, Hu. simpl in Ha, Hu |- *.
    split; [|lia]. do 3 f_equal; [f_equal|]; lia.
  - rewrite (Hret eq_refl) in Ha, Hu. simpl in Ha, Hu |- *.
    split; [|lia]. do 3 f_equal; [f_equal|]; lia.
Qed.

(** ** The user dashboard *)

Lemma count_where_rows header g records (my : DataFrame) col val w :
  table header g → all_records g = Ok records → col ∈ header →
  (∀ r, r ∈ my → r ∈ records) →
  count_where col val my w = (Ok (length (filter (has_value col val) my)), w).
Proof.
  intros Htab Hrec Hcol Hsub. destruct my as [|r my]; [done|].
  assert (Hin : col ∈ df_columns (r :: my)).
  { unfold df_columns. apply elem_of_remove_dups, list_elem_of_join.
    exists (dict_keys r). split; [|by left].
    by rewrite (table_record_keys _ _ _ r Htab Hrec) by (apply Hsub; by left). }
  rewrite count_where_run by by right.
  assert (Hne : df_empty (r :: my) = false).
  { unfold df_empty. rewrite bool_decide_eq_false_2 by done.
    apply bool_decide_eq_false_2. intros Hnil. rewrite Hnil in Hin. by apply elem_of_nil in Hin. }
  by rewrite Hne, length_filter_fmap.
Qed.

Lemma page_dashboard_user_run name w g records :
  faults w = [] → sheets w !! "Reports" = Some g →
  g = [] ∨ table Reports_header g → all_records g = Ok records →
  (page_dashboard_user name w).1
  = Ok (length (filter (has_value "submitted_by" name) records),
        length (filter (has_value "status" "open")
                  (filter (has_value "submitted_by" name) records)),
        length (filter (has_value "status" "resolved")
                  (filter (has_value "submitted_by" name) records))).
Proof.
  intros Hq Hg Hshape Hrec. unfold page_dashboard_user.
  rewrite (bind_run _ _ _ _ _ (read_sheet_quiet "Reports" w records Hq (mk_is_Some _ _ Hg)
             ltac:(by rewrite (sheet_of_Some _ _ _ Hg)))).
  destruct Hshape as [->|Htab]; [by injection Hrec as <-|].
  assert (Hsb : "submitted_by" ∈ Reports_header) by (apply (bool_decide_unpack _); by compute).
  assert (Hst : "status" ∈ Reports_header) by (apply (bool_decide_unpack _); by compute).
  destruct (df_empty records) eqn:Hempty.
  - rewrite (table_records_nonempty _ _ _ Htab ltac:(done) Hrec) in Hempty.
    apply bool_decide_eq_true in Hempty. by subst.
  - destruct (table_records_columns _ _ _ "submitted_by" Htab Hrec Hsb) as [?|Hcol];
      [congruence|].
    unfold df_values at 1. rewrite (bool_decide_eq_true_2 _ Hcol).
    erewrite bind_run; [|erewrite bind_run by reflexivity; reflexivity].
    assert (Hsub : ∀ r, r ∈ filter (has_value "submitted_by" name) records → r ∈ records).
    { by intros r [_ ?]%list_elem_of_filter. }
    rewrite (bind_run _ _ _ _ _ (count_where_rows _ _ _ _ "status" "open" w Htab Hrec Hst Hsub)).
    by rewrite (bind_run _ _ _ _ _
                  (count_where_rows _ _ _ _ "status" "resolved" w Htab Hrec Hst Hsub)).
Qed.

(** X26.  A submission shows on the dashboard of its author and of nobody
    else: when no client call fails, after a report is submitted into a
    Reports table (or an empty worksheet) the author's dashboard counts one
    report more and one open report more than before and as many resolved
    ones, and the dashboard of every other user shows what it showed. *)
Theorem user_dashboard_follows_a_submission
    (name title description priority : string) (w : world) (g : grid) :
  faults w = [] →
  sheets w !! "Reports" = Some g →
  g = [] ∨ table Reports_header g →
  title ≠ "" → description ≠ "" →
  let w1 := (page_submit_report name title description priority w).2 in
  ∃ mine open_rpts resolved,
    (page_dashboard_user name w).1 = Ok (mine, open_rpts, resolved) ∧
    (page_dashboard_user name w1).1 = Ok (S mine, S open_rpts, resolved) ∧
    ∀ other, other ≠ name →
      (page_dashboard_user other w1).1 = (page_dashboard_user other w).1.
Proof.
  intros Hq Hg Hshape Ht Hd. cbv zeta.
  assert (∃ records, all_records g = Ok records) as [records Hrec].
  { destruct Hshape as [->|Htab]; [by eexists | by eapply table_records]. }
  rewrite (page_submit_report_quiet _ _ _ _ _ _ Hq Hg Ht Hd). cbn [snd].
  set (row := report_row _ name title description priority (clock w)).
  assert (Hnd : NoDup Reports_header) by (apply (bool_decide_unpack _); by compute).
  destruct (all_records_appended g row records Hnd Hshape Hrec) as [Htab1 Hrec1].
  change (dict_keys row) with Reports_header in Htab1.
  set (w1 := show _ _).
  assert (Hg1 : sheets w1 !! "Reports" = Some (appended g row)).
  { unfold w1. simpl. by rewrite lookup_insert_eq. }
  assert (Hafter : ∀ user, (page_dashboard_user user w1).1 = _)
    by (intros user; exact (page_dashboard_user_run user w1 _ _ Hq Hg1 (or_intror Htab1) Hrec1)).
  assert (Hbefore : ∀ user, (page_dashboard_user user w).1 = _)
    by (intros user; exact (page_dashboard_user_run user w _ _ Hq Hg Hshape Hrec)).
  do 3 eexists. split; [apply Hbefore|]. split.
  - rewrite Hafter. rewrite filter_app, (filter_cons _ row), filter_nil.
    rewrite decide_True by done.
    rewrite !filter_app, !length_app. rewrite !(filter_cons _ row), !filter_nil.
    rewrite decide_True by done. rewrite decide_False by done. simpl.
    do 2 f_equal; [f_equal|]; lia.
  - intros other Hother. rewrite Hafter, Hbefore.
    rewrite filter_app, (filter_cons _ row), filter_nil.
    rewrite decide_False by (unfold has_value; simpl; congruence).
    by rewrite app_nil_r.
Qed.

Lemma page_manage_reports_quiet tech sel_id new_status resolution w g records k row :
  faults w = [] → sheets w !! "Reports" = Some g → table Reports_header g →
  all_records g = Ok records →
  list_find (has_value "report_id" sel_id) records = Some (k, row) →
  page_manage_reports tech sel_id new_status resolution w
  = (Ok RowUpdated,
     show (st_success "✅ Report updated in Google Sheets!")
       (set_sheets (λ m, <["Reports" :=
          apply_updates (S k) Reports_header
            [("status", new_status); ("assigned_to", tech);
             ("resolution", resolution); ("updated_at", clock w)] g]> m) w)).
Proof.
  intros Hq Hg Htab Hrec Hfind. unfold page_manage_reports.
  erewrite bind_run by reflexivity.
  erewrite bind_run; [reflexivity|].
  rewrite (update_cell_by_id_quiet _ _ _ _ _ _ _ Hq Hg Hrec).
  rewrite (find_id_matches_has_value Reports_header g records "report_id" sel_id Htab Hrec)
    by (apply (bool_decide_unpack _); by compute).
  by rewrite Hfind, (table_head _ _ Htab).
Qed.

(** X27.  A resolution shows on the dashboard of the report's author and of
    nobody else: when no client call fails, after a technician sets an open
    report of a Reports table to resolved the author's dashboard counts one
    open report less and one resolved report more than before and as many
    reports in all, and the dashboard of every other user shows what it
    showed. *)
Theorem user_dashboard_follows_a_resolution
    (tech sel_id resolution name : string) (w : world) (g : grid)
    (records : list pydict) (k : nat) (row : pydict) :
  faults w = [] →
  sheets w !! "Reports" = Some g → table Reports_header g →
  all_records g = Ok records →
  list_find (has_value "report_id" sel_id) records = Some (k, row) →
  dict_get "submitted_by" row = Some name →
  dict_get "status" row = Some "open" →
  let w1 := (page_manage_reports tech sel_id "resolved" resolution w).2 in
  ∃ mine open_rpts resolved,
    (page_dashboard_user name w).1 = Ok (mine, S open_rpts, resolved) ∧
    (page_dashboard_user name w1).1 = Ok (mine, open_rpts, S resolved) ∧
    ∀ other, other ≠ name →
      (page_dashboard_user other w1).1 = (page_dashboard_user other w).1.
Proof.
  intros Hq Hg Htab Hrec Hfind Hname Hopen. cbv zeta.
  pose proof Hfind as (Hrow & _ & _)%list_find_Some.
  assert (Hk : k < length records) by by eapply lookup_lt_Some.
  rewrite (page_manage_reports_quiet _ _ _ _ _ _ _ _ _ Hq Hg Htab Hrec Hfind). cbn [snd].
  set (upd := [("status", "resolved"); ("assigned_to", tech);
               ("resolution", resolution); ("updated_at", clock w)]).
  destruct (records_after_updates Reports_header g records k upd Htab Hrec Hk)
    as (Htab1 & records1 & Hrec1 & Hlen1 & Hother & Hkept & Hset).
  destruct (lookup_lt_is_Some_2 records1 k) as [row1 Hrow1]; [lia|].
  assert (Hst1 : dict_get "status" row1 = Some "resolved").
  { apply (Hset row1 "status" "resolved"); [| done | by left |];
      apply (bool_decide_unpack _); by compute. }
  assert (Hsb : ∀ j r r', records !! j = Some r → records1 !! j = Some r' →
            dict_get "submitted_by" r' = dict_get "submitted_by" r).
  { intros j r r' Hr Hr'. destruct (decide (j = k)) as [->|Hj].
    - apply (Hkept r r' "submitted_by" Hr Hr'). apply (bool_decide_unpack _). by compute.
    - by apply (Hother j). }
  assert (Hname1 : dict_get "submitted_by" row1 = Some name)
    by (by rewrite (Hsb k row row1)).
  set (w1 := show _ _).
  assert (Hg1 : sheets w1 !! "Reports" = Some (apply_updates (S k) Reports_header upd g)).
  { unfold w1. simpl. by rewrite lookup_insert_eq. }
  assert (Hafter : ∀ user, (page_dashboard_user user w1).1 = _)
    by (intros user; exact (page_dashboard_user_run user w1 _ _ Hq Hg1 (or_intror Htab1) Hrec1)).
  assert (Hbefore : ∀ user, (page_dashboard_user user w).1 = _)
    by (intros user; exact (page_dashboard_user_run user w _ _ Hq Hg (or_intror Htab) Hrec)).
  assert (Hmine : ∀ user,
    length (filter (has_value "submitted_by" user) records1)
    = length (filter (has_value "submitted_by" user) records)).
  { intros user. apply count_same; [done|]. intros j r r' Hr Hr'.
    unfold has_value. by rewrite (Hsb j r r'). }
  assert (Hcount : ∀ user v,
    length (filter (has_value "status" v) (filter (has_value "submitted_by" user) records1))
    + (if decide (user = name ∧ v = "open") then 1 else 0)
    = length (filter (has_value "status" v) (filter (has_value "submitted_by" user) records))
      + (if decide (user = name ∧ v = "resolved") then 1 else 0)).
  { intros user v. rewrite !list_filter_filter.
    pose proof (count_change
                  (λ r, has_value "status" v r ∧ has_value "submitted_by" user r)
                  records records1 k row row1 Hlen1 Hrow Hrow1) as Hc.
    assert (Hsame : ∀ j y y', j ≠ k → records !! j = Some y → records1 !! j = Some y' →
              (has_value "status" v y ∧ has_value "submitted_by" user y
               ↔ has_value "status" v y' ∧ has_value "submitted_by" user y')).
    { intros j y y' Hj Hy Hy'. unfold has_value.
      by rewrite (Hother j y y' "status" Hj Hy Hy'), (Hsb j y y' Hy Hy'). }
    specialize (Hc Hsame).
    destruct (decide (has_value "status" v row ∧ has_value "submitted_by" user row)) as [H1|H1],
      (decide (has_value "status" v row1 ∧ has_value "submitted_by" user row1)) as [H2|H2],
      (decide (user = name ∧ v = "open")) as [H3|H3],
      (decide (user = name ∧ v = "resolved")) as [H4|H4];
      unfold has_value in H1, H2; rewrite Hopen, Hname in H1; rewrite Hst1, Hname1 in H2;
      first [lia | exfalso; destruct_and?; simplify_eq; intuition]. }
  exists (length (filter (has_value "submitted_by" name) records)),
         (length (filter (has_value "status" "open")
                    (filter (has_value "submitted_by" name) records1))),
         (length (filter (has_value "status" "resolved")
                    (filter (has_value "submitted_by" name) records))).
  pose proof (Hcount name "open") as Ho. pose proof (Hcount name "resolved") as Hr.
  rewrite decide_True in Ho by done. rewrite decide_False in Ho by (intros [_ [=]]).
  rewrite decide_False in Hr by (intros [_ [=]]). rewrite decide_True in Hr by done.
  assert (Ho' : length (filter (has_value "status" "open")
                          (filter (has_value "submitted_by" name) records))
                = S (length (filter (has_value "status" "open")
                               (filter (has_value "submitted_by" name) records1)))) by lia.
  assert (Hr' : length (filter (has_value "status" "resolved")
                          (filter (has_value "submitted_by" name) records1))
                = S (length (filter (has_value "status" "resolved")
                               (filter (has_value "submitted_by" name) records)))) by lia.
  split; [|split].
  - by rewrite Hbefore, Ho'.
  - by rewrite Hafter, Hmine, Hr'.
  - intros other Hne. rewrite Hafter, Hbefore, Hmine.
    pose proof (Hcount other "open") as Ho2. pose proof (Hcount other "resolved") as Hr2.
    rewrite !decide_False in Ho2 by (by intros [? _]).
    rewrite !decide_False in Hr2 by (by intros [? _]).
    rewrite !Nat.add_0_r in Ho2, Hr2. by rewrite Ho2, Hr2.
Qed.

(** * The report chosen for an update *)

Lemma df_values_records header g records col w :
  table header g → all_records g = Ok records → col ∈ header → records ≠ [] →
  df_values col records w = (Ok (dict_get col <$> records), w).
Proof.
  intros Htab Hrec Hcol Hne. unfold df_values.
  destruct (table_records_columns header g records col Htab Hrec Hcol) as [Hempty|Hin].
  - rewrite (table_records_nonempty header g) in Hempty
      by (done || by intros ->; apply elem_of_nil in Hcol).
    by apply bool_decide_eq_true in Hempty.
  - by rewrite (bool_decide_eq_true_2 _ Hin).
Qed.

Lemma find_by_distinct_id (records : list pydict) col k row val :
  NoDup (dict_get col <$> records) →
  records !! k = Some row → dict_get col row = Some val →
  list_find (has_value col val) records = Some (k, row).
Proof.
  intros Hnd Hrow Hval. apply list_find_Some. split; [done|]. split; [done|].
  intros j y Hy Hj Hv. unfold has_value in Hv.
  assert (j = k); [|lia].
  apply (NoDup_lookup _ j k (Some val) Hnd); rewrite list_lookup_fmap.
  - by rewrite Hy; simpl; rewrite Hv.
  - by rewrite Hrow; simpl; rewrite Hval.
Qed.

(** X28.  The report updated is the report selected.  In a Reports table
    whose identifiers are distinct, every report that is open or in
    progress is offered in the select box, and nothing else is; choosing the
    label of one whose identifier holds no space displays that report, and
    the update button then writes the four fields into the row of that
    report and nowhere else. *)
Theorem selected_report_is_the_one_updated
    (tech new_status resolution : string) (w : world) (g : grid)
    (records : list pydict) (k : nat) (row : pydict) (report_id title : string) :
  faults w = [] →
  sheets w !! "Reports" = Some g → table Reports_header g →
  all_records g = Ok records →
  NoDup (dict_get "report_id" <$> records) →
  records !! k = Some row →
  awaits_action row →
  dict_get "report_id" row = Some report_id → no_space report_id →
  dict_get "title" row = Some title →
  let sel := report_option report_id title in
  (∃ opts, report_options records w = (Ok (Some opts), w) ∧ Some sel ∈ opts ∧
           ∀ label, label ∈ opts →
             ∃ row', row' ∈ records ∧ awaits_action row' ∧ report_label row' = label) ∧
  selected_report records sel w = (Ok (report_id, row), w) ∧
  sheets (page_manage_reports tech (selected_report_id sel) new_status resolution w).2
  = <["Reports" := apply_updates (S k) Reports_header
                     [("status", new_status); ("assigned_to", tech);
                      ("resolution", resolution); ("updated_at", clock w)] g]> (sheets w).
Proof.
  intros Hq Hg Htab Hrec Hnd Hrow Hopen Hid Hno Htitle sel.
  assert (Hne : records ≠ []) by (by intros ->).
  assert (Hvals : ∀ col, col ∈ Reports_header →
            df_values col records w = (Ok (dict_get col <$> records), w)).
  { intros col Hcol. by apply (df_values_records Reports_header g). }
  assert (Hsel : selected_report_id sel = report_id).
  { unfold sel, selected_report_id, report_option. by apply (split_first_label _ report_id title). }
  assert (Hfind : list_find (has_value "report_id" report_id) records = Some (k, row)).
  { by apply find_by_distinct_id. }
  assert (Hin : row ∈ filter awaits_action records).
  { apply list_elem_of_filter. split; [done|]. by eapply list_elem_of_lookup_2. }
  split; [|split].
  - eexists. split; [|split].
    + unfold report_options.
      rewrite (bind_run _ _ _ _ _ (Hvals "status" ltac:(apply (bool_decide_unpack _); by compute))).
      cbv zeta. rewrite bool_decide_eq_false_2 by (intros Hnil; rewrite Hnil in Hin; by apply elem_of_nil in Hin).
      rewrite (bind_run _ _ _ _ _ (Hvals "report_id" ltac:(apply (bool_decide_unpack _); by compute))).
      rewrite (bind_run _ _ _ _ _ (Hvals "title" ltac:(apply (bool_decide_unpack _); by compute))).
      reflexivity.
    + apply list_elem_of_fmap. exists row. split; [|done].
      unfold report_label. by rewrite Hid, Htitle.
    + intros label (row' & -> & [Hopen' Hin']%list_elem_of_filter)%list_elem_of_fmap.
      by exists row'.
  - unfold selected_report. cbv zeta. rewrite Hsel.
    erewrite bind_run; last first.
    { unfold df_first_where.
      rewrite (bind_run _ _ _ _ _ (Hvals "report_id" ltac:(apply (bool_decide_unpack _); by compute))).
      by rewrite Hfind. }
    unfold series_get.
    rewrite (record_cell Reports_header g records k row "title" 2 Htab Hrec Hrow eq_refl).
    rewrite (record_cell Reports_header g records k row "submitted_by" 1 Htab Hrec Hrow eq_refl).
    rewrite (record_cell Reports_header g records k row "priority" 4 Htab Hrec Hrow eq_refl).
    rewrite (record_cell Reports_header g records k row "description" 3 Htab Hrec Hrow eq_refl).
    rewrite (record_cell Reports_header g records k row "status" 5 Htab Hrec Hrow eq_refl).
    reflexivity.
  - rewrite Hsel.
    by rewrite (page_manage_reports_quiet _ _ _ _ _ _ _ _ _ Hq Hg Htab Hrec Hfind).
Qed.

(** * The statements above on the sample worlds *)

(** X23.  The text [generate_qr] hands to the barcode library is plain
    ASCII, whatever the fields of the payload hold: [json.dumps] writes
    every other character as an escape. *)
Theorem qr_payload_is_ascii {image : Type} (make_qr : pystr → result image)
    (data : list (pystr * pystr)) :
  ∃ payload, generate_qr make_qr data = make_qr payload ∧ ascii_only payload.
Proof. exists (json_dumps data). split; [done | apply json_dumps_ascii]. Qed.



Lemma seed_users_appends_after_a_failed_read_witness :
  sheets (seed_users (set_faults [Some (TransportError "503 backend error")] seeded_world)).2
    !! "Users"
  = Some (Users_header :: (dict_values <$> demo_users) ++ (dict_values <$> demo_users)).
Proof.
  rewrite (seed_users_appends_after_a_failed_read _ (TransportError "503 backend error")
             (Users_header :: (dict_values <$> demo_users)));
    [vm_compute; reflexivity | reflexivity | vm_compute; reflexivity | discriminate].
Defined.

Lemma initialize_needs_the_users_worksheet_witness :
  (initialize sample_world).1 = Ok true ∧
  (initialize (set_sheets (λ m, delete "Users" m) sample_world)).1 = Ok false.
Proof.
  split.
  - destruct (initialize_needs_the_users_worksheet sample_world eq_refl) as [Hthere _].
    apply Hthere. vm_compute. eexists. reflexivity.
  - destruct (initialize_needs_the_users_worksheet
                (set_sheets (λ m, delete "Users" m) sample_world) eq_refl) as [_ Hmissing].
    apply Hmissing. vm_compute. reflexivity.
Defined.


Lemma append_row_stores_values_by_position_witness :
  let row := [("title", "Belt torn"); ("report_id", "RPT-0002")] in
  let rows := [["RPT-0001"; "Ali User"; "Line 3 down"; "Conveyor stopped"; "high"; "open"; "";
                "2024-01-03 08:00"; ""; ""]] in
  let w' := (append_row "Reports" row sample_world).2 in
  sheets w' !! "Reports" = Some (Reports_header :: rows ++ [["Belt torn"; "RPT-0002"]]) ∧
  ∃ records,
    all_records (Reports_header :: rows) = Ok records ∧
    read_sheet "Reports" w'
    = (Ok (records ++ [zip Reports_header
                         (pad_row (length Reports_header) ["Belt torn"; "RPT-0002"])]), w').
Proof.
  cbv zeta.
  apply (append_row_stores_values_by_position "Reports"
           [("title", "Belt torn"); ("report_id", "RPT-0002")] sample_world).
  - reflexivity.
  - vm_compute. reflexivity.
  - apply sample_reports_table.
  - vm_compute. lia.
Defined.


Lemma triage_interrupted_keeps_the_first_write_witness :
  let w := set_faults [None; None; None; None; Some (TransportError "503 backend error")]
             sample_world in
  let run := page_manage_reports "Siti" "RPT-0001" "resolved" "Belt replaced" w in
  run.1 = Raise (TransportError "503 backend error") ∧
  sheets run.2 !! "Reports" = Some (grid_set 1 5 "resolved" sample_reports) ∧
  ui run.2 = [].
Proof.
  cbv zeta.
  destruct (triage_interrupted_keeps_the_first_write
              "Siti" "RPT-0001" "resolved" "Belt replaced"
              (set_faults [None; None; None; None; Some (TransportError "503 backend error")]
                 sample_world)
              sample_reports
              [zip Reports_header
                 ["RPT-0001"; "Ali User"; "Line 3 down"; "Conveyor stopped"; "high";
                  "open"; ""; "2024-01-03 08:00"; ""; ""]]
              0
              (zip Reports_header
                 ["RPT-0001"; "Ali User"; "Line 3 down"; "Conveyor stopped"; "high";
                  "open"; ""; "2024-01-03 08:00"; ""; ""])
              (TransportError "503 backend error"))
    as (Hraise & Hsheet & Hui).
  - reflexivity.
  - vm_compute. reflexivity.
  - apply sample_reports_table.
  - vm_compute. reflexivity.
  - vm_compute. reflexivity.
  - split; [exact Hraise|]. split; [exact Hsheet|]. rewrite Hui. reflexivity.
Defined.

Lemma check_out_interrupted_before_the_log_witness :
  let w := set_faults (replicate 6 None ++ [Some (TransportError "503 backend error")])
             sample_world in
  let run := page_scan_use "Ahmad" "ITM-0001" "use" "" w in
  run.1 = Raise (TransportError "503 backend error") ∧
  sheets run.2 !! "Items" = Some (grid_set 1 4 "in_use" sample_items) ∧
  sheets run.2 !! "Usage_Log" = Some [] ∧
  (page_scan_use "Ahmad" "ITM-0001" "use" "" run.2).1 = Ok CannotCheckOut.
Proof.
  cbv zeta.
  destruct (check_out_interrupted_before_the_log "Ahmad" "ITM-0001" ""
              (set_faults (replicate 6 None ++ [Some (TransportError "503 backend error")])
                 sample_world)
              sample_items sample_records 0
              (zip Items_header ["ITM-0001"; "Multimeter"; "Tools"; "Rack A"; "available";
                                 "Ahmad"; "2024-01-01 09:00"; ""])
              (TransportError "503 backend error"))
    as (Hraise & HItems & HLog & _ & Hretry).
  - reflexivity.
  - vm_compute. reflexivity.
  - apply sample_items_table.
  - vm_compute. reflexivity.
  - vm_compute. reflexivity.
  - vm_compute. reflexivity.
  - split; [exact Hraise|]. split; [exact HItems|]. split; [|exact Hretry].
    rewrite HLog. vm_compute. reflexivity.
Defined.

Lemma update_cell_by_id_again_changes_nothing_witness :
  let once := update_cell_by_id "Reports" "report_id" "RPT-0001"
                [("status", "resolved"); ("resolution", "Belt replaced")] sample_world in
  let twice := update_cell_by_id "Reports" "report_id" "RPT-0001"
                 [("status", "resolved"); ("resolution", "Belt replaced")] once.2 in
  twice.1 = once.1 ∧ sheets twice.2 = sheets once.2.
Proof.
  cbv zeta.
  apply (update_cell_by_id_again_changes_nothing _ _ _ _ _ Reports_header sample_reports).
  - reflexivity.
  - vm_compute. reflexivity.
  - apply sample_reports_table.
  - apply (bool_decide_unpack _). vm_compute. exact I.
  - apply (bool_decide_unpack _). vm_compute. exact I.
Defined.

Lemma update_cell_by_id_with_unknown_key_column_witness :
  update_cell_by_id "Items" "serial" "None" [("status", "in_use")] sample_world
  = (Ok RowUpdated,
     set_sheets (λ m, <["Items" := grid_set 1 4 "in_use" sample_items]> m) sample_world) ∧
  update_cell_by_id "Items" "serial" "SN-17" [("status", "in_use")] sample_world
  = (Ok IdNotFound, show (st_error "ID SN-17 not found in Items") sample_world).
Proof.
  split.
  - destruct (update_cell_by_id_with_unknown_key_column "Items" "serial" "None"
                [("status", "in_use")] sample_world Items_header
                ["ITM-0001"; "Multimeter"; "Tools"; "Rack A"; "available"; "Ahmad";
                 "2024-01-01 09:00"; ""]
                [["ITM-0002"; "Drill"; "Tools"; "Rack B"; "in_use"; "Siti";
                  "2024-01-02 09:00"; ""]] eq_refl) as [_ Hnone].
    + vm_compute. reflexivity.
    + apply sample_items_table.
    + apply (bool_decide_unpack _). vm_compute. exact I.
    + by apply Hnone.
  - destruct (update_cell_by_id_with_unknown_key_column "Items" "serial" "SN-17"
                [("status", "in_use")] sample_world Items_header
                ["ITM-0001"; "Multimeter"; "Tools"; "Rack A"; "available"; "Ahmad";
                 "2024-01-01 09:00"; ""]
                [["ITM-0002"; "Drill"; "Tools"; "Rack B"; "in_use"; "Siti";
                  "2024-01-02 09:00"; ""]] eq_refl) as [Hother _].
    + vm_compute. reflexivity.
    + apply sample_items_table.
    + apply (bool_decide_unpack _). vm_compute. exact I.
    + by apply Hother.
Defined.

Lemma selection_labels_give_back_the_identifier_witness :
  manual_item_id (item_option "ITM-1B4E28BA" "Multimeter — Fluke 87V") = "ITM-1B4E28BA" ∧
  selected_report_id (report_option "RPT-0001" "Line 3 | belt") = "RPT-0001".
Proof.
  split.
  - destruct (selection_labels_give_back_the_identifier "ITM-1B4E28BA" "Multimeter — Fluke 87V")
      as [Hitem _]; [|exact Hitem].
    apply (bool_decide_unpack _). vm_compute. exact I.
  - destruct (selection_labels_give_back_the_identifier "RPT-0001" "Line 3 | belt")
      as [_ Hreport]; [|exact Hreport].
    apply (bool_decide_unpack _). vm_compute. exact I.
Defined.

Lemma every_menu_entry_is_served_by_role_witness :
  ∃ f, main "Technician" "📝 Submit Report" = Some f ∧
       (technician_page f = true ↔ "Technician" = "technician").
Proof.
  apply every_menu_entry_is_served_by_role.
  apply (bool_decide_unpack _). vm_compute. exact I.
Defined.

Lemma login_takes_the_first_user_of_the_name_witness :
  login_screen "Siti Technician" true seeded_world
  = (Ok (Some [("user_id", "U002"); ("name", "Siti Technician"); ("role", "technician");
               ("email", "siti@tech.com")]), seeded_world).
Proof.
  destruct (login_takes_the_first_user_of_the_name "Siti Technician" seeded_world
              (Users_header :: (dict_values <$> demo_users)) demo_users 1
              [("user_id", "U002"); ("name", "Siti Technician"); ("role", "technician");
               ("email", "siti@tech.com")] eq_refl) as [Hin _].
  - vm_compute. reflexivity.
  - split; [apply (bool_decide_unpack _); vm_compute; exact I|].
    eexists. split; [reflexivity|]. repeat constructor.
  - vm_compute. reflexivity.
  - vm_compute. reflexivity.
  - exact Hin.
Defined.

Lemma sample_items_ok : items_ok sample_items.
Proof.
  right. eexists. split; [reflexivity|].
  repeat constructor; simpl; lia || (by left) || (by right).
Qed.

Lemma sheet_of_sample_items : sheet_of "Items" sample_world = sample_items.
Proof. vm_compute. reflexivity. Qed.

Lemma sheet_of_sample_reports : sheet_of "Reports" sample_world = sample_reports.
Proof. vm_compute. reflexivity. Qed.

Lemma items_change_only_in_status_witness :
  let ops := [OpDoAction sample_records "Ahmad" "ITM-0001" "use" "";
              OpRegisterItem "Siti" "Clamp meter" "Tools" "Rack C" "";
              OpManageReports "Siti" "RPT-0001" "resolved" ""] in
  let g0 := sheet_of "Items" sample_world in
  let g := sheet_of "Items" (run_operations (λ payload : pystr, Ok payload) ops sample_world) in
  items_ok g ∧ length g0 ≤ length g ∧
  ∀ r c, r < length g0 → c ≠ 4 → cell g r c = cell g0 r c.
Proof.
  cbv zeta. apply items_change_only_in_status.
  rewrite sheet_of_sample_items. apply sample_items_ok.
Defined.

Lemma reports_keep_what_was_submitted_witness :
  let ops := [OpSubmitReport "Ali User" "Line 4 down" "Belt torn" "high";
              OpManageReports "Siti" "RPT-0001" "resolved" "Restarted"] in
  let g0 := sheet_of "Reports" sample_world in
  let g := sheet_of "Reports" (run_operations (λ payload : pystr, Ok payload) ops sample_world) in
  (g = [] ∨ table Reports_header g) ∧ length g0 ≤ length g ∧
  ∀ r c, r < length g0 → c ∉ [5; 6; 8; 9] → cell g r c = cell g0 r c.
Proof.
  cbv zeta. apply reports_keep_what_was_submitted.
  right. rewrite sheet_of_sample_reports. apply sample_reports_table.
Defined.

Lemma usage_log_entries_are_check_outs_or_returns_witness :
  usage_log_ok
    (sheet_of "Usage_Log"
       (run_operations (λ payload : pystr, Ok payload)
          [OpDoAction sample_records "Ahmad" "ITM-0001" "use" "";
           OpDoAction sample_records "Siti" "ITM-0002" "return" ""] sample_world)).
Proof.
  apply usage_log_entries_are_check_outs_or_returns. left. vm_compute. reflexivity.
Defined.

Lemma users_are_only_ever_seeded_witness :
  users_seeded (sheet_of "Users" sample_world)
    (sheet_of "Users"
       (run_operations (λ payload : pystr, Ok payload)
          [OpInitSheetHeaders; OpSeedUsers; OpSeedUsers] sample_world)).
Proof.
  apply (users_are_only_ever_seeded (λ payload : pystr, Ok payload)
           [OpInitSheetHeaders; OpSeedUsers; OpSeedUsers] sample_world).
  left. vm_compute. reflexivity.
Defined.

Lemma dashboard_counts_add_up_witness :
  ∃ available in_use open_rpts,
    (page_dashboard_tech sample_world).1
    = Ok (length sample_items - 1, available, in_use, open_rpts) ∧
    available + in_use = length sample_items - 1 ∧
    sheets (page_dashboard_tech sample_world).2 = sheets sample_world.
Proof.
  apply (dashboard_counts_add_up sample_world sample_items).
  - reflexivity.
  - vm_compute. reflexivity.
  - apply sample_items_ok.
  - right. rewrite sheet_of_sample_reports. apply sample_reports_table.
Defined.

Lemma dashboard_follows_check_out_and_return_witness :
  ∃ total available in_use open_rpts,
    (page_dashboard_tech sample_world).1 = Ok (total, available, in_use, open_rpts) ∧
    (page_dashboard_tech (page_scan_use "Ahmad" "ITM-0001" "use" "" sample_world).2).1
    = Ok (if bool_decide ("use" = "use")
          then (total, available - 1, in_use + 1, open_rpts)
          else (total, available + 1, in_use - 1, open_rpts)) ∧
    0 < (if bool_decide ("use" = "use") then available else in_use).
Proof.
  apply (dashboard_follows_check_out_and_return "Ahmad" "ITM-0001" "use" "" sample_world
           sample_items [] sample_records 0
           (zip Items_header ["ITM-0001"; "Multimeter"; "Tools"; "Rack A"; "available";
                              "Ahmad"; "2024-01-01 09:00"; ""])).
  - reflexivity.
  - vm_compute. reflexivity.
  - apply sample_items_table.
  - vm_compute. reflexivity.
  - right. rewrite sheet_of_sample_reports. apply sample_reports_table.
  - vm_compute. reflexivity.
  - vm_compute. reflexivity.
  - left. split; [reflexivity | vm_compute; reflexivity].
Defined.

Lemma user_dashboard_follows_a_submission_witness :
  let w1 := (page_submit_report "Ali User" "Line 4 down" "Belt torn" "high" sample_world).2 in
  ∃ mine open_rpts resolved,
    (page_dashboard_user "Ali User" sample_world).1 = Ok (mine, open_rpts, resolved) ∧
    (page_dashboard_user "Ali User" w1).1 = Ok (S mine, S open_rpts, resolved) ∧
    ∀ other, other ≠ "Ali User" →
      (page_dashboard_user other w1).1 = (page_dashboard_user other sample_world).1.
Proof.
  apply (user_dashboard_follows_a_submission "Ali User" "Line 4 down" "Belt torn" "high"
           sample_world sample_reports).
  - reflexivity.
  - vm_compute. reflexivity.
  - right. apply sample_reports_table.
  - discriminate.
  - discriminate.
Defined.

Lemma user_dashboard_follows_a_resolution_witness :
  let w1 := (page_manage_reports "Ahmad" "RPT-0001" "resolved" "Belt replaced" sample_world).2 in
  ∃ mine open_rpts resolved,
    (page_dashboard_user "Ali User" sample_world).1 = Ok (mine, S open_rpts, resolved) ∧
    (page_dashboard_user "Ali User" w1).1 = Ok (mine, open_rpts, S resolved) ∧
    ∀ other, other ≠ "Ali User" →
      (page_dashboard_user other w1).1 = (page_dashboard_user other sample_world).1.
Proof.
  apply (user_dashboard_follows_a_resolution "Ahmad" "RPT-0001" "Belt replaced" "Ali User"
           sample_world sample_reports
           [zip Reports_header
              ["RPT-0001"; "Ali User"; "Line 3 down"; "Conveyor stopped"; "high"; "open"; "";
               "2024-01-03 08:00"; ""; ""]]
           0
           (zip Reports_header
              ["RPT-0001"; "Ali User"; "Line 3 down"; "Conveyor stopped"; "high"; "open"; "";
               "2024-01-03 08:00"; ""; ""])).
  - reflexivity.
  - vm_compute. reflexivity.
  - apply sample_reports_table.
  - vm_compute. reflexivity.
  - vm_compute. reflexivity.
  - vm_compute. reflexivity.
  - vm_compute. reflexivity.
Defined.

Lemma selected_report_is_the_one_updated_witness :
  let row := zip Reports_header
               ["RPT-0001"; "Ali User"; "Line 3 down"; "Conveyor stopped"; "high"; "open"; "";
                "2024-01-03 08:00"; ""; ""] in
  let sel := report_option "RPT-0001" "Line 3 down" in
  selected_report [row] sel sample_world = (Ok ("RPT-0001", row), sample_world) ∧
  sheets (page_manage_reports "Ahmad" (selected_report_id sel) "resolved" "Belt replaced"
            sample_world).2
  = <["Reports" := apply_updates 1 Reports_header
                     [("status", "resolved"); ("assigned_to", "Ahmad");
                      ("resolution", "Belt replaced"); ("updated_at", clock sample_world)]
                     sample_reports]> (sheets sample_world).
Proof.
  intros row sel.
  destruct (selected_report_is_the_one_updated "Ahmad" "resolved" "Belt replaced" sample_world
              sample_reports [row] 0 row "RPT-0001" "Line 3 down")
    as (_ & Hshown & Hwritten).
  - reflexivity.
  - vm_compute. reflexivity.
  - apply sample_reports_table.
  - vm_compute. reflexivity.
  - apply (bool_decide_unpack _). vm_compute. exact I.
  - reflexivity.
  - apply (bool_decide_unpack _). vm_compute. exact I.
  - vm_compute. reflexivity.
  - unfold no_space. apply (bool_decide_unpack _). vm_compute. exact I.
  - vm_compute. reflexivity.
  - split; [exact Hshown | exact Hwritten].
Defined.
